(** * MedMind backend: medication ledger, dose logs and adherence streak

    A shallow embedding of [backend/server.py]: the MongoDB collections are
    lists of documents, a document is a finite map from field names to
    values, the pydantic models are schemas that build such documents, and
    every route handler is a computation in a state-and-exception monad over
    the database.  The system clock ([datetime.now], [datetime.utcnow]) and
    the identifier source ([uuid.uuid4]) are explicit arguments of the
    handlers that read them. *)

From Stdlib Require Import ZArith Lia.
From stdpp Require Import gmap strings pretty list fin_maps sorting.

Local Open Scope string_scope.
Local Open Scope list_scope.
Local Open Scope Z_scope.

(** ** Values and documents *)

(** A Python [datetime] is a count of microseconds on the proleptic
    calendar and a [date] is a count of days; [datetime.combine] and
    [datetime.date] are then arithmetic. *)
Definition datetime := Z.
Definition date := Z.

Definition MICROSECONDS_PER_DAY : Z := 86400000000.

(** [datetime.min.time()] is 00:00:00 and [datetime.max.time()] is
    23:59:59.999999. *)
Definition time_min : Z := 0.
Definition time_max : Z := MICROSECONDS_PER_DAY - 1.

Definition combine (d : date) (t : Z) : datetime := d * MICROSECONDS_PER_DAY + t.
Definition date_of (t : datetime) : date := t `div` MICROSECONDS_PER_DAY.

(** The values a stored field can hold. *)
#[local] Set Warnings "-register-all".
Inductive value : Type :=
  | VNone
  | VBool (b : bool)
  | VInt (n : Z)
  | VStr (s : string)
  | VDatetime (t : datetime)
  | VList (l : list value)
  | VDict (d : list (string * value)).

Abbreviation doc := (gmap string value).

Definition is_None (v : value) : bool :=
  match v with VNone => true | _ => false end.

(** [d.get(k, default)] *)
Definition get (k : string) (default : value) (d : doc) : value :=
  match d !! k with Some v => v | None => default end.

(** [d.get(k) == s] for a string literal [s]: only a string compares equal. *)
Definition get_eq_str (k s : string) (d : doc) : bool :=
  match d !! k with
  | Some (VStr s') => bool_decide (s' = s)
  | _ => false
  end.

(** ** Exceptions *)

Inductive exn : Type :=
  | HTTPException (status_code : Z) (detail : string)
  | ValidationError
  | KeyError (k : string)
  | TypeError
  | ValueError
  | OverflowError.

Inductive result (A : Type) : Type :=
  | Ok (a : A)
  | Raise (e : exn).
Arguments Ok {A} a.
Arguments Raise {A} e.

Definition result_bind {A B} (f : A → result B) (r : result A) : result B :=
  match r with Ok a => f a | Raise e => Raise e end.

#[global] Instance result_ret : MRet result := λ A a, Ok a.
#[global] Instance result_mbind : MBind result := λ A B f r, result_bind f r.
#[global] Instance result_fmap : FMap result := λ A B f r, result_bind (λ a, Ok (f a)) r.

(** ** Pydantic models

    A model class is its list of fields; calling it on keyword arguments
    (a document unpacked with two stars) checks every
    supplied field against its annotation, fills the defaults of the absent
    ones, and ignores keys that are not fields.  The object is identified
    with its [.dict()].  The handlers only pass values that the request
    models have typed already, so pydantic's coercions never fire and a
    value of another type is a validation error. *)

Inductive ftype : Type :=
  | TStr | TInt | TBool | TDatetime | TList | TDict
  | TOptional (t : ftype).

Fixpoint has_type (v : value) (t : ftype) : bool :=
  match t, v with
  | TOptional _, VNone => true
  | TOptional t', _ => has_type v t'
  | TStr, VStr _ => true
  | TInt, VInt _ => true
  | TBool, VBool _ => true
  | TDatetime, VDatetime _ => true
  | TList, VList _ => true
  | TDict, VDict _ => true
  | _, _ => false
  end.

Inductive fdefault : Type :=
  | Required
  | Default (v : value)
  | Factory_uuid4
  | Factory_utcnow.

Record field : Type := Field { fname : string; ftyp : ftype; fdef : fdefault }.
Definition model := list field.

Section construct.
(** What [str(uuid.uuid4())] and [datetime.utcnow()] return during the call. *)
Variables (uuid4 : string) (utcnow : datetime).

Definition field_value (f : field) (kwargs : doc) : result value :=
  match kwargs !! fname f with
  | Some v => if has_type v (ftyp f) then Ok v else Raise ValidationError
  | None =>
      match fdef f with
      | Required => Raise ValidationError
      | Default v => Ok v
      | Factory_uuid4 => Ok (VStr uuid4)
      | Factory_utcnow => Ok (VDatetime utcnow)
      end
  end.

Fixpoint construct (m : model) (kwargs : doc) : result doc :=
  match m with
  | [] => Ok ∅
  | f :: m' =>
      v ← field_value f kwargs;
      rest ← construct m' kwargs;
      Ok (<[fname f := v]> rest)
  end.
End construct.

Definition Medication : model :=
  [ Field "id" TStr Factory_uuid4;
    Field "user_id" TStr Required;
    Field "name" TStr Required;
    Field "dosage" TStr Required;
    Field "frequency" TStr Required;
    Field "time_slots" TList Required;
    Field "total_pills" TInt Required;
    Field "remaining_pills" TInt Required;
    Field "refill_info" (TOptional TDict) (Default VNone);
    Field "prescription_image" (TOptional TStr) (Default VNone);
    Field "ai_extracted_info" (TOptional TDict) (Default VNone);
    Field "created_at" TDatetime Factory_utcnow;
    Field "is_active" TBool (Default (VBool true)) ].

Definition MedicationLog : model :=
  [ Field "id" TStr Factory_uuid4;
    Field "user_id" TStr Required;
    Field "medication_id" TStr Required;
    Field "scheduled_time" TDatetime Required;
    Field "taken_at" (TOptional TDatetime) (Default VNone);
    Field "status" TStr Required;
    Field "verification_photo" (TOptional TStr) (Default VNone);
    Field "ai_verification" (TOptional TDict) (Default VNone);
    Field "notes" (TOptional TStr) (Default VNone);
    Field "caregiver_notified" TBool (Default (VBool false));
    Field "created_at" TDatetime Factory_utcnow ].

(** ** The database

    Three of the collections behind the module-level handle [db]; a
    collection keeps its documents in insertion order, which is the order
    an unsorted [find] returns them in. *)

Record DB : Type := mkDB {
  user_profiles : list doc;
  medications : list doc;
  medication_logs : list doc }.

Definition empty_db : DB := mkDB [] [] [].

(** A handler reads and writes the database and may raise; a write made
    before the exception stays. *)
Definition M (A : Type) : Type := DB → result A * DB.

#[global] Instance M_ret : MRet M := λ A a db, (Ok a, db).
#[global] Instance M_mbind : MBind M := λ A B f m db,
  match m db with
  | (Ok a, db') => f a db'
  | (Raise e, db') => (Raise e, db')
  end.

Definition raise {A} (e : exn) : M A := λ db, (Raise e, db).
Definition lift {A} (r : result A) : M A := λ db, (r, db).
Definition read {A} (f : DB → A) : M A := λ db, (Ok (f db), db).
Definition write (f : DB → DB) : M unit := λ db, (Ok tt, f db).
(** A call of the driver that may raise and has written nothing then. *)
Definition call {A} (f : DB → result A) : M A := λ db, (f db, db).

(** *** Queries *)

(** The store keeps a [datetime] as a count of milliseconds: the driver
    cuts the microseconds off whatever it sends, in a document as in a
    query. *)
Definition truncate_ms (t : datetime) : datetime := t `div` 1000 * 1000.

(** [{k: s}] for a string [s], [{k: True}], and
    [{k: {"$gte": lo, "$lte": hi}}] for datetimes, where the bounds are
    sent cut to the millisecond and compared with the stored time as
    counts of milliseconds.  The fields queried this way hold scalars in
    every document the handlers write. *)
Definition match_str (k s : string) (d : doc) : bool :=
  match d !! k with
  | Some (VStr s') => bool_decide (s' = s)
  | _ => false
  end.

Definition match_true (k : string) (d : doc) : bool :=
  match d !! k with
  | Some (VBool b) => b
  | _ => false
  end.

Definition match_range (k : string) (lo hi : option datetime) (d : doc) : bool :=
  match d !! k with
  | Some (VDatetime t) =>
      from_option (λ l, bool_decide (truncate_ms l ≤ truncate_ms t)) true lo
      && from_option (λ h, bool_decide (truncate_ms t ≤ truncate_ms h)) true hi
  | _ => false
  end.

Definition find (q : doc → bool) (c : list doc) : list doc :=
  List.filter q c.

(** [cursor.to_list(length)] *)
Definition to_list (length : nat) (cursor : list doc) : list doc :=
  take length cursor.

Definition find_one (q : doc → bool) (c : list doc) : option doc :=
  head (find q c).

(** *** What the driver writes

    A document sent to the store is encoded first.  An [int] outside 64
    bits makes the encoder raise [OverflowError], and nothing is written;
    a [datetime] is stored as a count of milliseconds, its microseconds
    cut off.  Both reach inside lists and dictionaries.  The other limits
    of the encoder (the size of a document, strings that are not valid
    text) are not part of the model. *)

Definition INT64_MIN : Z := - 2 ^ 63.
Definition INT64_MAX : Z := 2 ^ 63 - 1.

Fixpoint encode_value (v : value) : result value :=
  match v with
  | VInt n =>
      if bool_decide (INT64_MIN ≤ n ≤ INT64_MAX) then Ok (VInt n) else Raise OverflowError
  | VDatetime t => Ok (VDatetime (truncate_ms t))
  | VList l =>
      VList <$> (fix items (l : list value) : result (list value) :=
                   match l with
                   | [] => Ok []
                   | x :: l' => x' ← encode_value x; r ← items l'; Ok (x' :: r)
                   end) l
  | VDict d =>
      VDict <$> (fix items (d : list (string * value)) : result (list (string * value)) :=
                   match d with
                   | [] => Ok []
                   | kx :: d' => x' ← encode_value kx.2; r ← items d'; Ok ((kx.1, x') :: r)
                   end) d
  | _ => Ok v
  end.

Definition encodes (v : value) : bool :=
  match encode_value v with Ok _ => true | Raise _ => false end.

(** The value as stored, for a value that the encoder accepts. *)
Definition stored_value (v : value) : value :=
  match encode_value v with Ok v' => v' | Raise _ => v end.

Definition encodable (d : doc) : bool :=
  bool_decide (map_Forall (λ _ v, encodes v = true) d).

Definition stored (d : doc) : doc := stored_value <$> d.

Definition encode (d : doc) : result doc :=
  if encodable d then Ok (stored d) else Raise OverflowError.

Definition insert_one (d : doc) (c : list doc) : result (list doc) :=
  d' ← encode d; Ok (c ++ [d']).

(** What the server does with [{"$set": upd}]: the first matching document
    takes the fields of [upd]; the result is [None] when no document
    matches. *)
Fixpoint set_first (q : doc → bool) (upd : doc) (c : list doc) : option (list doc) :=
  match c with
  | [] => None
  | d :: c' =>
      if q d then Some ((upd ∪ d) :: c')
      else (d ::.) <$> set_first q upd c'
  end.

(** [update_one(q, {"$set": upd})]; the result is [None] when
    [matched_count] is 0. *)
Definition update_one (q : doc → bool) (upd : doc) (c : list doc)
    : result (option (list doc)) :=
  upd' ← encode upd; Ok (set_first q upd' c).

(** [.sort("scheduled_time", -1)]: descending; a document without a
    datetime there sorts below every datetime. *)
Definition sort_key (k : string) (d : doc) : option datetime :=
  match d !! k with Some (VDatetime t) => Some t | _ => None end.

Definition key_le (a b : option datetime) : Prop :=
  match a, b with
  | None, _ => True
  | Some _, None => False
  | Some x, Some y => x ≤ y
  end.

#[global] Instance key_le_dec (a b : option datetime) : Decision (key_le a b) :=
  match a, b return Decision (key_le a b) with
  | None, _ => left I
  | Some _, None => right (λ H : False, H)
  | Some x, Some y => decide (x ≤ y)
  end.

Definition sort_desc (k : string) (c : list doc) : list doc :=
  merge_sort (λ d1 d2, key_le (sort_key k d2) (sort_key k d1)) c.

(** [{k: v for k, v in d.items() if v is not None}] *)
Definition drop_None (d : doc) : doc :=
  filter (λ kv : string * value, is_None kv.2 = false) d.

Definition opt {A} (f : A → value) (o : option A) : value :=
  from_option f VNone o.

(** [d[k]] *)
Definition getitem (k : string) (d : doc) : result value :=
  match d !! k with Some v => Ok v | None => Raise (KeyError k) end.

(** Truth value of an optional string argument: [None] and the empty
    string are false. *)
Definition truthy (o : option string) : bool :=
  match o with Some s => negb (bool_decide (s = "")) | None => false end.

Definition set_medications (c : list doc) (db : DB) : DB :=
  mkDB (user_profiles db) c (medication_logs db).
Definition set_medication_logs (c : list doc) (db : DB) : DB :=
  mkDB (user_profiles db) (medications db) c.

(** ** Request models *)

Module MedicationCreateWithUser.
Record t : Type := mk {
  user_id : string;
  name : string;
  dosage : string;
  frequency : string;
  time_slots : list string;
  total_pills : Z;
  refill_info : option (list (string * value));
  prescription_image : option string }.

Definition dict (x : t) : doc :=
  list_to_map
    [ ("user_id", VStr (user_id x));
      ("name", VStr (name x));
      ("dosage", VStr (dosage x));
      ("frequency", VStr (frequency x));
      ("time_slots", VList (VStr <$> time_slots x));
      ("total_pills", VInt (total_pills x));
      ("refill_info", opt VDict (refill_info x));
      ("prescription_image", opt VStr (prescription_image x)) ].
End MedicationCreateWithUser.

Module MedicationUpdate.
Record t : Type := mk {
  name : option string;
  dosage : option string;
  frequency : option string;
  time_slots : option (list string);
  remaining_pills : option Z;
  refill_info : option (list (string * value));
  is_active : option bool }.

Definition dict (x : t) : doc :=
  list_to_map
    [ ("name", opt VStr (name x));
      ("dosage", opt VStr (dosage x));
      ("frequency", opt VStr (frequency x));
      ("time_slots", opt (λ l, VList (VStr <$> l)) (time_slots x));
      ("remaining_pills", opt VInt (remaining_pills x));
      ("refill_info", opt VDict (refill_info x));
      ("is_active", opt VBool (is_active x)) ].
End MedicationUpdate.

Module MedicationLogCreate.
Record t : Type := mk {
  medication_id : string;
  scheduled_time : datetime;
  status : string }.

(** [status: str = "pending"] *)
Definition default_status : string := "pending".

Definition dict (x : t) : doc :=
  list_to_map
    [ ("medication_id", VStr (medication_id x));
      ("scheduled_time", VDatetime (scheduled_time x));
      ("status", VStr (status x)) ].
End MedicationLogCreate.

Module MedicationLogUpdate.
Record t : Type := mk {
  taken_at : option datetime;
  status : option string;
  verification_photo : option string;
  notes : option string }.

Definition dict (x : t) : doc :=
  list_to_map
    [ ("taken_at", opt VDatetime (taken_at x));
      ("status", opt VStr (status x));
      ("verification_photo", opt VStr (verification_photo x));
      ("notes", opt VStr (notes x)) ].
End MedicationLogUpdate.

(** ** Medication routes *)

Definition create_medication (uuid4 : string) (utcnow : datetime)
    (medication_data : MedicationCreateWithUser.t) : M doc :=
  let medication_dict := MedicationCreateWithUser.dict medication_data in
  user_id ← lift (getitem "user_id" medication_dict);
  let medication_dict := delete "user_id" medication_dict in
  let medication_dict := <["user_id" := user_id]> medication_dict in
  total_pills ← lift (getitem "total_pills" medication_dict);
  let medication_dict := <["remaining_pills" := total_pills]> medication_dict in
  medication_obj ← lift (construct uuid4 utcnow Medication medication_dict);
  c ← call (λ db, insert_one medication_obj (medications db));
  write (set_medications c);;
  mret medication_obj.

Definition update_medication (uuid4 : string) (utcnow : datetime)
    (medication_id : string) (medication_update : MedicationUpdate.t) : M doc :=
  let update_dict := drop_None (MedicationUpdate.dict medication_update) in
  if bool_decide (size update_dict = 0%nat)
  then raise (HTTPException 400 "No fields to update")
  else
    result ← call (λ db, update_one (match_str "id" medication_id) update_dict (medications db));
    match result with
    | None => raise (HTTPException 404 "Medication not found")
    | Some c =>
        write (set_medications c);;
        updated_medication ← read (λ db, find_one (match_str "id" medication_id) (medications db));
        match updated_medication with
        | Some d => lift (construct uuid4 utcnow Medication d)
        | None => raise TypeError
        end
    end.

Definition delete_medication (medication_id : string) : M string :=
  result ← call (λ db, update_one (match_str "id" medication_id)
                         {["is_active" := VBool false]} (medications db));
  match result with
  | None => raise (HTTPException 404 "Medication not found")
  | Some c => write (set_medications c);; mret "Medication deleted successfully"
  end.

(** ** Medication log routes *)

Definition create_medication_log (uuid4 : string) (utcnow : datetime)
    (log : MedicationLogCreate.t) (user_id : string) : M doc :=
  let log_dict := MedicationLogCreate.dict log in
  let log_dict := <["user_id" := VStr user_id]> log_dict in
  log_obj ← lift (construct uuid4 utcnow MedicationLog log_dict);
  c ← call (λ db, insert_one log_obj (medication_logs db));
  write (set_medication_logs c);;
  mret log_obj.

Section get_user_medication_logs.
(** [datetime.fromisoformat], which raises [ValueError] on a string it
    does not accept. *)
Variable fromisoformat : string → result datetime.

Definition parse_bound (s : option string) : result (option datetime) :=
  if truthy s then Some <$> from_option fromisoformat (Raise ValueError) s
  else Ok None.

Definition get_user_medication_logs (uuid4 : string) (utcnow : datetime)
    (user_id : string) (start_date end_date : option string) : M (list doc) :=
  query ←
    (if truthy start_date || truthy end_date then
       gte ← lift (parse_bound start_date);
       lte ← lift (parse_bound end_date);
       mret (λ d, match_str "user_id" user_id d
                   && match_range "scheduled_time" gte lte d)
     else mret (match_str "user_id" user_id));
  logs ← read (λ db, to_list 1000 (sort_desc "scheduled_time" (find query (medication_logs db))));
  lift (mapM (construct uuid4 utcnow MedicationLog) logs).
End get_user_medication_logs.

Definition update_medication_log (uuid4 : string) (utcnow : datetime)
    (log_id : string) (log_update : MedicationLogUpdate.t) : M doc :=
  let update_dict := drop_None (MedicationLogUpdate.dict log_update) in
  if bool_decide (size update_dict = 0%nat)
  then raise (HTTPException 400 "No fields to update")
  else
    result ← call (λ db, update_one (match_str "id" log_id) update_dict (medication_logs db));
    match result with
    | None => raise (HTTPException 404 "Medication log not found")
    | Some c =>
        write (set_medication_logs c);;
        updated_log ← read (λ db, find_one (match_str "id" log_id) (medication_logs db));
        match updated_log with
        | Some d => lift (construct uuid4 utcnow MedicationLog d)
        | None => raise TypeError
        end
    end.

Definition mark_medication_taken (utcnow : datetime)
    (log_id : string) (verification_photo : option string) : M string :=
  let update_data : doc :=
    {[ "status" := VStr "taken"; "taken_at" := VDatetime utcnow ]} in
  let update_data :=
    if truthy verification_photo
    then <["verification_photo" := opt VStr verification_photo]> update_data
    else update_data in
  result ← call (λ db, update_one (match_str "id" log_id) update_data (medication_logs db));
  match result with
  | None => raise (HTTPException 404 "Medication log not found")
  | Some c => write (set_medication_logs c);; mret "Medication marked as taken"
  end.

(** ** Dashboard *)

Definition UserProfile : model :=
  [ Field "id" TStr Factory_uuid4;
    Field "name" TStr Required;
    Field "age" TInt Required;
    Field "phone_number" TStr Required;
    Field "profile_photo" (TOptional TStr) (Default VNone);
    Field "emergency_contact" TDict Required;
    Field "caregiver_contact" TDict Required;
    Field "doctor_contact" TDict Required;
    Field "appearance_mode" TStr Required;
    Field "reminder_tone" TStr Required;
    Field "notification_preferences" TDict Required;
    Field "fitbit_connected" TBool (Default (VBool false));
    Field "apple_watch_connected" TBool (Default (VBool false));
    Field "created_at" TDatetime Factory_utcnow;
    Field "onboarding_completed" TBool (Default (VBool false)) ].

(** Integer subtraction of two stored values; [bool] is a subclass of
    [int], anything else makes the sum raise [TypeError]. *)
Definition as_int (v : value) : result Z :=
  match v with
  | VInt n => Ok n
  | VBool b => Ok (bool_to_Z b)
  | _ => Raise TypeError
  end.

Definition py_sub (a b : value) : result Z :=
  x ← as_int a; y ← as_int b; Ok (x - y).

(** The builtin [sum]: a left fold from 0. *)
Definition py_sum (l : list Z) : Z := foldl Z.add 0 l.

(** [sum([med.get("total_pills", 0) - med.get("remaining_pills", 0)
          for med in medications])] *)
Definition total_pills_taken (medications : list doc) : result Z :=
  terms ← mapM (λ med, py_sub (get "total_pills" (VInt 0) med)
                               (get "remaining_pills" (VInt 0) med)) medications;
  Ok (py_sum terms).

(** The query of one calendar day of one user's logs. *)
Definition day_query (user_id : string) (day_start day_end : datetime) (d : doc) : bool :=
  match_str "user_id" user_id d
  && match_range "scheduled_time" (Some day_start) (Some day_end) d.

Definition day_logs_of (logs : list doc) (user_id : string) (check_date : date) : list doc :=
  let day_start := combine check_date time_min in
  let day_end := combine check_date time_max in
  to_list 1000 (find (day_query user_id day_start day_end) logs).

Definition missed_count (day_logs : list doc) : Z :=
  Z.of_nat (length (List.filter (get_eq_str "status" "missed") day_logs)).

(** The body of [for i in range(365)], over the remaining values of [i].
    Besides the running [streak] it returns the dates it has queried, in
    order. *)
Fixpoint streak_loop (logs : list doc) (user_id : string) (current_date : date)
    (range : list nat) (streak : Z) (queried : list date) : Z * list date :=
  match range with
  | [] => (streak, queried)
  | i :: range' =>
      let check_date := current_date - Z.of_nat i in
      let day_logs := day_logs_of logs user_id check_date in
      let queried := queried ++ [check_date] in
      if bool_decide (day_logs = []) then (streak, queried)
      else if bool_decide (missed_count day_logs > 0) then (streak, queried)
      else streak_loop logs user_id current_date range' (streak + 1) queried
  end.

(** [now] is what [datetime.now()] returns at the top of the function. *)
Definition streak_run (now : datetime) (user_id : string) (db : DB) : Z * list date :=
  let current_date := date_of now in
  streak_loop (medication_logs db) user_id current_date (seq 0 365) 0 [].

Definition calculate_medication_streak (now : datetime) (user_id : string) : M Z :=
  read (λ db, (streak_run now user_id db).1).

Module Dashboard.
Record t : Type := mk {
  user_profile : doc;
  medications : list doc;
  today_logs : list doc;
  streak : Z;
  total_pills_taken : Z;
  today_date : date }.
End Dashboard.

(** [now] and [now'] are the two successive readings of [datetime.now()],
    the second one inside [calculate_medication_streak]; [today_date] is
    kept as a date rather than rendered with [isoformat]. *)
Definition get_user_dashboard (uuid4 : string) (utcnow : datetime)
    (now now' : datetime) (user_id : string) : M Dashboard.t :=
  profile ← read (λ db, find_one (match_str "id" user_id) (user_profiles db));
  match profile with
  | None => raise (HTTPException 404 "Profile not found")
  | Some profile =>
      meds ← read (λ db, to_list 1000
                (find (λ d, match_str "user_id" user_id d && match_true "is_active" d)
                      (medications db)));
      let today := date_of now in
      let today_start := combine today time_min in
      let today_end := combine today time_max in
      today_logs ← read (λ db, to_list 1000
                (find (day_query user_id today_start today_end) (medication_logs db)));
      streak ← calculate_medication_streak now' user_id;
      taken ← lift (total_pills_taken meds);
      profile_obj ← lift (construct uuid4 utcnow UserProfile profile);
      med_objs ← lift (mapM (construct uuid4 utcnow Medication) meds);
      log_objs ← lift (mapM (construct uuid4 utcnow MedicationLog) today_logs);
      mret (Dashboard.mk profile_obj med_objs log_objs streak taken today)
  end.

(** * Vocabulary of the properties *)

(** ** Day buckets *)

(** [current_date - timedelta(days=i)] *)
Definition days_ago (current_date : date) (i : nat) : date :=
  current_date - Z.of_nat i.

(** The day bucket: the logs of a user whose [scheduled_time] falls on
    date [d], all of them, in stored order. *)
Definition on_day (user_id : string) (d : date) (l : doc) : bool :=
  match_str "user_id" user_id l
  && match l !! "scheduled_time" with
     | Some (VDatetime t) => bool_decide (date_of t = d)
     | _ => false
     end.

Definition day_bucket (logs : list doc) (user_id : string) (d : date) : list doc :=
  List.filter (on_day user_id d) logs.

Definition is_missed (l : doc) : bool := get_eq_str "status" "missed" l.

Definition has_log (logs : list doc) (user_id : string) (d : date) : bool :=
  negb (bool_decide (day_bucket logs user_id d = [])).

Definition has_missed (logs : list doc) (user_id : string) (d : date) : bool :=
  existsb is_missed (day_bucket logs user_id d).

(** A day with at least one log and no log of status missed. *)
Definition clean_day (logs : list doc) (user_id : string) (d : date) : bool :=
  has_log logs user_id d && negb (has_missed logs user_id d).

(** Today and the [k-1] days before it are clean. *)
Definition all_clean (logs : list doc) (user_id : string) (today : date) (k : nat) : bool :=
  forallb (λ i, clean_day logs user_id (days_ago today i)) (seq 0 k).

(** What the loop body decides about one date. *)
Definition day_counts (logs : list doc) (user_id : string) (d : date) : bool :=
  negb (bool_decide (day_logs_of logs user_id d = []))
  && negb (bool_decide (missed_count (day_logs_of logs user_id d) > 0)).

(** A day whose logs are all still open. *)
Definition is_open (l : doc) : bool :=
  get_eq_str "status" "pending" l || get_eq_str "status" "current" l.

(** ** Sample data *)

(** One scheduled dose at 08:00 of date [d], recorded through the route. *)
Definition log_dose (n : nat) (user_id : string) (d : date) (status : string) (db : DB) : DB :=
  (create_medication_log ("log-" +:+ pretty n) 0
     (MedicationLogCreate.mk "med-1" (combine d 28800000000) status) user_id db).2.

Definition sample_today : date := 739000.

(** A user with one taken dose on each of the 366 days up to
    [sample_today]. *)
Definition db_366_days : DB :=
  foldl (λ db i, log_dose i "u1" (days_ago sample_today i) "taken" db) empty_db (seq 0 366).

(** The scenario of the specification: two taken doses today, one missed
    yesterday, three taken the day before. *)
Definition db_scenario : DB :=
  foldl (λ db '(n, back, status), log_dose n "u1" (days_ago sample_today back) status db)
    empty_db
    [ (0, 0, "taken"); (1, 0, "taken"); (2, 1, "missed");
      (3, 2, "taken"); (4, 2, "taken"); (5, 2, "taken") ]%nat.

(** Three days of doses nobody has acted on yet. *)
Definition db_open_days : DB :=
  foldl (λ db '(n, back, status), log_dose n "u1" (days_ago sample_today back) status db)
    empty_db
    [ (0, 0, "pending"); (1, 0, "current"); (2, 1, "pending"); (3, 2, "current") ]%nat.

(** The stored logs of one user. *)
Definition user_logs (user_id : string) (db : DB) : list doc :=
  List.filter (match_str "user_id" user_id) (medication_logs db).

(** A day of 1001 doses, the last one missed. *)
Definition db_crowded_day : DB :=
  log_dose 1000 "u1" sample_today "missed"
    (foldl (λ db i, log_dose i "u1" sample_today "taken" db) empty_db (seq 0 1000)).

(** Same day at another hour, another user's dose added, a medication
    added: same streak. *)
Definition db_scenario_later : DB :=
  (create_medication "med-9" 0
     (MedicationCreateWithUser.mk "u2" "Ibuprofen" "200mg" "daily" ["09:00"] 10 None None)
     (log_dose 7 "u2" sample_today "missed" db_scenario)).2.

(** ** Created documents *)

(** The medication that [create_medication] builds and stores. *)
Definition new_medication (uuid4 : string) (utcnow : datetime)
    (x : MedicationCreateWithUser.t) : doc :=
  list_to_map
    [ ("id", VStr uuid4);
      ("user_id", VStr (MedicationCreateWithUser.user_id x));
      ("name", VStr (MedicationCreateWithUser.name x));
      ("dosage", VStr (MedicationCreateWithUser.dosage x));
      ("frequency", VStr (MedicationCreateWithUser.frequency x));
      ("time_slots", VList (VStr <$> MedicationCreateWithUser.time_slots x));
      ("total_pills", VInt (MedicationCreateWithUser.total_pills x));
      ("remaining_pills", VInt (MedicationCreateWithUser.total_pills x));
      ("refill_info", opt VDict (MedicationCreateWithUser.refill_info x));
      ("prescription_image", opt VStr (MedicationCreateWithUser.prescription_image x));
      ("ai_extracted_info", VNone);
      ("created_at", VDatetime utcnow);
      ("is_active", VBool true) ].

(** The log that [create_medication_log] builds and stores. *)
Definition new_medication_log (uuid4 : string) (utcnow : datetime)
    (x : MedicationLogCreate.t) (user_id : string) : doc :=
  list_to_map
    [ ("id", VStr uuid4);
      ("user_id", VStr user_id);
      ("medication_id", VStr (MedicationLogCreate.medication_id x));
      ("scheduled_time", VDatetime (MedicationLogCreate.scheduled_time x));
      ("taken_at", VNone);
      ("status", VStr (MedicationLogCreate.status x));
      ("verification_photo", VNone);
      ("ai_verification", VNone);
      ("notes", VNone);
      ("caregiver_notified", VBool false);
      ("created_at", VDatetime utcnow) ].

(** ** Requests and reachable states *)

(** The requests that write the medications or the medication logs. *)
Inductive request : Type :=
  | CreateMedication (uuid4 : string) (utcnow : datetime)
      (medication_data : MedicationCreateWithUser.t)
  | UpdateMedication (uuid4 : string) (utcnow : datetime)
      (medication_id : string) (medication_update : MedicationUpdate.t)
  | DeleteMedication (medication_id : string)
  | CreateMedicationLog (uuid4 : string) (utcnow : datetime)
      (log : MedicationLogCreate.t) (user_id : string)
  | UpdateMedicationLog (uuid4 : string) (utcnow : datetime)
      (log_id : string) (log_update : MedicationLogUpdate.t)
  | MarkMedicationTaken (utcnow : datetime)
      (log_id : string) (verification_photo : option string).

(** The database after the request, answered or failed. *)
Definition handle (r : request) (db : DB) : DB :=
  match r with
  | CreateMedication u t x => (create_medication u t x db).2
  | UpdateMedication u t i x => (update_medication u t i x db).2
  | DeleteMedication i => (delete_medication i db).2
  | CreateMedicationLog u t x uid => (create_medication_log u t x uid db).2
  | UpdateMedicationLog u t i x => (update_medication_log u t i x db).2
  | MarkMedicationTaken t i p => (mark_medication_taken t i p db).2
  end.

(** The states reached from a database without medications and logs by
    requests that [allowed] admits in the state they arrive in. *)
Inductive reachable_by (allowed : DB → request → bool) : DB → Prop :=
  | reachable_init db :
      medications db = [] → medication_logs db = [] → reachable_by allowed db
  | reachable_step db r :
      reachable_by allowed db → allowed db r = true → reachable_by allowed (handle r db).

Definition reachable : DB → Prop := reachable_by (λ _ _, true).

(** ** Medication invariant *)

(** [0 ≤ remaining_pills ≤ total_pills] *)
Definition med_ok (d : doc) : bool :=
  match d !! "total_pills", d !! "remaining_pills" with
  | Some (VInt t), Some (VInt r) => bool_decide (0 ≤ r) && bool_decide (r ≤ t)
  | _, _ => false
  end.

Definition all_meds_ok (db : DB) : bool := forallb med_ok (medications db).

(** The value fits the medications that the identifier selects. *)
Definition fits_total (medication_id : string) (r : Z) (db : DB) : bool :=
  forallb (λ d, negb (match_str "id" medication_id d)
                || match d !! "total_pills" with
                   | Some (VInt t) => bool_decide (r ≤ t)
                   | _ => false
                   end) (medications db).

(** Requests with pill counts in range: a non-negative total on creation,
    and on update a remaining count, when one is supplied, between 0 and
    the total of the medication updated. *)
Definition pills_in_range (db : DB) (r : request) : bool :=
  match r with
  | CreateMedication _ _ x => bool_decide (0 ≤ MedicationCreateWithUser.total_pills x)
  | UpdateMedication _ _ i x =>
      match MedicationUpdate.remaining_pills x with
      | None => true
      | Some r => bool_decide (0 ≤ r) && fits_total i r db
      end
  | _ => true
  end.

Definition sample_medication : MedicationCreateWithUser.t :=
  MedicationCreateWithUser.mk "u1" "Lisinopril" "10mg" "once daily" ["08:00"] 30 None None.

Definition set_remaining (r : Z) : MedicationUpdate.t :=
  MedicationUpdate.mk None None None None (Some r) None None.

(** A medication of 30 pills created and then updated to 25 remaining,
    as the integration test does, and to 31 remaining. *)
Definition db_refilled (r : Z) : DB :=
  handle (UpdateMedication "x" 2 "med-1" (set_remaining r))
    (handle (CreateMedication "med-1" 1 sample_medication) empty_db).

(** ** Pill totals *)

(** A medication document with the given total and remaining counts. *)
Definition has_pills (med : doc) (c : Z * Z) : Prop :=
  med !! "total_pills" = Some (VInt c.1) ∧ med !! "remaining_pills" = Some (VInt c.2).

(** The sum of (total − remaining), not clamped. *)
Fixpoint sum_taken (counts : list (Z * Z)) : Z :=
  match counts with
  | [] => 0
  | (total, remaining) :: counts' => (total - remaining) + sum_taken counts'
  end.

(** The medications of a user as the dashboard reads them. *)
Definition active_medications (user_id : string) (db : DB) : list doc :=
  to_list 1000
    (find (λ d, match_str "user_id" user_id d && match_true "is_active" d) (medications db)).

(** Medication A of 30 pills with 25 remaining, medication B of 20 pills
    untouched. *)
Definition db_A_and_B : DB :=
  handle (CreateMedication "med-2" 3
            (MedicationCreateWithUser.mk "u1" "Metformin" "500mg" "twice daily"
               ["08:00"; "20:00"] 20 None None))
    (db_refilled 25).

(** What [mark_medication_taken] sets, as the store keeps it. *)
Definition taken_update (utcnow : datetime) (verification_photo : option string) : doc :=
  if truthy verification_photo
  then <["verification_photo" := opt VStr verification_photo]>
         {[ "status" := VStr "taken"; "taken_at" := VDatetime (truncate_ms utcnow) ]}
  else {[ "status" := VStr "taken"; "taken_at" := VDatetime (truncate_ms utcnow) ]}.


(** ** Dose log invariant and statuses *)

(** [taken_at] is set: present and not [None]. *)
Definition has_taken_at (d : doc) : bool :=
  match d !! "taken_at" with Some v => negb (is_None v) | None => false end.

Definition is_taken (d : doc) : bool := get_eq_str "status" "taken" d.

(** [taken_at] is set if and only if the status is taken. *)
Definition log_ok (d : doc) : bool := eqb (has_taken_at d) (is_taken d).

Definition all_logs_ok (db : DB) : bool := forallb log_ok (medication_logs db).

(** No log that the identifier selects has [taken_at] set. *)
Definition not_taken_yet (log_id : string) (db : DB) : bool :=
  forallb (λ d, negb (match_str "id" log_id d) || negb (has_taken_at d))
    (medication_logs db).

(** Requests that keep [taken_at] and the status together: a log created
    with a status other than taken; an update that carries neither field,
    or status taken with a [taken_at], or another status and no [taken_at]
    for a log without one; and every other kind of request. *)
Definition keeps_taken_at (db : DB) (r : request) : bool :=
  match r with
  | CreateMedicationLog _ _ x _ =>
      negb (bool_decide (MedicationLogCreate.status x = "taken"))
  | UpdateMedicationLog _ _ i x =>
      match MedicationLogUpdate.status x, MedicationLogUpdate.taken_at x with
      | None, None => true
      | Some s, Some _ => bool_decide (s = "taken")
      | Some s, None => negb (bool_decide (s = "taken")) && not_taken_yet i db
      | None, Some _ => false
      end
  | _ => true
  end.

(** A terminal status: taken or missed. *)
Definition is_terminal (d : doc) : bool :=
  get_eq_str "status" "taken" d || get_eq_str "status" "missed" d.

(** Updates of a log that carry a status are the requests set apart. *)
Definition carries_no_status (r : request) : bool :=
  match r with
  | UpdateMedicationLog _ _ _ x =>
      match MedicationLogUpdate.status x with None => true | Some _ => false end
  | _ => true
  end.

Definition is_mark_taken (r : request) : bool :=
  match r with MarkMedicationTaken _ _ _ => true | _ => false end.

Definition set_status (s : string) : MedicationLogUpdate.t :=
  MedicationLogUpdate.mk None (Some s) None None.

Definition add_note (s : string) : MedicationLogUpdate.t :=
  MedicationLogUpdate.mk None None None (Some s).

(** One pending dose, then reported through the update route with the
    given status and nothing else. *)
Definition db_one_dose : DB :=
  handle (CreateMedicationLog "log-0" 1
            (MedicationLogCreate.mk "med-1" (combine sample_today 28800000000)
               MedicationLogCreate.default_status) "u1") empty_db.

Definition db_reported (s : string) : DB :=
  handle (UpdateMedicationLog "x" 2 "log-0" (set_status s)) db_one_dose.

(** The dose taken through the take route, with a note added later. *)
Definition db_taken_and_noted : DB :=
  handle (UpdateMedicationLog "x" 3 "log-0" (add_note "with food"))
    (handle (MarkMedicationTaken 2 "log-0" None) db_one_dose).

(** The stored log of that dose. *)
Definition dose_taken_and_noted : doc :=
  default ∅ (medication_logs db_taken_and_noted !! 0%nat).

(** ** Reading the logs *)

(** The bound is absent, empty or a string that the parser accepts. *)
Definition accepted (fromisoformat : string → result datetime) (s : option string) : Prop :=
  match s with
  | Some s => s = "" ∨ ∃ t, fromisoformat s = Ok t
  | None => True
  end.

(** A parser for the examples: it accepts one midnight and nothing else. *)
Definition sample_fromisoformat (s : string) : result datetime :=
  if bool_decide (s = "2024-04-25") then Ok (combine sample_today 0) else Raise ValueError.

(** * The remaining routes *)

Definition set_user_profiles (c : list doc) (db : DB) : DB :=
  mkDB c (medications db) (medication_logs db).

(** ** Profile request models *)

(** A [Dict[str, str]] and a [Dict[str, bool]] as stored values. *)
Definition str_dict (d : list (string * string)) : value :=
  VDict ((λ kv, (kv.1, VStr kv.2)) <$> d).
Definition bool_dict (d : list (string * bool)) : value :=
  VDict ((λ kv, (kv.1, VBool kv.2)) <$> d).

Module UserProfileCreate.
Record t : Type := mk {
  name : string;
  age : Z;
  phone_number : string;
  profile_photo : option string;
  emergency_contact : list (string * string);
  caregiver_contact : list (string * string);
  doctor_contact : list (string * string);
  appearance_mode : string;
  reminder_tone : string;
  notification_preferences : list (string * bool);
  fitbit_connected : bool;
  apple_watch_connected : bool }.

Definition dict (x : t) : doc :=
  list_to_map
    [ ("name", VStr (name x));
      ("age", VInt (age x));
      ("phone_number", VStr (phone_number x));
      ("profile_photo", opt VStr (profile_photo x));
      ("emergency_contact", str_dict (emergency_contact x));
      ("caregiver_contact", str_dict (caregiver_contact x));
      ("doctor_contact", str_dict (doctor_contact x));
      ("appearance_mode", VStr (appearance_mode x));
      ("reminder_tone", VStr (reminder_tone x));
      ("notification_preferences", bool_dict (notification_preferences x));
      ("fitbit_connected", VBool (fitbit_connected x));
      ("apple_watch_connected", VBool (apple_watch_connected x)) ].
End UserProfileCreate.

Module UserProfileUpdate.
Record t : Type := mk {
  name : option string;
  age : option Z;
  phone_number : option string;
  profile_photo : option string;
  emergency_contact : option (list (string * string));
  caregiver_contact : option (list (string * string));
  doctor_contact : option (list (string * string));
  appearance_mode : option string;
  reminder_tone : option string;
  notification_preferences : option (list (string * bool));
  fitbit_connected : option bool;
  apple_watch_connected : option bool }.

Definition dict (x : t) : doc :=
  list_to_map
    [ ("name", opt VStr (name x));
      ("age", opt VInt (age x));
      ("phone_number", opt VStr (phone_number x));
      ("profile_photo", opt VStr (profile_photo x));
      ("emergency_contact", opt str_dict (emergency_contact x));
      ("caregiver_contact", opt str_dict (caregiver_contact x));
      ("doctor_contact", opt str_dict (doctor_contact x));
      ("appearance_mode", opt VStr (appearance_mode x));
      ("reminder_tone", opt VStr (reminder_tone x));
      ("notification_preferences", opt bool_dict (notification_preferences x));
      ("fitbit_connected", opt VBool (fitbit_connected x));
      ("apple_watch_connected", opt VBool (apple_watch_connected x)) ].
End UserProfileUpdate.

(** ** Profile routes *)

Definition create_user_profile (uuid4 : string) (utcnow : datetime)
    (profile : UserProfileCreate.t) : M doc :=
  let profile_dict := UserProfileCreate.dict profile in
  profile_obj ← lift (construct uuid4 utcnow UserProfile profile_dict);
  c ← call (λ db, insert_one profile_obj (user_profiles db));
  write (set_user_profiles c);;
  mret profile_obj.

Definition get_user_profile (uuid4 : string) (utcnow : datetime)
    (user_id : string) : M doc :=
  profile ← read (λ db, find_one (match_str "id" user_id) (user_profiles db));
  match profile with
  | None => raise (HTTPException 404 "Profile not found")
  | Some profile => lift (construct uuid4 utcnow UserProfile profile)
  end.

(** [find()] without a filter. *)
Definition get_all_profiles (uuid4 : string) (utcnow : datetime) : M (list doc) :=
  profiles ← read (λ db, to_list 1000 (find (λ _, true) (user_profiles db)));
  lift (mapM (construct uuid4 utcnow UserProfile) profiles).

Definition update_user_profile (uuid4 : string) (utcnow : datetime)
    (user_id : string) (profile_update : UserProfileUpdate.t) : M doc :=
  let update_dict := drop_None (UserProfileUpdate.dict profile_update) in
  if bool_decide (size update_dict = 0%nat)
  then raise (HTTPException 400 "No fields to update")
  else
    result ← call (λ db, update_one (match_str "id" user_id) update_dict (user_profiles db));
    match result with
    | None => raise (HTTPException 404 "Profile not found")
    | Some c =>
        write (set_user_profiles c);;
        updated_profile ← read (λ db, find_one (match_str "id" user_id) (user_profiles db));
        match updated_profile with
        | Some d => lift (construct uuid4 utcnow UserProfile d)
        | None => raise TypeError
        end
    end.

Definition complete_onboarding (user_id : string) : M string :=
  result ← call (λ db, update_one (match_str "id" user_id)
                         {["onboarding_completed" := VBool true]} (user_profiles db));
  match result with
  | None => raise (HTTPException 404 "Profile not found")
  | Some c => write (set_user_profiles c);; mret "Onboarding completed successfully"
  end.

(** ** Listing medications *)

Definition get_user_medications (uuid4 : string) (utcnow : datetime)
    (user_id : string) : M (list doc) :=
  meds ← read (λ db, to_list 1000
            (find (λ d, match_str "user_id" user_id d && match_true "is_active" d)
                  (medications db)));
  lift (mapM (construct uuid4 utcnow Medication) meds).

(** * Vocabulary of the further properties *)

(** ** Documents that fit a model *)

Definition names (m : model) : list string := fname <$> m.

Definition field_ok (d : doc) (f : field) : bool :=
  match d !! fname f with Some v => has_type v (ftyp f) | None => false end.

(** The document has exactly the fields of the model, each of its type. *)
Definition conforms (m : model) (d : doc) : bool :=
  bool_decide (dom d = list_to_set (names m)) && forallb (field_ok d) m.

(** The default of a field, when it has one, is of the field's type. *)
Definition default_ok (f : field) : bool :=
  match fdef f with
  | Required => true
  | Default v => has_type v (ftyp f)
  | Factory_uuid4 => has_type (VStr "") (ftyp f)
  | Factory_utcnow => has_type (VDatetime 0) (ftyp f)
  end.

Definition model_ok (m : model) : bool :=
  bool_decide (NoDup (names m)) && forallb default_ok m.

(** Every field that an update sets is a field of the model, with a value
    of its type. *)
Definition fits (m : model) (upd : doc) : Prop :=
  ∀ k v, upd !! k = Some v →
    existsb (λ f, bool_decide (fname f = k) && has_type v (ftyp f)) m = true.

(** Every stored document fits the model of its collection. *)
Definition well_formed (db : DB) : bool :=
  forallb (conforms UserProfile) (user_profiles db)
  && forallb (conforms Medication) (medications db)
  && forallb (conforms MedicationLog) (medication_logs db).

(** ** All writing requests *)

Inductive api_request : Type :=
  | Write (r : request)
  | CreateUserProfile (uuid4 : string) (utcnow : datetime) (profile : UserProfileCreate.t)
  | UpdateUserProfile (uuid4 : string) (utcnow : datetime)
      (user_id : string) (profile_update : UserProfileUpdate.t)
  | CompleteOnboarding (user_id : string).

Definition serve (r : api_request) (db : DB) : DB :=
  match r with
  | Write r => handle r db
  | CreateUserProfile u t x => (create_user_profile u t x db).2
  | UpdateUserProfile u t i x => (update_user_profile u t i x db).2
  | CompleteOnboarding i => (complete_onboarding i db).2
  end.

(** The states that the routes reach from the empty database. *)
Inductive served : DB → Prop :=
  | served_empty : served empty_db
  | served_step db r : served db → served (serve r db).

(** The profile that [create_user_profile] builds and stores. *)
Definition new_user_profile (uuid4 : string) (utcnow : datetime)
    (x : UserProfileCreate.t) : doc :=
  list_to_map
    [ ("id", VStr uuid4);
      ("name", VStr (UserProfileCreate.name x));
      ("age", VInt (UserProfileCreate.age x));
      ("phone_number", VStr (UserProfileCreate.phone_number x));
      ("profile_photo", opt VStr (UserProfileCreate.profile_photo x));
      ("emergency_contact", str_dict (UserProfileCreate.emergency_contact x));
      ("caregiver_contact", str_dict (UserProfileCreate.caregiver_contact x));
      ("doctor_contact", str_dict (UserProfileCreate.doctor_contact x));
      ("appearance_mode", VStr (UserProfileCreate.appearance_mode x));
      ("reminder_tone", VStr (UserProfileCreate.reminder_tone x));
      ("notification_preferences", bool_dict (UserProfileCreate.notification_preferences x));
      ("fitbit_connected", VBool (UserProfileCreate.fitbit_connected x));
      ("apple_watch_connected", VBool (UserProfileCreate.apple_watch_connected x));
      ("created_at", VDatetime utcnow);
      ("onboarding_completed", VBool false) ].

(** ** Identifiers *)

(** No document of the collection carries the identifier. *)
Definition no_id (i : string) (c : list doc) : bool :=
  forallb (λ d, negb (match_str "id" i d)) c.

Definition ids (c : list doc) : list (option value) := (λ d : doc, d !! "id") <$> c.

(** The updates without any field. *)
Definition no_medication_update : MedicationUpdate.t :=
  MedicationUpdate.mk None None None None None None None.
Definition no_log_update : MedicationLogUpdate.t :=
  MedicationLogUpdate.mk None None None None.
Definition no_profile_update : UserProfileUpdate.t :=
  UserProfileUpdate.mk None None None None None None None None None None None None.

Definition is_400 {A} (r : result A) : bool :=
  match r with
  | Raise (HTTPException 400 _) => true
  | _ => false
  end.

(** The identifiers of each collection are pairwise distinct. *)
Definition distinct_ids (db : DB) : Prop :=
  NoDup (ids (user_profiles db))
  ∧ NoDup (ids (medications db))
  ∧ NoDup (ids (medication_logs db)).

(** A creation draws an identifier that its collection does not hold yet. *)
Definition unused_uuid (db : DB) (r : api_request) : bool :=
  match r with
  | CreateUserProfile u _ _ => no_id u (user_profiles db)
  | Write (CreateMedication u _ _) => no_id u (medications db)
  | Write (CreateMedicationLog u _ _ _) => no_id u (medication_logs db)
  | _ => true
  end.

(** ** Listings *)

(** Later schedules first. *)
Definition later_first (d1 d2 : doc) : Prop :=
  key_le (sort_key "scheduled_time" d2) (sort_key "scheduled_time" d1).

(** The filter that [get_user_medication_logs] builds from its bounds. *)
Definition logs_query (user_id : string) (start_date end_date : option string)
    (gte lte : option datetime) (d : doc) : bool :=
  match_str "user_id" user_id d
  && (if truthy start_date || truthy end_date
      then match_range "scheduled_time" gte lte d else true).

(** ** Requests about other users *)

(** No log that the identifier selects belongs to the user. *)
Definition not_of_user (user_id log_id : string) (db : DB) : bool :=
  forallb (λ d, negb (match_str "id" log_id d) || negb (match_str "user_id" user_id d))
    (medication_logs db).

(** The request creates or changes no dose log of the user. *)
Definition leaves_logs_of (user_id : string) (db : DB) (r : api_request) : bool :=
  match r with
  | Write (CreateMedicationLog _ _ _ user_id') => negb (bool_decide (user_id' = user_id))
  | Write (UpdateMedicationLog _ _ i _) => not_of_user user_id i db
  | Write (MarkMedicationTaken _ i _) => not_of_user user_id i db
  | _ => true
  end.

(** A status can only have moved away from missed, on the same user and
    schedule. *)
Definition no_worse (d d' : doc) : Prop :=
  d' !! "user_id" = d !! "user_id"
  ∧ d' !! "scheduled_time" = d !! "scheduled_time"
  ∧ (is_missed d' = true → is_missed d = true).

(** ** More sample data *)

Definition sample_profile : UserProfileCreate.t :=
  UserProfileCreate.mk "Ada" 70 "555-0100" None [("name", "Bo"); ("phone", "555-0101")]
    [] [] "light" "chime" [("sms", true)] false false.

Definition db_with_profile : DB :=
  serve (CreateUserProfile "user-9" 5 sample_profile) db_A_and_B.

(** * Properties *)

(** ** Calendar days and day buckets *)

(** The closed range queried for a date, compared in milliseconds,
    holds exactly the datetimes of that date. *)
Lemma in_day_ms_iff (d : date) (t : datetime) :
  truncate_ms (combine d time_min) ≤ truncate_ms t ≤ truncate_ms (combine d time_max)
  ↔ date_of t = d.
Proof.
  unfold truncate_ms, combine, date_of, time_min, time_max, MICROSECONDS_PER_DAY.
  split; intros H; Z.div_mod_to_equations; lia.
Qed.

Lemma day_query_on_day user_id d l :
  day_query user_id (combine d time_min) (combine d time_max) l = on_day user_id d l.
Proof.
  unfold day_query, on_day, match_range. f_equal.
  destruct (l !! "scheduled_time") as [[]|]; try reflexivity. simpl.
  pose proof (in_day_ms_iff d t) as Hd.
  repeat case_bool_decide; simpl; try reflexivity; exfalso; intuition lia.
Qed.

Lemma day_logs_of_bucket logs user_id d :
  day_logs_of logs user_id d = take 1000 (day_bucket logs user_id d).
Proof.
  unfold day_logs_of, to_list, find, day_bucket. f_equal.
  apply List.filter_ext. intros l. apply day_query_on_day.
Qed.

Lemma missed_count_pos (l : list doc) :
  missed_count l > 0 ↔ existsb is_missed l = true.
Proof.
  unfold missed_count. induction l as [|x l IH]; simpl.
  - split; [lia | discriminate].
  - fold (is_missed x). destruct (is_missed x); simpl.
    + split; [reflexivity | lia].
    + exact IH.
Qed.

Lemma existsb_take {A} (f : A → bool) (n : nat) (l : list A) :
  existsb f (take n l) = true → existsb f l = true.
Proof.
  revert n. induction l as [|x l IH]; intros [|n]; simpl; try discriminate.
  destruct (f x); simpl; [reflexivity | apply IH].
Qed.

Lemma take_nil_iff {A} (n : nat) (l : list A) :
  n ≠ 0%nat → take n l = [] ↔ l = [].
Proof. destruct n, l; simpl; intuition congruence. Qed.

Lemma clean_day_counts logs user_id d :
  clean_day logs user_id d = true → day_counts logs user_id d = true.
Proof.
  unfold clean_day, day_counts, has_log, has_missed.
  rewrite day_logs_of_bucket. intros [H1 H2]%andb_true_iff.
  apply negb_true_iff in H2. apply andb_true_iff. split.
  - apply negb_true_iff, bool_decide_eq_false. intros E.
    apply take_nil_iff in E; [|lia].
    apply negb_true_iff, bool_decide_eq_false in H1. contradiction.
  - apply negb_true_iff, bool_decide_eq_false. intros E.
    apply missed_count_pos, existsb_take in E. congruence.
Qed.

Lemma day_counts_false logs user_id d :
  has_log logs user_id d = false
  ∨ existsb is_missed (take 1000 (day_bucket logs user_id d)) = true →
  day_counts logs user_id d = false.
Proof.
  unfold day_counts, has_log. rewrite day_logs_of_bucket. intros [H|H].
  - apply negb_false_iff, bool_decide_eq_true in H. rewrite H. reflexivity.
  - apply andb_false_iff. right.
    apply negb_false_iff, bool_decide_eq_true, missed_count_pos, H.
Qed.

(** ** The streak loop *)

Section streak_loop.
Variables (logs : list doc) (user_id : string) (current_date : date).

Abbreviation day := (days_ago current_date).

Lemma streak_loop_counts i range streak queried :
  day_counts logs user_id (day i) = true →
  streak_loop logs user_id current_date (i :: range) streak queried
  = streak_loop logs user_id current_date range (streak + 1) (queried ++ [day i]).
Proof.
  unfold day_counts, days_ago. intros [H1 H2]%andb_true_iff. simpl.
  apply negb_true_iff in H1, H2. rewrite H1, H2. reflexivity.
Qed.

Lemma streak_loop_stops i range streak queried :
  day_counts logs user_id (day i) = false →
  streak_loop logs user_id current_date (i :: range) streak queried
  = (streak, queried ++ [day i]).
Proof.
  unfold day_counts, days_ago. intros H. simpl.
  destruct (bool_decide (day_logs_of _ _ _ = [])); [reflexivity|].
  destruct (bool_decide (missed_count _ > 0)); [reflexivity|discriminate].
Qed.

Lemma streak_loop_prefix r1 r2 streak queried :
  (∀ i, i ∈ r1 → day_counts logs user_id (day i) = true) →
  streak_loop logs user_id current_date (r1 ++ r2) streak queried
  = streak_loop logs user_id current_date r2
      (streak + Z.of_nat (length r1)) (queried ++ (day <$> r1)).
Proof.
  revert streak queried. induction r1 as [|i r1 IH]; intros streak queried H.
  - simpl. rewrite Z.add_0_r, app_nil_r. reflexivity.
  - rewrite <- app_comm_cons, streak_loop_counts by (apply H; left).
    rewrite IH by (intros j Hj; apply H; right; exact Hj).
    rewrite <- app_assoc. simpl. f_equal. lia.
Qed.

(** The loop adds at most one per value of [i] and queries at most one
    date per value of [i], each of them a [current_date - i]. *)
Lemma streak_loop_bounds range streak queried :
  let r := streak_loop logs user_id current_date range streak queried in
  streak ≤ r.1 ≤ streak + Z.of_nat (length range)
  ∧ ∃ r', r' `prefix_of` range ∧ r.2 = queried ++ (day <$> r').
Proof.
  revert streak queried. induction range as [|i range IH]; intros streak queried; simpl.
  - split; [lia|]. exists []. split; [reflexivity|]. simpl. by rewrite app_nil_r.
  - destruct (bool_decide (day_logs_of _ _ _ = [])); simpl;
      [|destruct (bool_decide (missed_count _ > 0)); simpl].
    1,2: split; [lia|]; exists [i]; split; [apply prefix_cons, prefix_nil | reflexivity].
    destruct (IH (streak + 1) (queried ++ [current_date - Z.of_nat i]))
      as [Hs (r' & Hp & Hq)].
    split; [lia|]. exists (i :: r'). split; [by apply prefix_cons|].
    rewrite Hq, <- app_assoc. reflexivity.
Qed.
End streak_loop.

(** ** The streak *)

Lemma forallb_seq_lt (f : nat → bool) (n : nat) :
  forallb f (seq 0 n) = true → ∀ i, (i < n)%nat → f i = true.
Proof.
  intros H i Hi. rewrite forallb_forall in H. apply H, in_seq. lia.
Qed.

Lemma all_clean_lt logs user_id today k :
  all_clean logs user_id today k = true →
  ∀ i, (i < k)%nat → clean_day logs user_id (days_ago today i) = true.
Proof. apply forallb_seq_lt. Qed.

Lemma streak_run_clean_prefix now user_id db k :
  (k ≤ 365)%nat →
  (∀ i, (i < k)%nat →
     clean_day (medication_logs db) user_id (days_ago (date_of now) i) = true) →
  streak_run now user_id db
  = streak_loop (medication_logs db) user_id (date_of now) (seq k (365 - k))
      (Z.of_nat k) (days_ago (date_of now) <$> seq 0 k).
Proof.
  intros Hk Hclean. unfold streak_run.
  replace 365%nat with (k + (365 - k))%nat at 1 by lia.
  rewrite seq_app, streak_loop_prefix.
  - rewrite length_seq. reflexivity.
  - intros i Hi%list_elem_of_In%in_seq. apply clean_day_counts, Hclean. lia.
Qed.

Lemma streak_run_exact now user_id db k :
  (k ≤ 365)%nat →
  (∀ i, (i < k)%nat →
     clean_day (medication_logs db) user_id (days_ago (date_of now) i) = true) →
  (k < 365)%nat → day_counts (medication_logs db) user_id (days_ago (date_of now) k) = false →
  (streak_run now user_id db).1 = Z.of_nat k.
Proof.
  intros Hk Hclean Hlt Hstop. rewrite (streak_run_clean_prefix _ _ _ k) by assumption.
  replace (365 - k)%nat with (S (364 - k)) by lia. rewrite <- cons_seq.
  rewrite streak_loop_stops by assumption. reflexivity.
Qed.

Lemma streak_run_full now user_id db :
  (∀ i, (i < 365)%nat →
     clean_day (medication_logs db) user_id (days_ago (date_of now) i) = true) →
  (streak_run now user_id db).1 = 365.
Proof.
  intros Hclean. rewrite (streak_run_clean_prefix _ _ _ 365) by (lia || assumption).
  reflexivity.
Qed.

Lemma streak_run_at_least now user_id db k :
  (k ≤ 365)%nat →
  (∀ i, (i < k)%nat →
     clean_day (medication_logs db) user_id (days_ago (date_of now) i) = true) →
  Z.of_nat k ≤ (streak_run now user_id db).1.
Proof.
  intros Hk Hclean. rewrite (streak_run_clean_prefix _ _ _ k) by assumption.
  apply streak_loop_bounds.
Qed.

(** C1, as amended: for every user and every [k] up to the 365-day
    lookback, if today and the prior [k-1] days each have at least one dose
    log and no log of status missed, and day [today-k] either has no logs
    or has a missed log among the first 1000 that the day's query returns,
    then [calculate_medication_streak] returns exactly [k] and leaves the
    database as it was. *)
Theorem streak_counts_clean_days now user_id db (k : nat) :
  (k ≤ 365)%nat →
  (∀ i, (i < k)%nat →
     clean_day (medication_logs db) user_id (days_ago (date_of now) i) = true) →
  has_log (medication_logs db) user_id (days_ago (date_of now) k) = false
  ∨ existsb is_missed
      (take 1000 (day_bucket (medication_logs db) user_id (days_ago (date_of now) k))) = true →
  calculate_medication_streak now user_id db = (Ok (Z.of_nat k), db).
Proof.
  intros Hk Hclean Hstop. unfold calculate_medication_streak, read. do 2 f_equal.
  destruct (decide (k = 365%nat)) as [->|Hne].
  - apply streak_run_full, Hclean.
  - apply streak_run_exact; [done | done | lia | by apply day_counts_false].
Qed.

Lemma streak_counts_clean_days_witness :
  calculate_medication_streak (combine sample_today 43200000000) "u1" db_scenario
  = (Ok 1, db_scenario).
Proof.
  apply (streak_counts_clean_days (combine sample_today 43200000000) "u1" db_scenario 1).
  - lia.
  - apply all_clean_lt. vm_compute. reflexivity.
  - right. vm_compute. reflexivity.
Defined.

(** C1, as stated, fails past the lookback: with a clean log on each of
    the 366 days up to today and nothing before, the claim's [k] is 366
    and the streak returned is 365. *)
Lemma streak_exact_fails_beyond_lookback :
  let now := combine sample_today 43200000000 in
  let logs := medication_logs db_366_days in
  (∀ i, (i < 366)%nat → clean_day logs "u1" (days_ago (date_of now) i) = true)
  ∧ has_log logs "u1" (days_ago (date_of now) 366) = false
  ∧ calculate_medication_streak now "u1" db_366_days = (Ok 365, db_366_days)
  ∧ (365 : Z) ≠ Z.of_nat 366.
Proof.
  intros now logs. split; [|split; [|split]].
  - apply all_clean_lt. vm_compute. reflexivity.
  - vm_compute. reflexivity.
  - apply (f_equal (λ k : Z, (Ok k, db_366_days))). vm_compute. reflexivity.
  - lia.
Qed.

(** A missed log that is the 1001st of its day is not seen. *)
Example missed_log_past_the_first_1000 :
  has_missed (medication_logs db_crowded_day) "u1" sample_today = true
  ∧ (streak_run (combine sample_today 0) "u1" db_crowded_day).1 = 1.
Proof. split; vm_compute; reflexivity. Qed.

(** C2: for every user and every database state,
    [calculate_medication_streak] returns an integer between 0 and 365 and
    writes nothing; it queries at most 365 dates, each within the 365 days
    ending today. *)
Theorem streak_within_lookback now user_id db :
  ∃ k, calculate_medication_streak now user_id db = (Ok k, db)
       ∧ 0 ≤ k ≤ 365
       ∧ (length (streak_run now user_id db).2 ≤ 365)%nat
       ∧ Forall (λ d, date_of now - 364 ≤ d ≤ date_of now) (streak_run now user_id db).2.
Proof.
  exists (streak_run now user_id db).1. split; [reflexivity|].
  destruct (streak_loop_bounds (medication_logs db) user_id (date_of now) (seq 0 365) 0 [])
    as [Hk (r & Hp & Hq)].
  fold (streak_run now user_id db) in Hk, Hq. rewrite length_seq in Hk.
  split; [lia|]. rewrite Hq. simpl. split.
  - rewrite length_fmap. apply prefix_length in Hp. rewrite length_seq in Hp. exact Hp.
  - apply Forall_fmap, Forall_forall. intros i Hi. simpl. unfold days_ago.
    destruct Hp as [r' Hp].
    assert (i ∈ seq 0 365) as Hin%list_elem_of_In%in_seq
      by (rewrite Hp; apply elem_of_app; left; exact Hi).
    lia.
Qed.

Lemma open_not_missed (l : doc) : is_open l = true → is_missed l = false.
Proof.
  unfold is_open, is_missed, get_eq_str.
  destruct (l !! "status") as [[]|]; try reflexivity.
  repeat case_bool_decide; subst; simpl; done.
Qed.

Lemma existsb_forallb_false {A} (f g : A → bool) (l : list A) :
  (∀ x, g x = true → f x = false) → forallb g l = true → existsb f l = false.
Proof.
  intros Hfg. induction l as [|x l IH]; simpl; [reflexivity|].
  intros [Hx Hl]%andb_true_iff. rewrite (Hfg x Hx), IH; done.
Qed.

(** C3: a day whose log set is non-empty and holds only logs of status
    pending or current counts: when the walk reaches such a day within
    the lookback, the streak goes through it, so it is at least the number
    of days up to and including it. *)
Theorem streak_counts_open_day now user_id db (i : nat) :
  (i < 365)%nat →
  (∀ j, (j < i)%nat →
     clean_day (medication_logs db) user_id (days_ago (date_of now) j) = true) →
  has_log (medication_logs db) user_id (days_ago (date_of now) i) = true →
  forallb is_open (day_bucket (medication_logs db) user_id (days_ago (date_of now) i)) = true →
  ∃ k, calculate_medication_streak now user_id db = (Ok k, db) ∧ Z.of_nat i + 1 ≤ k.
Proof.
  intros Hi Hclean Hlog Hopen. exists (streak_run now user_id db).1.
  split; [reflexivity|].
  replace (Z.of_nat i + 1) with (Z.of_nat (S i)) by lia.
  apply streak_run_at_least; [lia|]. intros j Hj.
  destruct (decide (j = i)) as [->|Hne]; [|apply Hclean; lia].
  unfold clean_day, has_missed. rewrite Hlog. simpl. apply negb_true_iff.
  exact (existsb_forallb_false _ _ _ open_not_missed Hopen).
Qed.

Lemma streak_counts_open_day_witness :
  ∃ k, calculate_medication_streak (combine sample_today 43200000000) "u1" db_open_days
       = (Ok k, db_open_days) ∧ 3 ≤ k.
Proof.
  apply (streak_counts_open_day (combine sample_today 43200000000) "u1" db_open_days 2).
  - lia.
  - apply all_clean_lt. vm_compute. reflexivity.
  - vm_compute. reflexivity.
  - vm_compute. reflexivity.
Defined.

(** ** What the streak depends on *)

Lemma filter_andb {A} (f g : A → bool) (l : list A) :
  List.filter (λ x, f x && g x) l = List.filter g (List.filter f l).
Proof.
  induction l as [|x l IH]; simpl; [reflexivity|].
  destruct (f x); simpl; [destruct (g x)|]; rewrite IH; reflexivity.
Qed.

Lemma day_logs_of_user_logs db user_id d :
  day_logs_of (medication_logs db) user_id d
  = to_list 1000
      (List.filter
         (match_range "scheduled_time" (Some (combine d time_min)) (Some (combine d time_max)))
         (user_logs user_id db)).
Proof. unfold day_logs_of, find, day_query, user_logs. by rewrite filter_andb. Qed.

Lemma streak_loop_ext logs1 logs2 user_id current_date range streak queried :
  (∀ d, day_logs_of logs1 user_id d = day_logs_of logs2 user_id d) →
  streak_loop logs1 user_id current_date range streak queried
  = streak_loop logs2 user_id current_date range streak queried.
Proof.
  intros Hext. revert streak queried.
  induction range as [|i range IH]; intros streak queried; simpl; [reflexivity|].
  rewrite Hext, IH. reflexivity.
Qed.

(** C5, as amended: the function takes [user_id] only; the clock is not
    passed in but read inside, with [datetime.now()], and the logs come
    from the module-level [db].  The streak is a function of [user_id],
    of the date of that clock reading and of the stored logs of the user,
    and of nothing else: two calls that agree on these return the same
    number (and query the same dates), whatever the time of day, the
    other users' logs and the other collections are, and the call leaves
    the database as it was. *)
Theorem streak_deterministic now1 now2 user_id db1 db2 :
  date_of now1 = date_of now2 →
  user_logs user_id db1 = user_logs user_id db2 →
  (calculate_medication_streak now1 user_id db1).1
  = (calculate_medication_streak now2 user_id db2).1
  ∧ streak_run now1 user_id db1 = streak_run now2 user_id db2
  ∧ (calculate_medication_streak now1 user_id db1).2 = db1.
Proof.
  intros Hdate Hlogs.
  assert (streak_run now1 user_id db1 = streak_run now2 user_id db2) as Hrun.
  { unfold streak_run. rewrite Hdate. apply streak_loop_ext. intros d.
    rewrite !day_logs_of_user_logs, Hlogs. reflexivity. }
  split; [|split]; [|exact Hrun|reflexivity].
  unfold calculate_medication_streak, read. simpl. rewrite Hrun. reflexivity.
Qed.

Lemma streak_deterministic_witness :
  (calculate_medication_streak (combine sample_today 1) "u1" db_scenario).1
  = (calculate_medication_streak (combine sample_today 80000000000) "u1" db_scenario_later).1
  ∧ streak_run (combine sample_today 1) "u1" db_scenario
    = streak_run (combine sample_today 80000000000) "u1" db_scenario_later
  ∧ (calculate_medication_streak (combine sample_today 1) "u1" db_scenario).2 = db_scenario.
Proof.
  apply (streak_deterministic (combine sample_today 1) (combine sample_today 80000000000)
           "u1" db_scenario db_scenario_later).
  - vm_compute. reflexivity.
  - reflexivity.
Defined.

(** C5, as stated, fails: no clock is passed to the function, which
    reads the system clock by itself.  Two calls with the same
    [user_id] on the same database, nothing written in between, return
    different streaks when that clock has passed midnight between them:
    1 in the last microsecond of the day, 0 in the first of the next. *)
Lemma streak_reads_the_system_clock :
  (calculate_medication_streak (combine sample_today time_max) "u1" db_scenario).1 = Ok 1
  ∧ (calculate_medication_streak (combine (sample_today + 1) time_min) "u1" db_scenario).1
    = Ok 0
  ∧ combine (sample_today + 1) time_min = combine sample_today time_max + 1.
Proof. repeat split; vm_compute; reflexivity. Qed.

(** ** The encoder *)

Lemma stored_value_VInt (n : Z) : stored_value (VInt n) = VInt n.
Proof. unfold stored_value. simpl. by case_bool_decide. Qed.

Lemma encode_value_shape (v v' : value) (t : ftype) :
  encode_value v = Ok v' → has_type v' t = has_type v t ∧ is_None v' = is_None v.
Proof.
  intros H. assert (match v, v' with
                    | VNone, VNone | VBool _, VBool _ | VInt _, VInt _ | VStr _, VStr _
                    | VDatetime _, VDatetime _ | VList _, VList _ | VDict _, VDict _ => True
                    | _, _ => False
                    end) as Hshape.
  { destruct v; simpl in H; try (injection H as <-; exact I).
    - case_bool_decide; [injection H as <-; exact I|discriminate].
    - destruct ((fix items (l : list value) : result (list value) := _) l); simpl in H;
        [injection H as <-; exact I|discriminate].
    - destruct ((fix items (d : list (string * value)) : result (list (string * value)) := _) d);
        simpl in H; [injection H as <-; exact I|discriminate]. }
  split; [|by destruct v, v'].
  induction t; destruct v, v'; done.
Qed.

Lemma has_type_stored_value (v : value) (t : ftype) :
  has_type (stored_value v) t = has_type v t.
Proof.
  unfold stored_value. destruct (encode_value v) as [v'|] eqn:E; [|done].
  by apply encode_value_shape.
Qed.

Lemma is_None_stored_value (v : value) : is_None (stored_value v) = is_None v.
Proof.
  unfold stored_value. destruct (encode_value v) as [v'|] eqn:E; [|done].
  by apply (encode_value_shape v v' TStr).
Qed.

Lemma stored_lookup (d : doc) (k : string) : stored d !! k = stored_value <$> d !! k.
Proof. apply lookup_fmap. Qed.

Lemma stored_lookup_VStr (d : doc) (k s : string) :
  d !! k = Some (VStr s) → stored d !! k = Some (VStr s).
Proof. intros H. by rewrite stored_lookup, H. Qed.

Lemma stored_lookup_VBool (d : doc) (k : string) (b : bool) :
  d !! k = Some (VBool b) → stored d !! k = Some (VBool b).
Proof. intros H. by rewrite stored_lookup, H. Qed.

Lemma stored_lookup_None (d : doc) (k : string) : d !! k = None → stored d !! k = None.
Proof. intros H. by rewrite stored_lookup, H. Qed.

Lemma stored_lookup_Some (d : doc) (k : string) (v : value) :
  d !! k = Some v → stored d !! k = Some (stored_value v).
Proof. intros H. by rewrite stored_lookup, H. Qed.

(** Cutting to the millisecond keeps a time on its day. *)
Lemma date_of_truncate_ms (t : datetime) : date_of (truncate_ms t) = date_of t.
Proof.
  unfold date_of, truncate_ms, MICROSECONDS_PER_DAY.
  Z.div_mod_to_equations. lia.
Qed.

Lemma insert_one_run (d : doc) (c : list doc) :
  insert_one d c = if encodable d then Ok (c ++ [stored d]) else Raise OverflowError.
Proof. unfold insert_one, encode. by destruct (encodable d). Qed.

Lemma update_one_run (q : doc → bool) (upd : doc) (c : list doc) :
  update_one q upd c
  = if encodable upd then Ok (set_first q (stored upd) c) else Raise OverflowError.
Proof. unfold update_one, encode. by destruct (encodable upd). Qed.

Lemma encodable_lookup (d : doc) (k : string) (v : value) :
  encodable d = true → d !! k = Some v → encodes v = true.
Proof. intros H%bool_decide_eq_true Hk. by apply (H k v). Qed.

Lemma encodes_VInt (n : Z) : encodes (VInt n) = bool_decide (INT64_MIN ≤ n ≤ INT64_MAX).
Proof. unfold encodes. simpl. by case_bool_decide. Qed.

(** The encoder accepts a document built from distinct keys exactly when
    it accepts each of the values. *)
Lemma encodable_list_to_map (l : list (string * value)) :
  NoDup l.*1 →
  encodable (list_to_map l) = forallb (λ kv, encodes kv.2) l.
Proof.
  unfold encodable. induction l as [|[k v] l IH]; intros Hl.
  - simpl. apply bool_decide_eq_true. apply map_Forall_empty.
  - apply NoDup_cons in Hl as [Hk Hl]. specialize (IH Hl). simpl.
    rewrite <- IH. apply not_elem_of_list_to_map_1 in Hk.
    destruct (encodes v) eqn:Ev; simpl.
    + apply bool_decide_ext. rewrite (map_Forall_insert _ _ _ _ Hk). tauto.
    + apply bool_decide_eq_false. rewrite (map_Forall_insert _ _ _ _ Hk).
      intros [H _]. congruence.
Qed.

Lemma encodes_strings (l : list string) : encodes (VList (VStr <$> l)) = true.
Proof.
  unfold encodes. simpl.
  induction l as [|s l IH]; simpl; [done|].
  change (list_fmap string value VStr l) with (VStr <$> l).
  by destruct (_ (VStr <$> l)).
Qed.

Lemma encodes_opt_VStr (o : option string) : encodes (opt VStr o) = true.
Proof. by destruct o. Qed.

(** ** Running the handlers *)

Lemma create_medication_run uuid4 utcnow data db :
  create_medication uuid4 utcnow data db
  = if encodable (new_medication uuid4 utcnow data)
    then (Ok (new_medication uuid4 utcnow data),
          set_medications (medications db ++ [stored (new_medication uuid4 utcnow data)]) db)
    else (Raise OverflowError, db).
Proof.
  transitivity (match insert_one (new_medication uuid4 utcnow data) (medications db) with
                | Ok c => (Ok (new_medication uuid4 utcnow data), set_medications c db)
                | Raise e => (Raise e, db)
                end).
  - destruct data as [u n d f ts tp [ri|] [pi|]]; reflexivity.
  - rewrite insert_one_run. by destruct (encodable _).
Qed.

Lemma create_medication_log_run uuid4 utcnow log user_id db :
  create_medication_log uuid4 utcnow log user_id db
  = if encodable (new_medication_log uuid4 utcnow log user_id)
    then (Ok (new_medication_log uuid4 utcnow log user_id),
          set_medication_logs
            (medication_logs db ++ [stored (new_medication_log uuid4 utcnow log user_id)]) db)
    else (Raise OverflowError, db).
Proof.
  transitivity (match insert_one (new_medication_log uuid4 utcnow log user_id)
                        (medication_logs db) with
                | Ok c => (Ok (new_medication_log uuid4 utcnow log user_id),
                           set_medication_logs c db)
                | Raise e => (Raise e, db)
                end).
  - destruct log; reflexivity.
  - rewrite insert_one_run. by destruct (encodable _).
Qed.

(** A dose log holds no integer: the encoder accepts it. *)
Lemma new_medication_log_encodable uuid4 utcnow log user_id :
  encodable (new_medication_log uuid4 utcnow log user_id) = true.
Proof. destruct log. vm_compute. reflexivity. Qed.

(** What a creation leaves in the database. *)
Lemma create_medication_db uuid4 utcnow data db :
  let db' := (create_medication uuid4 utcnow data db).2 in
  db' = db
  ∨ db' = set_medications (medications db ++ [stored (new_medication uuid4 utcnow data)]) db.
Proof. rewrite create_medication_run. destruct (encodable _); [by right|by left]. Qed.

Lemma create_medication_log_db uuid4 utcnow log user_id db :
  (create_medication_log uuid4 utcnow log user_id db).2
  = set_medication_logs
      (medication_logs db ++ [stored (new_medication_log uuid4 utcnow log user_id)]) db.
Proof. by rewrite create_medication_log_run, new_medication_log_encodable. Qed.

Lemma drop_None_lookup (d : doc) (k : string) :
  drop_None d !! k
  = match d !! k with Some v => if is_None v then None else Some v | None => None end.
Proof.
  unfold drop_None. destruct (d !! k) as [v|] eqn:E.
  - destruct (is_None v) eqn:Ev.
    + apply map_lookup_filter_None. right. intros v' E'. simpl. congruence.
    + apply map_lookup_filter_Some. done.
  - apply map_lookup_filter_None. by left.
Qed.

Ltac run_update :=
  unfold mbind, M_mbind, read, write, call, raise, lift, mret, M_ret;
  cbn beta iota zeta; rewrite update_one_run;
  destruct (encodable _); cbn beta iota zeta; [|by left];
  destruct (set_first _ _ _) as [c|] eqn:E; cbn beta iota zeta; [|by left];
  right; exists c; (split; [done|]).

(** A write to the medications is a [$set] on the first match, with the
    fields as stored, or nothing. *)
Lemma update_medication_db uuid4 utcnow medication_id x db :
  let db' := (update_medication uuid4 utcnow medication_id x db).2 in
  db' = db
  ∨ ∃ c, set_first (match_str "id" medication_id)
           (stored (drop_None (MedicationUpdate.dict x))) (medications db) = Some c
         ∧ db' = set_medications c db.
Proof.
  unfold update_medication. case_bool_decide; [by left|].
  run_update. by destruct (find_one _ _).
Qed.

Lemma delete_medication_db medication_id db :
  let db' := (delete_medication medication_id db).2 in
  db' = db
  ∨ ∃ c, set_first (match_str "id" medication_id)
           {["is_active" := VBool false]} (medications db) = Some c
         ∧ db' = set_medications c db.
Proof. unfold delete_medication. run_update. done. Qed.

Lemma update_medication_log_db uuid4 utcnow log_id x db :
  let db' := (update_medication_log uuid4 utcnow log_id x db).2 in
  db' = db
  ∨ ∃ c, set_first (match_str "id" log_id)
           (stored (drop_None (MedicationLogUpdate.dict x))) (medication_logs db) = Some c
         ∧ db' = set_medication_logs c db.
Proof.
  unfold update_medication_log. case_bool_decide; [by left|].
  run_update. by destruct (find_one _ _).
Qed.

Lemma mark_medication_taken_update utcnow photo :
  let update_data : doc :=
    {[ "status" := VStr "taken"; "taken_at" := VDatetime utcnow ]} in
  let update_data :=
    if truthy photo then <["verification_photo" := opt VStr photo]> update_data
    else update_data in
  encodable update_data = true ∧ stored update_data = taken_update utcnow photo.
Proof.
  unfold taken_update. destruct photo as [s|]; [destruct (truthy (Some s))|]; simpl;
    split; reflexivity.
Qed.

Lemma mark_medication_taken_db utcnow log_id photo db :
  let db' := (mark_medication_taken utcnow log_id photo db).2 in
  db' = db
  ∨ ∃ c, set_first (match_str "id" log_id) (taken_update utcnow photo)
           (medication_logs db) = Some c
         ∧ db' = set_medication_logs c db.
Proof.
  unfold mark_medication_taken.
  destruct (mark_medication_taken_update utcnow photo) as [He Hs].
  unfold mbind, M_mbind, read, write, call, raise, lift, mret, M_ret.
  cbn beta iota zeta. rewrite update_one_run, He, Hs.
  destruct (set_first _ _ _) as [c|] eqn:E; cbn beta iota zeta; [|by left].
  right. by exists c.
Qed.

Lemma taken_update_lookup utcnow photo :
  taken_update utcnow photo !! "status" = Some (VStr "taken")
  ∧ taken_update utcnow photo !! "taken_at" = Some (VDatetime (truncate_ms utcnow)).
Proof. unfold taken_update. destruct (truthy photo); split; reflexivity. Qed.


(** ** [set_first] *)

(** A property of all documents survives when the updated document has it. *)
Lemma set_first_forallb (P q : doc → bool) (upd : doc) (c c' : list doc) :
  set_first q upd c = Some c' →
  forallb P c = true →
  (∀ d, d ∈ c → q d = true → P d = true → P (upd ∪ d) = true) →
  forallb P c' = true.
Proof.
  revert c'. induction c as [|d c IH]; intros c' Hu Hall Hupd; simpl in *; [discriminate|].
  apply andb_true_iff in Hall as [Hd Hc].
  destruct (q d) eqn:Hq.
  - injection Hu as <-. simpl. rewrite Hc, Hupd; [done|left|done|done].
  - destruct (set_first q upd c) as [c''|]; [|discriminate].
    injection Hu as <-. simpl. rewrite Hd. simpl.
    apply IH; [done|done|]. intros d' Hd'. apply Hupd. by right.
Qed.

(** Documents keep their positions; each is unchanged or is the selected
    one with the new fields. *)
Lemma set_first_lookup (q : doc → bool) (upd : doc) (c c' : list doc) (i : nat) (d : doc) :
  set_first q upd c = Some c' →
  c !! i = Some d →
  ∃ d', c' !! i = Some d' ∧ (d' = d ∨ (q d = true ∧ d' = upd ∪ d)).
Proof.
  revert c' i. induction c as [|x c IH]; intros c' i Hu Hi; simpl in *; [discriminate|].
  destruct (q x) eqn:Hq.
  - injection Hu as <-. destruct i as [|i]; simpl in *.
    + injection Hi as ->. eauto.
    + eauto.
  - destruct (set_first q upd c) as [c''|] eqn:E; [|discriminate].
    injection Hu as <-. destruct i as [|i]; simpl in *.
    + injection Hi as ->. eauto.
    + by apply IH.
Qed.

Lemma forallb_snoc {A} (P : A → bool) (l : list A) (x : A) :
  forallb P (l ++ [x]) = forallb P l && P x.
Proof. rewrite forallb_app. simpl. by rewrite andb_true_r. Qed.

(** ** Medication invariant *)

Lemma update_dict_total_pills (x : MedicationUpdate.t) :
  stored (drop_None (MedicationUpdate.dict x)) !! "total_pills" = None.
Proof. apply stored_lookup_None. rewrite drop_None_lookup. reflexivity. Qed.

Lemma update_dict_remaining_pills (x : MedicationUpdate.t) :
  stored (drop_None (MedicationUpdate.dict x)) !! "remaining_pills"
  = VInt <$> MedicationUpdate.remaining_pills x.
Proof.
  rewrite stored_lookup, drop_None_lookup.
  change (MedicationUpdate.dict x !! "remaining_pills")
    with (Some (opt VInt (MedicationUpdate.remaining_pills x))).
  destruct (MedicationUpdate.remaining_pills x); [|done].
  simpl. by rewrite stored_value_VInt.
Qed.

(** The stored new medication has both counts equal to the requested
    total. *)
Lemma new_medication_has_pills uuid4 utcnow data :
  has_pills (stored (new_medication uuid4 utcnow data))
    (MedicationCreateWithUser.total_pills data, MedicationCreateWithUser.total_pills data).
Proof.
  split; simpl; rewrite stored_lookup.
  - change (new_medication uuid4 utcnow data !! "total_pills")
      with (Some (VInt (MedicationCreateWithUser.total_pills data))).
    simpl. by rewrite stored_value_VInt.
  - change (new_medication uuid4 utcnow data !! "remaining_pills")
      with (Some (VInt (MedicationCreateWithUser.total_pills data))).
    simpl. by rewrite stored_value_VInt.
Qed.

Lemma handle_meds_ok db r :
  all_meds_ok db = true → pills_in_range db r = true → all_meds_ok (handle r db) = true.
Proof.
  unfold all_meds_ok. intros Hinv Hr. destruct r as [u t x|u t i x|i|u t x uid|u t i x|t i p]; simpl.
  - destruct (create_medication_db u t x db) as [->| ->]; [done|].
    simpl. rewrite forallb_snoc, Hinv. simpl.
    simpl in Hr. apply bool_decide_eq_true in Hr.
    destruct (new_medication_has_pills u t x) as [Ht Hrem]. simpl in Ht, Hrem.
    unfold med_ok. rewrite Ht, Hrem.
    apply andb_true_iff. split; apply bool_decide_eq_true; lia.
  - destruct (update_medication_db u t i x db) as [->|(c & Hc & ->)]; [done|]. simpl.
    apply (set_first_forallb _ _ _ _ _ Hc Hinv). intros d Hd Hq Hok.
    unfold med_ok in *.
    rewrite (lookup_union_r _ _ "total_pills") by apply update_dict_total_pills.
    simpl in Hr. destruct (MedicationUpdate.remaining_pills x) as [r|] eqn:Er.
    + rewrite (lookup_union_Some_l _ _ "remaining_pills" (VInt r))
        by (by rewrite update_dict_remaining_pills, Er).
      apply andb_true_iff in Hr as [Hr0 Hfit]. unfold fits_total in Hfit.
      rewrite forallb_forall in Hfit. apply list_elem_of_In in Hd.
      specialize (Hfit d Hd). rewrite Hq in Hfit. simpl in Hfit.
      destruct (d !! "total_pills") as [[]|]; try done. by rewrite Hr0, Hfit.
    + rewrite (lookup_union_r _ _ "remaining_pills")
        by (by rewrite update_dict_remaining_pills, Er).
      exact Hok.
  - destruct (delete_medication_db i db) as [->|(c & Hc & ->)]; [done|]. simpl.
    apply (set_first_forallb _ _ _ _ _ Hc Hinv). intros d Hd Hq Hok.
    unfold med_ok in *.
    rewrite !(lookup_union_r {["is_active" := VBool false]}) by reflexivity. exact Hok.
  - by rewrite create_medication_log_db.
  - by destruct (update_medication_log_db u t i x db) as [->|(c & Hc & ->)].
  - by destruct (mark_medication_taken_db t i p db) as [->|(c & Hc & ->)].
Qed.

(** C6, as amended: [create_medication] stores [remaining_pills] equal to
    [total_pills] and [update_medication] stores a supplied
    [remaining_pills] as it comes and never touches [total_pills]; hence
    every state reached by requests whose pill counts are in range (a
    non-negative total on creation, a supplied remaining count between 0
    and the total of the medication updated) has
    [0 ≤ remaining_pills ≤ total_pills] on every medication. *)
Theorem medications_stay_in_range db :
  reachable_by pills_in_range db → all_meds_ok db = true.
Proof.
  induction 1 as [db Hm _|db r _ IH Hr].
  - unfold all_meds_ok. rewrite Hm. reflexivity.
  - by apply handle_meds_ok.
Qed.

Lemma medications_stay_in_range_witness : all_meds_ok (db_refilled 25) = true.
Proof.
  apply (medications_stay_in_range (db_refilled 25)).
  unfold db_refilled. apply reachable_step; [apply reachable_step|].
  - by apply reachable_init.
  - reflexivity.
  - vm_compute. reflexivity.
Defined.

(** C6, as stated, fails: nothing checks the counts, so an update can set
    more remaining pills than the medication has in total. *)
Lemma medications_out_of_range_reachable :
  reachable (db_refilled 31) ∧ all_meds_ok (db_refilled 31) = false.
Proof.
  split.
  - unfold db_refilled. apply reachable_step; [apply reachable_step|]; try done.
    by apply reachable_init.
  - vm_compute. reflexivity.
Qed.

(** ** Pill totals *)

Lemma py_sum_foldl (l : list Z) (a : Z) : foldl Z.add a l = a + py_sum l.
Proof.
  unfold py_sum. revert a. induction l as [|x l IH]; intros a; simpl; [lia|].
  rewrite (IH (a + x)), (IH (0 + x)). lia.
Qed.

Lemma py_sum_cons (x : Z) (l : list Z) : py_sum (x :: l) = x + py_sum l.
Proof. unfold py_sum at 1. simpl. apply py_sum_foldl. Qed.

Lemma total_pills_taken_cons med meds :
  total_pills_taken (med :: meds)
  = (x ← py_sub (get "total_pills" (VInt 0) med) (get "remaining_pills" (VInt 0) med);
     s ← total_pills_taken meds; Ok (x + s)).
Proof.
  unfold total_pills_taken. simpl.
  destruct (py_sub _ _) as [x|e]; simpl; [|reflexivity].
  destruct (mapM _ meds) as [terms|e]; simpl; [|reflexivity].
  by rewrite py_sum_cons.
Qed.

Lemma total_pills_taken_snoc meds med (x : Z) :
  py_sub (get "total_pills" (VInt 0) med) (get "remaining_pills" (VInt 0) med) = Ok x →
  total_pills_taken (meds ++ [med]) = (s ← total_pills_taken meds; Ok (s + x)).
Proof.
  intros Hx. induction meds as [|m meds IH]; simpl.
  - rewrite total_pills_taken_cons, Hx. simpl. f_equal. unfold py_sum. simpl. lia.
  - rewrite !total_pills_taken_cons, IH.
    destruct (py_sub (get "total_pills" (VInt 0) m) _) as [y|e]; simpl; [|reflexivity].
    destruct (total_pills_taken meds) as [s|e]; simpl; [|reflexivity].
    f_equal. lia.
Qed.

Lemma has_pills_sub med c :
  has_pills med c →
  py_sub (get "total_pills" (VInt 0) med) (get "remaining_pills" (VInt 0) med)
  = Ok (c.1 - c.2).
Proof. intros [Ht Hr]. unfold get. rewrite Ht, Hr. reflexivity. Qed.

Lemma total_pills_taken_sum meds counts :
  Forall2 has_pills meds counts → total_pills_taken meds = Ok (sum_taken counts).
Proof.
  induction 1 as [|med [t r] meds counts Hc _ IH]; [reflexivity|].
  rewrite total_pills_taken_cons, (has_pills_sub _ _ Hc), IH. reflexivity.
Qed.

Lemma get_user_dashboard_total uuid4 utcnow now now' user_id db dash db' :
  get_user_dashboard uuid4 utcnow now now' user_id db = (Ok dash, db') →
  total_pills_taken (active_medications user_id db) = Ok (Dashboard.total_pills_taken dash)
  ∧ db' = db.
Proof.
  unfold get_user_dashboard, mbind, M_mbind, read, raise, lift, mret, M_ret,
    calculate_medication_streak. cbn beta iota.
  fold (active_medications user_id db).
  destruct (find_one _ (user_profiles db)) as [profile|]; [|discriminate].
  destruct (total_pills_taken _) as [taken|]; [|discriminate].
  destruct (construct uuid4 utcnow UserProfile profile); [|discriminate].
  destruct (mapM _ (active_medications user_id db)); [|discriminate].
  destruct (mapM (construct uuid4 utcnow MedicationLog) _); [|discriminate].
  intros [= <- <-]. done.
Qed.

(** C4: [total_pills_taken] is the sum over the medications read of
    (total_pills − remaining_pills), not clamped: 0 for no medication, 5
    for A (30, 25 remaining) and B (20, 20 remaining), negative for a
    medication with more remaining than total; and this is the
    [total_pills_taken] that the dashboard returns, computed on the active
    medications of the user. *)
Theorem total_pills_taken_unclamped_sum :
  (∀ meds counts, Forall2 has_pills meds counts →
     total_pills_taken meds = Ok (sum_taken counts))
  ∧ total_pills_taken [] = Ok 0
  ∧ (Forall2 has_pills (medications db_A_and_B) [(30, 25); (20, 20)]
     ∧ total_pills_taken (medications db_A_and_B) = Ok 5)
  ∧ (Forall2 has_pills (medications (db_refilled 31)) [(30, 31)]
     ∧ total_pills_taken (medications (db_refilled 31)) = Ok (-1))
  ∧ (∀ uuid4 utcnow now now' user_id db dash db',
       get_user_dashboard uuid4 utcnow now now' user_id db = (Ok dash, db') →
       total_pills_taken (active_medications user_id db)
       = Ok (Dashboard.total_pills_taken dash)).
Proof.
  split; [exact total_pills_taken_sum|]. split; [reflexivity|].
  split; [|split].
  - split; [|reflexivity]. repeat constructor.
  - split; [|reflexivity]. repeat constructor.
  - intros. by eapply get_user_dashboard_total.
Qed.

Lemma total_pills_taken_unclamped_sum_witness :
  total_pills_taken (medications db_A_and_B) = Ok (sum_taken [(30, 25); (20, 20)]).
Proof.
  apply (proj1 total_pills_taken_unclamped_sum (medications db_A_and_B) [(30, 25); (20, 20)]).
  repeat constructor.
Defined.

(** The encoder accepts a new medication exactly when [total_pills] fits
    in 64 bits and the encoder accepts [refill_info]. *)
Lemma new_medication_encodable uuid4 utcnow data :
  encodable (new_medication uuid4 utcnow data)
  = bool_decide (INT64_MIN ≤ MedicationCreateWithUser.total_pills data ≤ INT64_MAX)
    && encodes (opt VDict (MedicationCreateWithUser.refill_info data)).
Proof.
  unfold new_medication. rewrite encodable_list_to_map by (by apply (bool_decide_unpack _)).
  cbn [forallb snd]. rewrite encodes_strings, encodes_opt_VStr, !encodes_VInt.
  change (encodes (VStr ?s)) with true. change (encodes (VDatetime ?t)) with true.
  change (encodes VNone) with true. change (encodes (VBool ?b)) with true.
  cbn [andb]. by destruct (bool_decide _), (encodes _).
Qed.

(** C10: [create_medication] builds a medication whose [remaining_pills]
    is the [total_pills] of the request, which has no field for a
    remaining count.  The store takes it exactly when the encoder does,
    that is when [total_pills] fits in 64 bits and [refill_info] holds no
    larger integer: the call then returns the medication and appends it
    as stored, with [created_at] cut to the millisecond and both counts
    as they are, and the stored medication adds exactly 0 to
    [total_pills_taken].  Otherwise the call raises [OverflowError] and
    stores nothing. *)
Theorem create_medication_full uuid4 utcnow data db :
  let m := new_medication uuid4 utcnow data in
  let total := MedicationCreateWithUser.total_pills data in
  m !! "total_pills" = Some (VInt total)
  ∧ m !! "remaining_pills" = Some (VInt total)
  ∧ encodable m
    = bool_decide (INT64_MIN ≤ total ≤ INT64_MAX)
      && encodes (opt VDict (MedicationCreateWithUser.refill_info data))
  ∧ if encodable m
    then create_medication uuid4 utcnow data db
         = (Ok m, set_medications (medications db ++ [stored m]) db)
         ∧ stored m !! "total_pills" = Some (VInt total)
         ∧ stored m !! "remaining_pills" = Some (VInt total)
         ∧ stored m !! "created_at" = Some (VDatetime (truncate_ms utcnow))
         ∧ total_pills_taken [stored m] = Ok 0
         ∧ ∀ meds, total_pills_taken (meds ++ [stored m]) = total_pills_taken meds
    else create_medication uuid4 utcnow data db = (Raise OverflowError, db).
Proof.
  intros m total. split; [reflexivity|]. split; [reflexivity|].
  split; [apply new_medication_encodable|].
  pose proof (create_medication_run uuid4 utcnow data db) as Hrun. fold m in Hrun.
  destruct (encodable m); [|exact Hrun]. split; [exact Hrun|].
  pose proof (new_medication_has_pills uuid4 utcnow data) as Hm. fold m total in Hm.
  split; [apply Hm|]. split; [apply Hm|].
  split; [by apply (stored_lookup_Some m "created_at" (VDatetime utcnow))|].
  pose proof (has_pills_sub _ _ Hm) as Hsub. simpl in Hsub. rewrite Z.sub_diag in Hsub.
  split.
  - rewrite (total_pills_taken_sum [stored m] [(total, total)])
      by (constructor; [exact Hm|constructor]).
    simpl. f_equal. lia.
  - intros meds. rewrite (total_pills_taken_snoc _ _ _ Hsub).
    destruct (total_pills_taken meds); simpl; [|reflexivity]. f_equal. lia.
Qed.

(** ** Dose log invariant *)

Lemma log_update_dict_status (x : MedicationLogUpdate.t) :
  stored (drop_None (MedicationLogUpdate.dict x)) !! "status"
  = VStr <$> MedicationLogUpdate.status x.
Proof.
  rewrite stored_lookup, drop_None_lookup.
  change (MedicationLogUpdate.dict x !! "status")
    with (Some (opt VStr (MedicationLogUpdate.status x))).
  by destruct (MedicationLogUpdate.status x).
Qed.

Lemma log_update_dict_taken_at (x : MedicationLogUpdate.t) :
  stored (drop_None (MedicationLogUpdate.dict x)) !! "taken_at"
  = VDatetime ∘ truncate_ms <$> MedicationLogUpdate.taken_at x.
Proof.
  rewrite stored_lookup, drop_None_lookup.
  change (MedicationLogUpdate.dict x !! "taken_at")
    with (Some (opt VDatetime (MedicationLogUpdate.taken_at x))).
  by destruct (MedicationLogUpdate.taken_at x).
Qed.

Lemma handle_logs_ok db r :
  all_logs_ok db = true → keeps_taken_at db r = true → all_logs_ok (handle r db) = true.
Proof.
  unfold all_logs_ok. intros Hinv Hr.
  destruct r as [u t x|u t i x|i|u t x uid|u t i x|t i p]; simpl.
  - by destruct (create_medication_db u t x db) as [->| ->].
  - by destruct (update_medication_db u t i x db) as [->|(c & Hc & ->)].
  - by destruct (delete_medication_db i db) as [->|(c & Hc & ->)].
  - rewrite create_medication_log_db. simpl. rewrite forallb_snoc, Hinv. simpl.
    simpl in Hr. apply negb_true_iff in Hr.
    unfold log_ok, has_taken_at, is_taken, get_eq_str.
    rewrite (stored_lookup_Some (new_medication_log u t x uid) "taken_at" VNone)
      by reflexivity.
    rewrite (stored_lookup_Some (new_medication_log u t x uid) "status"
               (VStr (MedicationLogCreate.status x))) by reflexivity.
    cbn beta iota. change (stored_value (VStr ?s)) with (VStr s).
    change (stored_value VNone) with VNone. cbn beta iota. rewrite Hr. reflexivity.
  - destruct (update_medication_log_db u t i x db) as [->|(c & Hc & ->)]; [done|]. simpl.
    apply (set_first_forallb _ _ _ _ _ Hc Hinv). intros d Hd Hq Hok.
    simpl in Hr. unfold log_ok, has_taken_at, is_taken, get_eq_str in *.
    destruct (MedicationLogUpdate.status x) as [s|] eqn:Es,
             (MedicationLogUpdate.taken_at x) as [ta|] eqn:Et; try discriminate.
    + apply bool_decide_eq_true in Hr as ->.
      rewrite (lookup_union_Some_l _ _ "taken_at" (VDatetime (truncate_ms ta)))
        by (by rewrite log_update_dict_taken_at, Et).
      rewrite (lookup_union_Some_l _ _ "status" (VStr "taken"))
        by (by rewrite log_update_dict_status, Es).
      reflexivity.
    + apply andb_true_iff in Hr as [Hs Hnot]. apply negb_true_iff in Hs.
      rewrite (lookup_union_r _ _ "taken_at")
        by (by rewrite log_update_dict_taken_at, Et).
      rewrite (lookup_union_Some_l _ _ "status" (VStr s))
        by (by rewrite log_update_dict_status, Es).
      rewrite Hs. unfold not_taken_yet in Hnot. rewrite forallb_forall in Hnot.
      apply list_elem_of_In in Hd. specialize (Hnot d Hd). rewrite Hq in Hnot.
      simpl in Hnot. apply negb_true_iff in Hnot. unfold has_taken_at in Hnot.
      rewrite Hnot. reflexivity.
    + rewrite (lookup_union_r _ _ "taken_at")
        by (by rewrite log_update_dict_taken_at, Et).
      rewrite (lookup_union_r _ _ "status")
        by (by rewrite log_update_dict_status, Es).
      exact Hok.
  - destruct (mark_medication_taken_db t i p db) as [->|(c & Hc & ->)]; [done|]. simpl.
    apply (set_first_forallb _ _ _ _ _ Hc Hinv). intros d Hd Hq Hok.
    destruct (taken_update_lookup t p) as [Hs Ht].
    unfold log_ok, has_taken_at, is_taken, get_eq_str.
    rewrite (lookup_union_Some_l _ _ _ _ Hs), (lookup_union_Some_l _ _ _ _ Ht).
    reflexivity.
Qed.

(** C7, as amended: [mark_medication_taken] sets status taken and
    [taken_at] together, [create_medication_log] leaves [taken_at] unset
    whatever the status, and [update_medication_log] stores the fields it
    is given; hence in every state reached by requests that keep the two
    together (no log created with status taken; an update with neither
    field, or with status taken and a [taken_at], or with another status
    and no [taken_at] for a log that has none), [taken_at] is set if and
    only if the status is taken. *)
Theorem taken_at_iff_taken db :
  reachable_by keeps_taken_at db → all_logs_ok db = true.
Proof.
  induction 1 as [db _ Hl|db r _ IH Hr].
  - unfold all_logs_ok. rewrite Hl. reflexivity.
  - by apply handle_logs_ok.
Qed.

Lemma taken_at_iff_taken_witness : all_logs_ok db_taken_and_noted = true.
Proof.
  apply (taken_at_iff_taken db_taken_and_noted).
  unfold db_taken_and_noted, db_one_dose.
  repeat (apply reachable_step; [|reflexivity]).
  by apply reachable_init.
Defined.

(** C7, as stated, fails: the update route stores status taken without a
    [taken_at]. *)
Lemma taken_without_taken_at_reachable :
  reachable (db_reported "taken") ∧ all_logs_ok (db_reported "taken") = false.
Proof.
  split.
  - unfold db_reported, db_one_dose. repeat (apply reachable_step; [|reflexivity]).
    by apply reachable_init.
  - vm_compute. reflexivity.
Qed.

(** ** Statuses over time *)

Lemma is_taken_status (d : doc) :
  is_taken d = true ↔ d !! "status" = Some (VStr "taken").
Proof.
  unfold is_taken, get_eq_str. destruct (d !! "status") as [[]|]; try (split; done).
  case_bool_decide; subst; split; congruence.
Qed.

(** Every request leaves each log at its position. *)
Lemma handle_log_lookup db r (i : nat) (d : doc) :
  medication_logs db !! i = Some d →
  ∃ d', medication_logs (handle r db) !! i = Some d'
        ∧ (d' = d
           ∨ (∃ u t j x, r = UpdateMedicationLog u t j x
                         ∧ d' = stored (drop_None (MedicationLogUpdate.dict x)) ∪ d)
           ∨ (∃ t j p, r = MarkMedicationTaken t j p ∧ d' = taken_update t p ∪ d)).
Proof.
  intros Hd. destruct r as [u t x|u t j x|j|u t x uid|u t j x|t j p]; simpl.
  - destruct (create_medication_db u t x db) as [->| ->]; simpl; eauto.
  - destruct (update_medication_db u t j x db) as [->|(c & Hc & ->)]; simpl; eauto.
  - destruct (delete_medication_db j db) as [->|(c & Hc & ->)]; simpl; eauto.
  - rewrite create_medication_log_db. simpl. exists d. split; [|by left].
    by apply lookup_app_l_Some.
  - destruct (update_medication_log_db u t j x db) as [->|(c & Hc & ->)]; simpl; [eauto|].
    destruct (set_first_lookup _ _ _ _ _ _ Hc Hd) as (d' & Hd' & [->|[_ ->]]); [eauto|].
    exists (stored (drop_None (MedicationLogUpdate.dict x)) ∪ d). split; [done|].
    right. left. by exists u, t, j, x.
  - destruct (mark_medication_taken_db t j p db) as [->|(c & Hc & ->)]; simpl; [eauto|].
    destruct (set_first_lookup _ _ _ _ _ _ Hc Hd) as (d' & Hd' & [->|[_ ->]]); [eauto|].
    exists (taken_update t p ∪ d). split; [done|]. right. right. by exists t, j, p.
Qed.

Lemma carries_no_status_update u t j x :
  carries_no_status (UpdateMedicationLog u t j x) = true →
  MedicationLogUpdate.status x = None.
Proof. simpl. by destruct (MedicationLogUpdate.status x). Qed.

(** C8, as amended: a log with status taken keeps it under
    [mark_medication_taken] and under every request other than an update
    that carries a status; and apart from [mark_medication_taken], which
    sets taken on the log it selects, such requests change no status at
    all, so that a missed log stays missed under them. *)
Theorem status_kept db r (i : nat) (d : doc) :
  medication_logs db !! i = Some d →
  carries_no_status r = true →
  ∃ d', medication_logs (handle r db) !! i = Some d'
        ∧ (is_taken d = true → is_taken d' = true)
        ∧ (is_mark_taken r = false → d' !! "status" = d !! "status").
Proof.
  intros Hd Hr.
  destruct (handle_log_lookup db r i d Hd)
    as (d' & Hd' & [->|[(u & t & j & x & -> & ->)|(t & j & p & -> & ->)]]);
    eexists; (split; [exact Hd'|]).
  - done.
  - apply carries_no_status_update in Hr as Es.
    assert ((stored (drop_None (MedicationLogUpdate.dict x)) ∪ d) !! "status"
            = d !! "status") as E
      by (apply lookup_union_r; by rewrite log_update_dict_status, Es).
    split; [|done]. rewrite !is_taken_status. by rewrite E.
  - split; [|discriminate]. intros _. apply is_taken_status.
    apply lookup_union_Some_l, taken_update_lookup.
Qed.

Lemma status_kept_witness :
  ∃ d', medication_logs (handle (MarkMedicationTaken 9 "log-0" None) db_taken_and_noted)
          !! 0%nat = Some d'
        ∧ (is_taken dose_taken_and_noted = true → is_taken d' = true)
        ∧ (is_mark_taken (MarkMedicationTaken 9 "log-0" None) = false →
           d' !! "status" = dose_taken_and_noted !! "status").
Proof.
  apply (status_kept db_taken_and_noted (MarkMedicationTaken 9 "log-0" None) 0
           dose_taken_and_noted).
  - reflexivity.
  - reflexivity.
Defined.

(** C8, as stated, fails: a missed log is turned into a taken one by
    [mark_medication_taken], and the update route overwrites a taken
    status. *)
Lemma terminal_status_left :
  (is_terminal <$> medication_logs (db_reported "missed") !! 0%nat) = Some true
  ∧ (get_eq_str "status" "missed"
       <$> medication_logs (handle (MarkMedicationTaken 5 "log-0" None)
                              (db_reported "missed")) !! 0%nat) = Some false
  ∧ (is_terminal <$> medication_logs (db_reported "taken") !! 0%nat) = Some true
  ∧ (is_terminal
       <$> medication_logs (handle (UpdateMedicationLog "x" 5 "log-0" (set_status "pending"))
                              (db_reported "taken")) !! 0%nat) = Some false.
Proof. repeat split; vm_compute; reflexivity. Qed.

(** ** Reading the logs *)

Lemma parse_bound_accepted fromisoformat s :
  accepted fromisoformat s → ∃ b, parse_bound fromisoformat s = Ok b.
Proof.
  unfold accepted, parse_bound, truthy. destruct s as [s|]; [|eauto].
  intros [->|[t Ht]]; [eauto|].
  destruct (negb _); [|eauto]. simpl. rewrite Ht. eauto.
Qed.

Lemma find_no_user_logs (q : doc → bool) user_id db :
  user_logs user_id db = [] →
  find (λ d, match_str "user_id" user_id d && q d) (medication_logs db) = [].
Proof. unfold find, user_logs. intros H. by rewrite filter_andb, H. Qed.

(** C9: reading the dose logs of a user who has no stored log, a user who
    does not exist included, returns the empty list without raising and
    without writing, for every pair of bounds that
    [datetime.fromisoformat] accepts, absent ones included. *)
Theorem no_logs_empty_list fromisoformat uuid4 utcnow user_id start_date end_date db :
  user_logs user_id db = [] →
  accepted fromisoformat start_date →
  accepted fromisoformat end_date →
  get_user_medication_logs fromisoformat uuid4 utcnow user_id start_date end_date db
  = (Ok [], db).
Proof.
  intros Hnone [gte Hs]%parse_bound_accepted [lte He]%parse_bound_accepted.
  unfold get_user_medication_logs, mbind, M_mbind, read, lift, mret, M_ret.
  destruct (truthy start_date || truthy end_date).
  - rewrite Hs, He. cbn beta iota. rewrite find_no_user_logs by exact Hnone. reflexivity.
  - cbn beta iota. unfold user_logs in Hnone. unfold find. rewrite Hnone. reflexivity.
Qed.

Lemma no_logs_empty_list_witness :
  get_user_medication_logs sample_fromisoformat "x" 0 "nobody" (Some "2024-04-25") None
    db_scenario
  = (Ok [], db_scenario).
Proof.
  apply (no_logs_empty_list sample_fromisoformat "x" 0 "nobody" (Some "2024-04-25") None
           db_scenario).
  - reflexivity.
  - right. exists (combine sample_today 0). reflexivity.
  - exact I.
Defined.

(** * Further properties *)

(** ** Models and documents *)

Lemma has_type_VStr (s s' : string) (t : ftype) : has_type (VStr s) t = has_type (VStr s') t.
Proof. induction t; simpl; done. Qed.

Lemma has_type_VDatetime (a b : datetime) (t : ftype) :
  has_type (VDatetime a) t = has_type (VDatetime b) t.
Proof. induction t; simpl; done. Qed.

Lemma field_value_typed uuid4 utcnow f kwargs v :
  default_ok f = true → field_value uuid4 utcnow f kwargs = Ok v →
  has_type v (ftyp f) = true.
Proof.
  unfold default_ok, field_value. intros Hdef.
  destruct (kwargs !! fname f) as [w|].
  - destruct (has_type w (ftyp f)) eqn:E; [|discriminate]. by intros [= <-].
  - destruct (fdef f); try discriminate; intros [= <-]; try done.
    + by rewrite (has_type_VStr _ "").
    + by rewrite (has_type_VDatetime _ 0).
Qed.

Lemma construct_cons_Ok uuid4 utcnow f m kwargs d :
  construct uuid4 utcnow (f :: m) kwargs = Ok d →
  ∃ v d', field_value uuid4 utcnow f kwargs = Ok v
          ∧ construct uuid4 utcnow m kwargs = Ok d' ∧ d = <[fname f := v]> d'.
Proof.
  simpl. destruct (field_value _ _ f kwargs) as [v|]; simpl; [|discriminate].
  destruct (construct _ _ m kwargs) as [d'|]; simpl; [|discriminate].
  intros [= <-]. eauto.
Qed.

Lemma construct_dom uuid4 utcnow m kwargs d :
  construct uuid4 utcnow m kwargs = Ok d → dom d = list_to_set (names m).
Proof.
  revert d. induction m as [|f m IH]; intros d H.
  - injection H as <-. by rewrite dom_empty_L.
  - apply construct_cons_Ok in H as (v & d' & _ & Hd' & ->).
    rewrite dom_insert_L, (IH d' Hd'). reflexivity.
Qed.

Lemma construct_fields_ok uuid4 utcnow m kwargs d :
  NoDup (names m) → forallb default_ok m = true →
  construct uuid4 utcnow m kwargs = Ok d → forallb (field_ok d) m = true.
Proof.
  revert d. induction m as [|f m IH]; intros d Hnd Hdef H; [reflexivity|].
  apply construct_cons_Ok in H as (v & d' & Hv & Hd' & ->).
  apply NoDup_cons in Hnd as [Hf Hnd]. simpl in Hdef.
  apply andb_true_iff in Hdef as [Hdf Hdef]. simpl. apply andb_true_iff. split.
  - unfold field_ok. rewrite lookup_insert_eq. by eapply field_value_typed.
  - specialize (IH d' Hnd Hdef Hd'). rewrite forallb_forall in IH |- *.
    intros g Hg. specialize (IH g Hg). unfold field_ok in *.
    rewrite lookup_insert_ne; [done|]. intros E. apply Hf. rewrite E.
    apply list_elem_of_fmap_2, list_elem_of_In, Hg.
Qed.

(** What a model builds fits the model. *)
Lemma construct_conforms uuid4 utcnow m kwargs d :
  model_ok m = true → construct uuid4 utcnow m kwargs = Ok d → conforms m d = true.
Proof.
  intros [Hnd Hdef]%andb_true_iff H. apply bool_decide_eq_true in Hnd.
  apply andb_true_iff. split.
  - apply bool_decide_eq_true. by eapply construct_dom.
  - by eapply construct_fields_ok.
Qed.

Lemma construct_of_fields uuid4 utcnow m (d : doc) :
  forallb (field_ok d) m = true →
  ∃ d', construct uuid4 utcnow m d = Ok d'
        ∧ ∀ k, d' !! k = if bool_decide (k ∈ names m) then d !! k else None.
Proof.
  induction m as [|f m IH]; intros H.
  - exists ∅. split; [reflexivity|]. intros k. rewrite lookup_empty.
    by rewrite bool_decide_eq_false_2 by apply not_elem_of_nil.
  - simpl in H. apply andb_true_iff in H as [Hf Hm].
    destruct (IH Hm) as (d' & Hd' & Hlook). unfold field_ok in Hf.
    destruct (d !! fname f) as [v|] eqn:Ev; [|discriminate].
    exists (<[fname f := v]> d'). split.
    + simpl. unfold field_value. rewrite Ev, Hf. simpl. rewrite Hd'. reflexivity.
    + intros k. destruct (decide (fname f = k)) as [<-|Hne].
      * rewrite lookup_insert_eq, bool_decide_eq_true_2; [done|]. by left.
      * rewrite lookup_insert_ne, Hlook by done.
        apply (f_equal (λ b : bool, if b then d !! k else None)).
        apply bool_decide_ext. unfold names. simpl. rewrite elem_of_cons.
        split; [by right|]. intros [E|E]; [congruence|done].
Qed.

(** A document that fits a model is read back as itself, without any
    default being drawn. *)
Lemma conforms_construct uuid4 utcnow m (d : doc) :
  conforms m d = true → construct uuid4 utcnow m d = Ok d.
Proof.
  intros [Hdom Hf]%andb_true_iff. apply bool_decide_eq_true in Hdom.
  destruct (construct_of_fields uuid4 utcnow m d Hf) as (d' & Hd' & Hlook).
  rewrite Hd'. f_equal. apply map_eq. intros k. rewrite Hlook.
  case_bool_decide as Hk; [done|]. symmetry. apply not_elem_of_dom.
  rewrite Hdom. by rewrite elem_of_list_to_set.
Qed.

Lemma mapM_conforms uuid4 utcnow m (l : list doc) :
  forallb (conforms m) l = true → mapM (construct uuid4 utcnow m) l = Ok l.
Proof.
  induction l as [|d l IH]; [reflexivity|]. simpl.
  intros [Hd Hl]%andb_true_iff. rewrite (conforms_construct _ _ _ _ Hd).
  simpl. rewrite (IH Hl). reflexivity.
Qed.

Lemma models_ok :
  model_ok UserProfile = true ∧ model_ok Medication = true ∧ model_ok MedicationLog = true.
Proof. repeat split; vm_compute; reflexivity. Qed.

Lemma model_ok_NoDup m : model_ok m = true → NoDup (names m).
Proof. intros [H _]%andb_true_iff. by apply bool_decide_eq_true in H. Qed.

Lemma NoDup_names_eq (m : model) (f g : field) :
  NoDup (names m) → f ∈ m → g ∈ m → fname f = fname g → f = g.
Proof.
  unfold names. induction m as [|h m IH]; intros Hnd Hf Hg E; [by apply elem_of_nil in Hf|].
  simpl in Hnd. apply NoDup_cons in Hnd as [Hh Hnd].
  apply elem_of_cons in Hf as [->|Hf], Hg as [->|Hg]; [done| | |by apply IH].
  - exfalso. apply Hh. rewrite E. by apply list_elem_of_fmap_2.
  - exfalso. apply Hh. rewrite <- E. by apply list_elem_of_fmap_2.
Qed.

Lemma fits_field (m : model) (upd : doc) k v :
  fits m upd → upd !! k = Some v →
  ∃ f, f ∈ m ∧ fname f = k ∧ has_type v (ftyp f) = true.
Proof.
  intros Hfit Hk. specialize (Hfit k v Hk). apply existsb_exists in Hfit as (f & Hf & Hok).
  apply andb_true_iff in Hok as [Hn Ht]. apply bool_decide_eq_true in Hn.
  exists f. by rewrite <- list_elem_of_In in Hf.
Qed.

(** Setting fields of the model, with values of their types, keeps a
    document fitting. *)
Lemma conforms_union (m : model) (upd d : doc) :
  NoDup (names m) → fits m upd → conforms m d = true → conforms m (upd ∪ d) = true.
Proof.
  intros Hnd Hfit [Hdom Hf]%andb_true_iff. apply bool_decide_eq_true in Hdom.
  apply andb_true_iff. split.
  - apply bool_decide_eq_true. rewrite dom_union_L, Hdom.
    apply set_eq. intros k. rewrite elem_of_union. split; [|by right].
    intros [Hk|Hk]; [|done]. apply elem_of_dom in Hk as [v Hv].
    destruct (fits_field _ _ _ _ Hfit Hv) as (f & Hfm & <- & _).
    rewrite elem_of_list_to_set. by apply list_elem_of_fmap_2.
  - rewrite forallb_forall in Hf |- *. intros f Hfm. specialize (Hf f Hfm).
    unfold field_ok in *. destruct (upd !! fname f) as [v|] eqn:Ev.
    + rewrite (lookup_union_Some_l _ _ _ _ Ev).
      destruct (fits_field _ _ _ _ Hfit Ev) as (g & Hg & E & Ht).
      rewrite <- list_elem_of_In in Hfm.
      by rewrite <- (NoDup_names_eq m g f Hnd Hg Hfm E).
    + by rewrite (lookup_union_r _ _ _ Ev).
Qed.

Lemma drop_None_fits (m : model) (l : list (string * value)) :
  Forall (λ kv, is_None kv.2 = false →
            existsb (λ f, bool_decide (fname f = kv.1) && has_type kv.2 (ftyp f)) m = true) l →
  fits m (drop_None (list_to_map l)).
Proof.
  intros Hl k v Hk. unfold drop_None in Hk.
  apply map_lookup_filter_Some in Hk as [Hk Hv]. simpl in Hv.
  apply elem_of_list_to_map_2 in Hk. rewrite Forall_forall in Hl.
  by apply (Hl (k, v)).
Qed.

Ltac each_update_field :=
  repeat (apply Forall_cons; split); [..|by constructor]; simpl;
  match goal with |- is_None (opt _ ?o) = false → _ => by destruct o end.

Lemma medication_update_fits (x : MedicationUpdate.t) :
  fits Medication (drop_None (MedicationUpdate.dict x)).
Proof. destruct x. apply drop_None_fits. each_update_field. Qed.

Lemma log_update_fits (x : MedicationLogUpdate.t) :
  fits MedicationLog (drop_None (MedicationLogUpdate.dict x)).
Proof. destruct x. apply drop_None_fits. each_update_field. Qed.

Lemma profile_update_fits (x : UserProfileUpdate.t) :
  fits UserProfile (drop_None (UserProfileUpdate.dict x)).
Proof. destruct x. apply drop_None_fits. each_update_field. Qed.

(** Encoding changes neither the fields nor the types of their values. *)
Lemma stored_fits (m : model) (upd : doc) : fits m upd → fits m (stored upd).
Proof.
  intros Hfit k v Hk. rewrite stored_lookup in Hk.
  destruct (upd !! k) as [w|] eqn:E; [|done]. injection Hk as <-.
  specialize (Hfit k w E). apply existsb_exists in Hfit as (f & Hf & Hok).
  apply existsb_exists. exists f. split; [done|]. by rewrite has_type_stored_value.
Qed.

Lemma stored_conforms (m : model) (d : doc) :
  conforms m d = true → conforms m (stored d) = true.
Proof.
  intros [Hdom Hf]%andb_true_iff. apply bool_decide_eq_true in Hdom.
  apply andb_true_iff. split.
  - apply bool_decide_eq_true. unfold stored. by rewrite dom_fmap_L.
  - rewrite forallb_forall in Hf |- *. intros f Hfm. specialize (Hf f Hfm).
    unfold field_ok in *. rewrite stored_lookup.
    destruct (d !! fname f) as [v|]; [|done]. simpl. by rewrite has_type_stored_value.
Qed.

Lemma singleton_fits (m : model) (k : string) (v : value) :
  existsb (λ f, bool_decide (fname f = k) && has_type v (ftyp f)) m = true →
  fits m {[k := v]}.
Proof. intros H k' v' [<- <-]%lookup_singleton_Some. exact H. Qed.

Lemma taken_update_fits utcnow photo : fits MedicationLog (taken_update utcnow photo).
Proof.
  unfold taken_update. intros k v Hk. destruct (truthy photo).
  - apply lookup_insert_Some in Hk as [[<- <-]|[_ Hk]]; [by destruct photo|].
    apply lookup_insert_Some in Hk as [[<- <-]|[_ Hk]]; [done|].
    by apply lookup_singleton_Some in Hk as [<- <-].
  - apply lookup_insert_Some in Hk as [[<- <-]|[_ Hk]]; [done|].
    by apply lookup_singleton_Some in Hk as [<- <-].
Qed.

Lemma set_first_conforms (m : model) (q : doc → bool) (upd : doc) (c c' : list doc) :
  model_ok m = true → fits m upd →
  set_first q upd c = Some c' →
  forallb (conforms m) c = true → forallb (conforms m) c' = true.
Proof.
  intros Hm Hfit Hu Hc. apply (set_first_forallb _ _ _ _ _ Hu Hc).
  intros d _ _ Hd. by apply conforms_union; [apply model_ok_NoDup| |].
Qed.

(** ** Running the profile routes *)

Lemma create_user_profile_run uuid4 utcnow x db :
  create_user_profile uuid4 utcnow x db
  = if encodable (new_user_profile uuid4 utcnow x)
    then (Ok (new_user_profile uuid4 utcnow x),
          set_user_profiles (user_profiles db ++ [stored (new_user_profile uuid4 utcnow x)]) db)
    else (Raise OverflowError, db).
Proof.
  transitivity (match insert_one (new_user_profile uuid4 utcnow x) (user_profiles db) with
                | Ok c => (Ok (new_user_profile uuid4 utcnow x), set_user_profiles c db)
                | Raise e => (Raise e, db)
                end).
  - destruct x as [? ? ? [?|] ? ? ? ? ? ? ? ?]; reflexivity.
  - rewrite insert_one_run. by destruct (encodable _).
Qed.

Lemma create_user_profile_db uuid4 utcnow x db :
  let db' := (create_user_profile uuid4 utcnow x db).2 in
  db' = db
  ∨ db' = set_user_profiles
            (user_profiles db ++ [stored (new_user_profile uuid4 utcnow x)]) db.
Proof. rewrite create_user_profile_run. destruct (encodable _); [by right|by left]. Qed.

Lemma update_user_profile_db uuid4 utcnow user_id x db :
  let db' := (update_user_profile uuid4 utcnow user_id x db).2 in
  db' = db
  ∨ ∃ c, set_first (match_str "id" user_id)
           (stored (drop_None (UserProfileUpdate.dict x))) (user_profiles db) = Some c
         ∧ db' = set_user_profiles c db.
Proof.
  unfold update_user_profile. case_bool_decide; [by left|].
  run_update. by destruct (find_one _ _).
Qed.

Lemma complete_onboarding_db user_id db :
  let db' := (complete_onboarding user_id db).2 in
  db' = db
  ∨ ∃ c, set_first (match_str "id" user_id)
           {["onboarding_completed" := VBool true]} (user_profiles db) = Some c
         ∧ db' = set_user_profiles c db.
Proof. unfold complete_onboarding. run_update. done. Qed.

(** ** Stored documents fit their models *)

Lemma new_medication_conforms uuid4 utcnow x :
  conforms Medication (stored (new_medication uuid4 utcnow x)) = true.
Proof.
  apply stored_conforms. destruct x as [? ? ? ? ? ? [?|] [?|]]; vm_compute; reflexivity.
Qed.

Lemma new_medication_log_conforms uuid4 utcnow x user_id :
  conforms MedicationLog (stored (new_medication_log uuid4 utcnow x user_id)) = true.
Proof. apply stored_conforms. destruct x; vm_compute; reflexivity. Qed.

Lemma new_user_profile_conforms uuid4 utcnow x :
  conforms UserProfile (stored (new_user_profile uuid4 utcnow x)) = true.
Proof.
  apply stored_conforms. destruct x as [? ? ? [?|] ? ? ? ? ? ? ? ?]; vm_compute; reflexivity.
Qed.

Lemma well_formed_iff db :
  well_formed db = true
  ↔ forallb (conforms UserProfile) (user_profiles db) = true
    ∧ forallb (conforms Medication) (medications db) = true
    ∧ forallb (conforms MedicationLog) (medication_logs db) = true.
Proof. unfold well_formed. rewrite !andb_true_iff. tauto. Qed.

Lemma handle_well_formed db r : well_formed db = true → well_formed (handle r db) = true.
Proof.
  rewrite !well_formed_iff. intros (Hp & Hm & Hl).
  destruct models_ok as (_ & Hmed & Hlog).
  destruct r as [u t x|u t i x|i|u t x uid|u t i x|t i p]; cbn [handle].
  - destruct (create_medication_db u t x db) as [->| ->]; [done|]. simpl.
    rewrite forallb_snoc, Hm, new_medication_conforms. done.
  - destruct (update_medication_db u t i x db) as [->|(c & Hc & ->)]; [done|]. simpl.
    split; [done|]. split; [|done].
    exact (set_first_conforms _ _ _ _ _ Hmed (stored_fits _ _ (medication_update_fits x))
             Hc Hm).
  - destruct (delete_medication_db i db) as [->|(c & Hc & ->)]; [done|]. simpl.
    split; [done|]. split; [|done].
    refine (set_first_conforms _ _ _ _ _ Hmed _ Hc Hm). by apply singleton_fits.
  - rewrite create_medication_log_db. simpl.
    rewrite forallb_snoc, Hl, new_medication_log_conforms. done.
  - destruct (update_medication_log_db u t i x db) as [->|(c & Hc & ->)]; [done|]. simpl.
    split; [done|]. split; [done|].
    exact (set_first_conforms _ _ _ _ _ Hlog (stored_fits _ _ (log_update_fits x)) Hc Hl).
  - destruct (mark_medication_taken_db t i p db) as [->|(c & Hc & ->)]; [done|]. simpl.
    split; [done|]. split; [done|].
    exact (set_first_conforms _ _ _ _ _ Hlog (taken_update_fits t p) Hc Hl).
Qed.

Lemma serve_well_formed db r : well_formed db = true → well_formed (serve r db) = true.
Proof.
  destruct r as [r|u t x|u t i x|i]; cbn [serve]; [apply handle_well_formed|..];
    rewrite !well_formed_iff; intros (Hp & Hm & Hl);
    destruct models_ok as (Hprof & _ & _).
  - destruct (create_user_profile_db u t x db) as [->| ->]; [done|]. simpl.
    rewrite forallb_snoc, Hp, new_user_profile_conforms. done.
  - destruct (update_user_profile_db u t i x db) as [->|(c & Hc & ->)]; [done|]. simpl.
    split; [|done].
    exact (set_first_conforms _ _ _ _ _ Hprof (stored_fits _ _ (profile_update_fits x))
             Hc Hp).
  - destruct (complete_onboarding_db i db) as [->|(c & Hc & ->)]; [done|]. simpl.
    split; [|done].
    refine (set_first_conforms _ _ _ _ _ Hprof _ Hc Hp). by apply singleton_fits.
Qed.

Lemma served_well_formed db : served db → well_formed db = true.
Proof. induction 1 as [|db r _ IH]; [reflexivity|by apply serve_well_formed]. Qed.

(** ** [set_first], more precisely *)

Lemma set_first_None (q : doc → bool) (upd : doc) (c : list doc) :
  forallb (λ d, negb (q d)) c = true → set_first q upd c = None.
Proof.
  induction c as [|d c IH]; [reflexivity|]. simpl.
  intros [Hd Hc]%andb_true_iff. apply negb_true_iff in Hd. rewrite Hd, (IH Hc). reflexivity.
Qed.

(** The document updated is the first that the query selects. *)
Lemma set_first_Some (q : doc → bool) (upd : doc) (c c' : list doc) :
  set_first q upd c = Some c' →
  ∃ (j : nat) (d : doc),
    c !! j = Some d ∧ q d = true
    ∧ forallb (λ d, negb (q d)) (take j c) = true
    ∧ c' = <[j := upd ∪ d]> c.
Proof.
  revert c'. induction c as [|x c IH]; intros c' H; simpl in H; [discriminate|].
  destruct (q x) eqn:Hq.
  - injection H as <-. by exists 0%nat, x.
  - destruct (set_first q upd c) as [c''|]; [|discriminate]. injection H as <-.
    destruct (IH c'' eq_refl) as (j & d & Hj & Hd & Hbefore & ->).
    exists (S j), d. simpl. rewrite Hq. done.
Qed.

Lemma find_one_None (q : doc → bool) (c : list doc) :
  forallb (λ d, negb (q d)) c = true → find_one q c = None.
Proof.
  unfold find_one, find. induction c as [|d c IH]; [reflexivity|]. simpl.
  intros [Hd Hc]%andb_true_iff. apply negb_true_iff in Hd. rewrite Hd. by apply IH.
Qed.

Lemma no_id_app i (c1 c2 : list doc) : no_id i (c1 ++ c2) = no_id i c1 && no_id i c2.
Proof. apply forallb_app. Qed.

(** The routes that send a fixed update, or only strings and datetimes. *)
Lemma delete_medication_run medication_id db :
  delete_medication medication_id db
  = match set_first (match_str "id" medication_id) {["is_active" := VBool false]}
            (medications db) with
    | None => (Raise (HTTPException 404 "Medication not found"), db)
    | Some c => (Ok "Medication deleted successfully", set_medications c db)
    end.
Proof.
  unfold delete_medication, mbind, M_mbind, read, write, call, raise, mret, M_ret.
  cbn beta iota zeta. rewrite update_one_run.
  change (encodable {["is_active" := VBool false]}) with true. cbn beta iota zeta.
  by destruct (set_first _ _ _).
Qed.

Lemma complete_onboarding_run user_id db :
  complete_onboarding user_id db
  = match set_first (match_str "id" user_id) {["onboarding_completed" := VBool true]}
            (user_profiles db) with
    | None => (Raise (HTTPException 404 "Profile not found"), db)
    | Some c => (Ok "Onboarding completed successfully", set_user_profiles c db)
    end.
Proof.
  unfold complete_onboarding, mbind, M_mbind, read, write, call, raise, mret, M_ret.
  cbn beta iota zeta. rewrite update_one_run.
  change (encodable {["onboarding_completed" := VBool true]}) with true. cbn beta iota zeta.
  by destruct (set_first _ _ _).
Qed.

Lemma mark_medication_taken_run utcnow log_id photo db :
  mark_medication_taken utcnow log_id photo db
  = match set_first (match_str "id" log_id) (taken_update utcnow photo)
            (medication_logs db) with
    | None => (Raise (HTTPException 404 "Medication log not found"), db)
    | Some c => (Ok "Medication marked as taken", set_medication_logs c db)
    end.
Proof.
  unfold mark_medication_taken.
  destruct (mark_medication_taken_update utcnow photo) as [He Hs].
  unfold mbind, M_mbind, read, write, call, raise, lift, mret, M_ret.
  cbn beta iota zeta. rewrite update_one_run, He, Hs.
  by destruct (set_first _ _ _).
Qed.

(** An update of a dose log holds no integer: the encoder accepts it. *)
Lemma log_update_encodable (x : MedicationLogUpdate.t) :
  encodable (drop_None (MedicationLogUpdate.dict x)) = true.
Proof. destruct x as [[?|] [?|] [?|] [?|]]; vm_compute; reflexivity. Qed.

(** X1: an identifier that no stored document carries is answered with
    404 by every route that selects a document by identifier, and nothing
    is written; the update routes answer 400 first when the update has no
    field, and an update of a profile or of a medication that the encoder
    refuses (an integer beyond 64 bits) raises [OverflowError] instead. *)
Theorem unknown_id_not_found uuid4 utcnow now now' i photo mx lx px db :
  no_id i (user_profiles db ++ medications db ++ medication_logs db) = true →
  get_user_profile uuid4 utcnow i db = (Raise (HTTPException 404 "Profile not found"), db)
  ∧ complete_onboarding i db = (Raise (HTTPException 404 "Profile not found"), db)
  ∧ get_user_dashboard uuid4 utcnow now now' i db
    = (Raise (HTTPException 404 "Profile not found"), db)
  ∧ delete_medication i db = (Raise (HTTPException 404 "Medication not found"), db)
  ∧ mark_medication_taken utcnow i photo db
    = (Raise (HTTPException 404 "Medication log not found"), db)
  ∧ update_user_profile uuid4 utcnow i px db
    = (Raise (if bool_decide (size (drop_None (UserProfileUpdate.dict px)) = 0%nat)
              then HTTPException 400 "No fields to update"
              else if encodable (drop_None (UserProfileUpdate.dict px))
                   then HTTPException 404 "Profile not found"
                   else OverflowError), db)
  ∧ update_medication uuid4 utcnow i mx db
    = (Raise (if bool_decide (size (drop_None (MedicationUpdate.dict mx)) = 0%nat)
              then HTTPException 400 "No fields to update"
              else if encodable (drop_None (MedicationUpdate.dict mx))
                   then HTTPException 404 "Medication not found"
                   else OverflowError), db)
  ∧ update_medication_log uuid4 utcnow i lx db
    = (Raise (if bool_decide (size (drop_None (MedicationLogUpdate.dict lx)) = 0%nat)
              then HTTPException 400 "No fields to update"
              else HTTPException 404 "Medication log not found"), db).
Proof.
  rewrite !no_id_app, !andb_true_iff. intros (Hp & Hm & Hl). unfold no_id in *.
  repeat split.
  - unfold get_user_profile, mbind, M_mbind, read, raise. simpl.
    by rewrite (find_one_None _ _ Hp).
  - by rewrite complete_onboarding_run, (set_first_None _ _ _ Hp).
  - unfold get_user_dashboard, mbind, M_mbind, read, raise. simpl.
    by rewrite (find_one_None _ _ Hp).
  - by rewrite delete_medication_run, (set_first_None _ _ _ Hm).
  - by rewrite mark_medication_taken_run, (set_first_None _ _ _ Hl).
  - unfold update_user_profile. case_bool_decide; [reflexivity|].
    unfold mbind, M_mbind, read, call, raise. cbn beta iota zeta. rewrite update_one_run.
    destruct (encodable _); [|reflexivity]. by rewrite (set_first_None _ _ _ Hp).
  - unfold update_medication. case_bool_decide; [reflexivity|].
    unfold mbind, M_mbind, read, call, raise. cbn beta iota zeta. rewrite update_one_run.
    destruct (encodable _); [|reflexivity]. by rewrite (set_first_None _ _ _ Hm).
  - unfold update_medication_log. case_bool_decide; [reflexivity|].
    unfold mbind, M_mbind, read, call, raise. cbn beta iota zeta.
    rewrite update_one_run, log_update_encodable. by rewrite (set_first_None _ _ _ Hl).
Qed.

Lemma unknown_id_not_found_witness :
  delete_medication "med-7" db_A_and_B
  = (Raise (HTTPException 404 "Medication not found"), db_A_and_B).
Proof.
  apply (unknown_id_not_found "x" 0 0 0 "med-7" None no_medication_update no_log_update
           no_profile_update db_A_and_B).
  vm_compute. reflexivity.
Defined.

(** ** Empty updates *)

Lemma construct_raises uuid4 utcnow m kwargs e :
  construct uuid4 utcnow m kwargs = Raise e → e = ValidationError.
Proof.
  induction m as [|f m IH]; simpl; [discriminate|].
  destruct (field_value uuid4 utcnow f kwargs) as [v|e'] eqn:Ev; simpl.
  - destruct (construct uuid4 utcnow m kwargs) as [d|e']; simpl; [discriminate|].
    intros [= <-]. by apply IH.
  - intros [= <-]. unfold field_value in Ev.
    destruct (kwargs !! fname f); [destruct (has_type _ _)|destruct (fdef f)]; congruence.
Qed.

Lemma construct_not_400 uuid4 utcnow m kwargs : is_400 (construct uuid4 utcnow m kwargs) = false.
Proof.
  destruct (construct uuid4 utcnow m kwargs) as [d|e] eqn:E; [reflexivity|].
  by rewrite (construct_raises _ _ _ _ _ E).
Qed.

Ltac update_route_400 :=
  case_bool_decide; [reflexivity|];
  unfold mbind, M_mbind, read, write, call, raise, lift; cbn beta iota zeta;
  rewrite update_one_run; destruct (encodable _); cbn beta iota zeta; [|reflexivity];
  destruct (set_first _ _ _) as [c|]; cbn beta iota zeta; [|reflexivity];
  destruct (find_one _ _); cbn beta iota zeta delta [fst];
  [apply construct_not_400|reflexivity].

Lemma update_medication_400 uuid4 utcnow i x db :
  is_400 (update_medication uuid4 utcnow i x db).1
  = bool_decide (size (drop_None (MedicationUpdate.dict x)) = 0%nat).
Proof. unfold update_medication. update_route_400. Qed.

Lemma update_medication_log_400 uuid4 utcnow i x db :
  is_400 (update_medication_log uuid4 utcnow i x db).1
  = bool_decide (size (drop_None (MedicationLogUpdate.dict x)) = 0%nat).
Proof. unfold update_medication_log. update_route_400. Qed.

Lemma update_user_profile_400 uuid4 utcnow i x db :
  is_400 (update_user_profile uuid4 utcnow i x db).1
  = bool_decide (size (drop_None (UserProfileUpdate.dict x)) = 0%nat).
Proof. unfold update_user_profile. update_route_400. Qed.

(** A field that is supplied stays in the update. *)
Ltac supplied_field H k :=
  exfalso; apply map_size_empty_iff in H;
  apply (f_equal (λ m : doc, m !! k)) in H;
  rewrite drop_None_lookup, lookup_empty in H; vm_compute in H; discriminate H.

Lemma medication_update_empty (x : MedicationUpdate.t) :
  size (drop_None (MedicationUpdate.dict x)) = 0%nat ↔ x = no_medication_update.
Proof.
  split; [|by intros ->]. intros H. destruct x as [n d f ts r ri a].
  destruct n; [supplied_field H "name"|].
  destruct d; [supplied_field H "dosage"|].
  destruct f; [supplied_field H "frequency"|].
  destruct ts; [supplied_field H "time_slots"|].
  destruct r; [supplied_field H "remaining_pills"|].
  destruct ri; [supplied_field H "refill_info"|].
  destruct a; [supplied_field H "is_active"|].
  reflexivity.
Qed.

Lemma log_update_empty (x : MedicationLogUpdate.t) :
  size (drop_None (MedicationLogUpdate.dict x)) = 0%nat ↔ x = no_log_update.
Proof.
  split; [|by intros ->]. intros H. destruct x as [ta s p n].
  destruct ta; [supplied_field H "taken_at"|].
  destruct s; [supplied_field H "status"|].
  destruct p; [supplied_field H "verification_photo"|].
  destruct n; [supplied_field H "notes"|].
  reflexivity.
Qed.

Lemma profile_update_empty (x : UserProfileUpdate.t) :
  size (drop_None (UserProfileUpdate.dict x)) = 0%nat ↔ x = no_profile_update.
Proof.
  split; [|by intros ->]. intros H. destruct x as [n a ph pp ec cc dc am rt np fc ac].
  destruct n; [supplied_field H "name"|].
  destruct a; [supplied_field H "age"|].
  destruct ph; [supplied_field H "phone_number"|].
  destruct pp; [supplied_field H "profile_photo"|].
  destruct ec; [supplied_field H "emergency_contact"|].
  destruct cc; [supplied_field H "caregiver_contact"|].
  destruct dc; [supplied_field H "doctor_contact"|].
  destruct am; [supplied_field H "appearance_mode"|].
  destruct rt; [supplied_field H "reminder_tone"|].
  destruct np; [supplied_field H "notification_preferences"|].
  destruct fc; [supplied_field H "fitbit_connected"|].
  destruct ac; [supplied_field H "apple_watch_connected"|].
  reflexivity.
Qed.

(** X2: the three update routes answer 400 exactly when no field of the
    update is supplied; a supplied 0, [False] or empty string is a field
    like any other. *)
Theorem update_400_iff_no_field uuid4 utcnow i db :
  (∀ x, is_400 (update_medication uuid4 utcnow i x db).1 = true ↔ x = no_medication_update)
  ∧ (∀ x, is_400 (update_medication_log uuid4 utcnow i x db).1 = true ↔ x = no_log_update)
  ∧ (∀ x, is_400 (update_user_profile uuid4 utcnow i x db).1 = true ↔ x = no_profile_update).
Proof.
  split; [|split]; intros x.
  - rewrite update_medication_400, bool_decide_eq_true. apply medication_update_empty.
  - rewrite update_medication_log_400, bool_decide_eq_true. apply log_update_empty.
  - rewrite update_user_profile_400, bool_decide_eq_true. apply profile_update_empty.
Qed.

(** ** Fields that no route changes *)

Lemma set_first_keeps (q : doc → bool) (upd : doc) (c c' : list doc)
    (ks : list string) (j : nat) (d : doc) :
  set_first q upd c = Some c' →
  Forall (λ k, upd !! k = None) ks →
  c !! j = Some d →
  ∃ d', c' !! j = Some d' ∧ Forall (λ k, d' !! k = d !! k) ks.
Proof.
  intros Hu Hks Hj.
  destruct (set_first_lookup _ _ _ _ _ _ Hu Hj) as (d' & Hd' & [->|[_ ->]]).
  - exists d. split; [done|]. by apply Forall_forall.
  - eexists. split; [done|]. eapply Forall_impl; [exact Hks|].
    intros k Hk. by apply lookup_union_r.
Qed.

Lemma keeps_refl (d : doc) (ks : list string) : Forall (λ k, d !! k = d !! k) ks.
Proof. by apply Forall_forall. Qed.

Ltac absent_keys :=
  repeat (apply Forall_cons; split); [..|by constructor];
  rewrite ?stored_lookup, ?drop_None_lookup; reflexivity.

Lemma serve_keeps_medication db r (j : nat) (d : doc) :
  medications db !! j = Some d →
  ∃ d', medications (serve r db) !! j = Some d'
        ∧ Forall (λ k, d' !! k = d !! k) ["id"; "user_id"; "total_pills"; "created_at"].
Proof.
  intros Hj.
  destruct r as [[u t x|u t i x|i|u t x uid|u t i x|t i p]|u t x|u t i x|i]; cbn [serve handle].
  - destruct (create_medication_db u t x db) as [->| ->]; simpl; exists d;
      (split; [|apply keeps_refl]); [done|by apply lookup_app_l_Some].
  - destruct (update_medication_db u t i x db) as [->|(c & Hc & ->)]; simpl;
      [exists d; split; [done|apply keeps_refl]|].
    apply (set_first_keeps _ _ _ _ _ _ _ Hc); [|done]. absent_keys.
  - destruct (delete_medication_db i db) as [->|(c & Hc & ->)]; simpl;
      [exists d; split; [done|apply keeps_refl]|].
    apply (set_first_keeps _ _ _ _ _ _ _ Hc); [|done]. absent_keys.
  - rewrite create_medication_log_db. simpl. exists d. split; [done|apply keeps_refl].
  - destruct (update_medication_log_db u t i x db) as [->|(c & Hc & ->)]; simpl;
      exists d; (split; [done|apply keeps_refl]).
  - destruct (mark_medication_taken_db t i p db) as [->|(c & Hc & ->)]; simpl;
      exists d; (split; [done|apply keeps_refl]).
  - destruct (create_user_profile_db u t x db) as [->| ->]; simpl; exists d;
      (split; [done|apply keeps_refl]).
  - destruct (update_user_profile_db u t i x db) as [->|(c & Hc & ->)]; simpl;
      exists d; (split; [done|apply keeps_refl]).
  - destruct (complete_onboarding_db i db) as [->|(c & Hc & ->)]; simpl;
      exists d; (split; [done|apply keeps_refl]).
Qed.

Lemma taken_update_absent utcnow photo (k : string) :
  k ≠ "status" → k ≠ "taken_at" → k ≠ "verification_photo" →
  taken_update utcnow photo !! k = None.
Proof.
  intros H1 H2 H3. unfold taken_update. destruct (truthy photo).
  - rewrite lookup_insert_ne by done. rewrite lookup_insert_ne by done.
    by rewrite lookup_singleton_ne.
  - rewrite lookup_insert_ne by done. by rewrite lookup_singleton_ne.
Qed.

Lemma serve_keeps_log db r (j : nat) (d : doc) :
  medication_logs db !! j = Some d →
  ∃ d', medication_logs (serve r db) !! j = Some d'
        ∧ Forall (λ k, d' !! k = d !! k)
            ["id"; "user_id"; "medication_id"; "scheduled_time"; "created_at"].
Proof.
  intros Hj.
  destruct r as [[u t x|u t i x|i|u t x uid|u t i x|t i p]|u t x|u t i x|i]; cbn [serve handle].
  - destruct (create_medication_db u t x db) as [->| ->]; simpl; exists d;
      (split; [done|apply keeps_refl]).
  - destruct (update_medication_db u t i x db) as [->|(c & Hc & ->)]; simpl;
      exists d; (split; [done|apply keeps_refl]).
  - destruct (delete_medication_db i db) as [->|(c & Hc & ->)]; simpl;
      exists d; (split; [done|apply keeps_refl]).
  - rewrite create_medication_log_db. simpl. exists d. split; [|apply keeps_refl].
    by apply lookup_app_l_Some.
  - destruct (update_medication_log_db u t i x db) as [->|(c & Hc & ->)]; simpl;
      [exists d; split; [done|apply keeps_refl]|].
    apply (set_first_keeps _ _ _ _ _ _ _ Hc); [|done]. absent_keys.
  - destruct (mark_medication_taken_db t i p db) as [->|(c & Hc & ->)]; simpl;
      [exists d; split; [done|apply keeps_refl]|].
    apply (set_first_keeps _ _ _ _ _ _ _ Hc); [|done].
    repeat (apply Forall_cons; split); [..|by constructor]; by apply taken_update_absent.
  - destruct (create_user_profile_db u t x db) as [->| ->]; simpl; exists d;
      (split; [done|apply keeps_refl]).
  - destruct (update_user_profile_db u t i x db) as [->|(c & Hc & ->)]; simpl;
      exists d; (split; [done|apply keeps_refl]).
  - destruct (complete_onboarding_db i db) as [->|(c & Hc & ->)]; simpl;
      exists d; (split; [done|apply keeps_refl]).
Qed.

Lemma serve_keeps_profile db r (j : nat) (d : doc) :
  user_profiles db !! j = Some d →
  ∃ d', user_profiles (serve r db) !! j = Some d'
        ∧ Forall (λ k, d' !! k = d !! k) ["id"; "created_at"].
Proof.
  intros Hj.
  destruct r as [[u t x|u t i x|i|u t x uid|u t i x|t i p]|u t x|u t i x|i]; cbn [serve handle].
  - destruct (create_medication_db u t x db) as [->| ->]; simpl; exists d;
      (split; [done|apply keeps_refl]).
  - destruct (update_medication_db u t i x db) as [->|(c & Hc & ->)]; simpl;
      exists d; (split; [done|apply keeps_refl]).
  - destruct (delete_medication_db i db) as [->|(c & Hc & ->)]; simpl;
      exists d; (split; [done|apply keeps_refl]).
  - rewrite create_medication_log_db. simpl. exists d. split; [done|apply keeps_refl].
  - destruct (update_medication_log_db u t i x db) as [->|(c & Hc & ->)]; simpl;
      exists d; (split; [done|apply keeps_refl]).
  - destruct (mark_medication_taken_db t i p db) as [->|(c & Hc & ->)]; simpl;
      exists d; (split; [done|apply keeps_refl]).
  - destruct (create_user_profile_db u t x db) as [->| ->]; simpl; exists d;
      (split; [|apply keeps_refl]); [done|by apply lookup_app_l_Some].
  - destruct (update_user_profile_db u t i x db) as [->|(c & Hc & ->)]; simpl;
      [exists d; split; [done|apply keeps_refl]|].
    apply (set_first_keeps _ _ _ _ _ _ _ Hc); [|done]. absent_keys.
  - destruct (complete_onboarding_db i db) as [->|(c & Hc & ->)]; simpl;
      [exists d; split; [done|apply keeps_refl]|].
    apply (set_first_keeps _ _ _ _ _ _ _ Hc); [|done]. absent_keys.
Qed.

(** X3: no route removes or moves a stored document or rewrites what
    identifies it: whatever the request, every medication stays at its
    position with the same id, user_id, total_pills and created_at, every
    dose log with the same id, user_id, medication_id, scheduled_time and
    created_at, and every profile with the same id and created_at. *)
Theorem identity_fields_kept db r :
  (∀ j d, medications db !! j = Some d →
     ∃ d', medications (serve r db) !! j = Some d'
           ∧ Forall (λ k, d' !! k = d !! k) ["id"; "user_id"; "total_pills"; "created_at"])
  ∧ (∀ j d, medication_logs db !! j = Some d →
       ∃ d', medication_logs (serve r db) !! j = Some d'
             ∧ Forall (λ k, d' !! k = d !! k)
                 ["id"; "user_id"; "medication_id"; "scheduled_time"; "created_at"])
  ∧ (∀ j d, user_profiles db !! j = Some d →
       ∃ d', user_profiles (serve r db) !! j = Some d'
             ∧ Forall (λ k, d' !! k = d !! k) ["id"; "created_at"]).
Proof.
  split; [|split]; intros j d.
  - apply serve_keeps_medication.
  - apply serve_keeps_log.
  - apply serve_keeps_profile.
Qed.

(** ** Identifiers stay distinct *)

Lemma match_str_lookup (k s : string) (d : doc) :
  match_str k s d = true ↔ d !! k = Some (VStr s).
Proof.
  unfold match_str. destruct (d !! k) as [[]|]; try (split; done).
  case_bool_decide; subst; split; congruence.
Qed.

Lemma no_id_not_in (i : string) (c : list doc) :
  no_id i c = true ↔ Some (VStr i) ∉ ids c.
Proof.
  unfold no_id, ids. induction c as [|d c IH]; simpl.
  - split; [intros _; apply not_elem_of_nil|done].
  - rewrite andb_true_iff, not_elem_of_cons, IH, negb_true_iff.
    rewrite <- not_true_iff_false, match_str_lookup. intuition congruence.
Qed.

Lemma set_first_ids (q : doc → bool) (upd : doc) (c c' : list doc) :
  set_first q upd c = Some c' → upd !! "id" = None → ids c' = ids c.
Proof.
  intros Hu Hid. apply set_first_Some in Hu as (j & d & Hj & _ & _ & ->).
  unfold ids. rewrite list_fmap_insert. apply list_insert_id.
  rewrite list_lookup_fmap, Hj. simpl. by rewrite (lookup_union_r _ _ _ Hid).
Qed.

Lemma ids_snoc (c : list doc) (d : doc) : ids (c ++ [d]) = ids c ++ [d !! "id"].
Proof. unfold ids. by rewrite fmap_app. Qed.

Lemma NoDup_snoc {A} (l : list A) (x : A) : NoDup l → x ∉ l → NoDup (l ++ [x]).
Proof.
  intros Hl Hx. apply NoDup_app. split; [done|]. split; [|apply NoDup_singleton].
  intros y Hy ->%list_elem_of_singleton. done.
Qed.

(** X4: when every creation draws an identifier that its collection does
    not hold yet, the identifiers of each collection stay pairwise
    distinct: no update route can change an id. *)
Theorem ids_stay_distinct db r :
  distinct_ids db → unused_uuid db r = true → distinct_ids (serve r db).
Proof.
  unfold distinct_ids. intros (Hp & Hm & Hl) Hr.
  destruct r as [[u t x|u t i x|i|u t x uid|u t i x|t i p]|u t x|u t i x|i];
    cbn [serve handle unused_uuid] in *.
  - destruct (create_medication_db u t x db) as [->| ->]; [done|]. simpl.
    split; [done|]. split; [|done].
    rewrite ids_snoc, (stored_lookup_VStr _ "id" u) by reflexivity.
    apply NoDup_snoc; [done|]. by apply no_id_not_in.
  - destruct (update_medication_db u t i x db) as [->|(c & Hc & ->)]; [done|]. simpl.
    split; [done|]. split; [|done]. rewrite (set_first_ids _ _ _ _ Hc); [done|].
    by rewrite stored_lookup, drop_None_lookup.
  - destruct (delete_medication_db i db) as [->|(c & Hc & ->)]; [done|]. simpl.
    split; [done|]. split; [|done]. by rewrite (set_first_ids _ _ _ _ Hc).
  - rewrite create_medication_log_db. simpl. split; [done|]. split; [done|].
    rewrite ids_snoc, (stored_lookup_VStr _ "id" u) by reflexivity.
    apply NoDup_snoc; [done|]. by apply no_id_not_in.
  - destruct (update_medication_log_db u t i x db) as [->|(c & Hc & ->)]; [done|]. simpl.
    split; [done|]. split; [done|]. rewrite (set_first_ids _ _ _ _ Hc); [done|].
    by rewrite stored_lookup, drop_None_lookup.
  - destruct (mark_medication_taken_db t i p db) as [->|(c & Hc & ->)]; [done|]. simpl.
    split; [done|]. split; [done|]. rewrite (set_first_ids _ _ _ _ Hc); [done|].
    by apply taken_update_absent.
  - destruct (create_user_profile_db u t x db) as [->| ->]; [done|]. simpl.
    split; [|done]. rewrite ids_snoc, (stored_lookup_VStr _ "id" u) by reflexivity.
    apply NoDup_snoc; [done|]. by apply no_id_not_in.
  - destruct (update_user_profile_db u t i x db) as [->|(c & Hc & ->)]; [done|]. simpl.
    split; [|done]. rewrite (set_first_ids _ _ _ _ Hc); [done|].
    by rewrite stored_lookup, drop_None_lookup.
  - destruct (complete_onboarding_db i db) as [->|(c & Hc & ->)]; [done|]. simpl.
    split; [|done]. by rewrite (set_first_ids _ _ _ _ Hc).
Qed.

Lemma distinct_ids_A_and_B : distinct_ids db_A_and_B.
Proof.
  unfold distinct_ids. split; [apply NoDup_nil_2|]. split; [|apply NoDup_nil_2].
  change (ids (medications db_A_and_B)) with [Some (VStr "med-1"); Some (VStr "med-2")].
  apply NoDup_cons. split; [|apply NoDup_singleton].
  intros H%list_elem_of_singleton. discriminate H.
Qed.

Lemma ids_stay_distinct_witness :
  distinct_ids (serve (Write (CreateMedication "med-3" 4 sample_medication)) db_A_and_B).
Proof.
  apply (ids_stay_distinct db_A_and_B (Write (CreateMedication "med-3" 4 sample_medication))).
  - exact distinct_ids_A_and_B.
  - vm_compute. reflexivity.
Defined.

(** ** What the writes do *)

Lemma update_then_find (q : doc → bool) (upd : doc) (c : list doc) (j : nat) (d : doc) :
  c !! j = Some d → q d = true →
  forallb (λ d, negb (q d)) (take j c) = true →
  q (upd ∪ d) = true →
  set_first q upd c = Some (<[j := upd ∪ d]> c)
  ∧ find_one q (<[j := upd ∪ d]> c) = Some (upd ∪ d).
Proof.
  revert j. induction c as [|x c IH]; intros j Hj Hd Hbefore Hq; [done|].
  destruct j as [|j]; simpl in *.
  - injection Hj as ->. rewrite Hd. split; [done|].
    unfold find_one, find. simpl. by rewrite Hq.
  - apply andb_true_iff in Hbefore as [Hx Hbefore]. apply negb_true_iff in Hx.
    destruct (IH j Hj Hd Hbefore Hq) as [Hu Hf]. rewrite Hx, Hu. split; [done|].
    unfold find_one, find in *. simpl. by rewrite Hx.
Qed.

Lemma delete_medication_Ok i db msg db' :
  delete_medication i db = (Ok msg, db') →
  msg = "Medication deleted successfully"
  ∧ ∃ c, set_first (match_str "id" i) {["is_active" := VBool false]} (medications db) = Some c
         ∧ db' = set_medications c db.
Proof.
  rewrite delete_medication_run. destruct (set_first _ _ _) as [c|]; [|discriminate].
  intros [= <- <-]. eauto.
Qed.

Lemma mark_medication_taken_Ok utcnow i photo db msg db' :
  mark_medication_taken utcnow i photo db = (Ok msg, db') →
  msg = "Medication marked as taken"
  ∧ ∃ c, set_first (match_str "id" i) (taken_update utcnow photo) (medication_logs db) = Some c
         ∧ db' = set_medication_logs c db.
Proof.
  rewrite mark_medication_taken_run. destruct (set_first _ _ _) as [c|]; [|discriminate].
  intros [= <- <-]. eauto.
Qed.

(** X5: deleting a medication is a soft delete: when the identifiers are
    distinct, a successful [delete_medication] flags the one medication
    with that id inactive, keeps it stored at its position, and no
    listing of active medications shows it any more. *)
Theorem deleted_medication_hidden i db msg db' :
  NoDup (ids (medications db)) →
  delete_medication i db = (Ok msg, db') →
  (∃ j d, medications db !! j = Some d ∧ d !! "id" = Some (VStr i)
          ∧ medications db' = <[j := {["is_active" := VBool false]} ∪ d]> (medications db))
  ∧ length (medications db') = length (medications db)
  ∧ ∀ user_id, Forall (λ d, d !! "id" ≠ Some (VStr i)) (active_medications user_id db').
Proof.
  intros Hnd (_ & c & Hc & ->)%delete_medication_Ok.
  apply set_first_Some in Hc as (j & d & Hj & Hd%match_str_lookup & _ & ->). simpl.
  split; [by exists j, d|]. split; [apply length_insert|].
  intros uid. apply Forall_forall. intros d' Hd' Hid.
  unfold active_medications, to_list, find in Hd'. simpl in Hd'.
  apply subseteq_take, list_elem_of_In, filter_In in Hd' as [Hin Hact].
  apply andb_true_iff in Hact as [_ Hact].
  apply list_elem_of_In, list_elem_of_lookup in Hin as [j' Hj'].
  destruct (decide (j' = j)) as [->|Hne].
  - rewrite list_lookup_insert_eq in Hj' by (by eapply lookup_lt_Some).
    injection Hj' as <-. unfold match_true in Hact.
    by rewrite (lookup_union_Some_l _ _ "is_active" (VBool false)) in Hact.
  - rewrite list_lookup_insert_ne in Hj' by done. apply Hne.
    apply (NoDup_lookup (ids (medications db)) j' j (Some (VStr i)) Hnd);
      unfold ids; rewrite list_lookup_fmap.
    + by rewrite Hj', <- Hid.
    + by rewrite Hj, <- Hd.
Qed.

Lemma deleted_medication_hidden_witness :
  Forall (λ d, d !! "id" ≠ Some (VStr "med-1"))
    (active_medications "u1" (delete_medication "med-1" db_A_and_B).2).
Proof.
  apply (deleted_medication_hidden "med-1" db_A_and_B "Medication deleted successfully"
           (delete_medication "med-1" db_A_and_B).2).
  - apply distinct_ids_A_and_B.
  - reflexivity.
Defined.

(** X6: a successful [mark_medication_taken] changes the first log with
    that id and nothing else: its status becomes taken, its [taken_at] the
    time of the call cut to the millisecond, as the store keeps it, its
    [verification_photo] the photo when one is given, and every other
    field stays. *)
Theorem mark_medication_taken_effect utcnow i photo db msg db' :
  mark_medication_taken utcnow i photo db = (Ok msg, db') →
  msg = "Medication marked as taken"
  ∧ ∃ j d d',
      medication_logs db !! j = Some d ∧ d !! "id" = Some (VStr i)
      ∧ no_id i (take j (medication_logs db)) = true
      ∧ db' = set_medication_logs (<[j := d']> (medication_logs db)) db
      ∧ d' !! "status" = Some (VStr "taken")
      ∧ d' !! "taken_at" = Some (VDatetime (truncate_ms utcnow))
      ∧ d' !! "verification_photo"
        = (if truthy photo then Some (opt VStr photo) else d !! "verification_photo")
      ∧ ∀ k, k ≠ "status" → k ≠ "taken_at" → k ≠ "verification_photo" → d' !! k = d !! k.
Proof.
  intros (-> & c & Hc & ->)%mark_medication_taken_Ok. split; [done|].
  apply set_first_Some in Hc as (j & d & Hj & Hd%match_str_lookup & Hfirst & ->).
  exists j, d, (taken_update utcnow photo ∪ d).
  destruct (taken_update_lookup utcnow photo) as [Hs Ht].
  repeat split; try done.
  - by apply lookup_union_Some_l.
  - by apply lookup_union_Some_l.
  - unfold taken_update. destruct (truthy photo).
    + apply lookup_union_Some_l. by rewrite lookup_insert_eq.
    + by apply lookup_union_r.
  - intros k H1 H2 H3. by apply lookup_union_r, taken_update_absent.
Qed.

Lemma mark_medication_taken_effect_witness :
  "Medication marked as taken" = "Medication marked as taken"
  ∧ ∃ j d d',
      medication_logs db_one_dose !! j = Some d ∧ d !! "id" = Some (VStr "log-0")
      ∧ no_id "log-0" (take j (medication_logs db_one_dose)) = true
      ∧ (mark_medication_taken 1234567 "log-0" None db_one_dose).2
        = set_medication_logs (<[j := d']> (medication_logs db_one_dose)) db_one_dose
      ∧ d' !! "status" = Some (VStr "taken")
      ∧ d' !! "taken_at" = Some (VDatetime 1234000)
      ∧ d' !! "verification_photo"
        = (if truthy None then Some (opt VStr None) else d !! "verification_photo")
      ∧ ∀ k, k ≠ "status" → k ≠ "taken_at" → k ≠ "verification_photo" → d' !! k = d !! k.
Proof.
  apply (mark_medication_taken_effect 1234567 "log-0" None db_one_dose).
  reflexivity.
Defined.

Lemma forallb_lookup {A} (P : A → bool) (l : list A) (j : nat) (x : A) :
  forallb P l = true → l !! j = Some x → P x = true.
Proof.
  intros H Hj. rewrite forallb_forall in H. apply H, list_elem_of_In.
  by eapply list_elem_of_lookup_2.
Qed.

Ltac run_update_route Hu Hf :=
  cbn beta iota zeta; rewrite Hu; cbn beta iota zeta;
  cbn [medications medication_logs user_profiles
       set_medications set_medication_logs set_user_profiles];
  rewrite Hf; cbn beta iota zeta.




Lemma well_formed_A_and_B : well_formed db_A_and_B = true.
Proof. vm_compute. reflexivity. Qed.


(** X8: on a database whose documents fit their models,
    [update_medication_log] with at least one field and the id of a
    stored log succeeds: it sets the supplied fields on the first log with
    that id, status and [taken_at] independently of each other, a
    supplied [taken_at] cut to the millisecond as the store keeps it, and
    returns the document as stored. *)
Theorem update_medication_log_sets_fields uuid4 utcnow i x db (j : nat) (d : doc) :
  well_formed db = true →
  medication_logs db !! j = Some d → d !! "id" = Some (VStr i) →
  no_id i (take j (medication_logs db)) = true →
  x ≠ no_log_update →
  let d' := stored (drop_None (MedicationLogUpdate.dict x)) ∪ d in
  update_medication_log uuid4 utcnow i x db
  = (Ok d', set_medication_logs (<[j := d']> (medication_logs db)) db)
  ∧ d' !! "status"
    = from_option (λ s, Some (VStr s)) (d !! "status") (MedicationLogUpdate.status x)
  ∧ d' !! "taken_at"
    = from_option (λ t, Some (VDatetime (truncate_ms t))) (d !! "taken_at")
        (MedicationLogUpdate.taken_at x)
  ∧ d' !! "scheduled_time" = d !! "scheduled_time".
Proof.
  intros Hwf Hj Hid Hfirst Hx d'.
  apply well_formed_iff in Hwf as (_ & _ & Hl).
  assert (match_str "id" i d' = true) as Hq.
  { apply match_str_lookup. unfold d'. rewrite lookup_union_r; [done|].
    by rewrite stored_lookup, drop_None_lookup. }
  destruct (update_then_find (match_str "id" i)
              (stored (drop_None (MedicationLogUpdate.dict x)))
              (medication_logs db) j d Hj (proj2 (match_str_lookup _ _ _) Hid) Hfirst Hq)
    as [Hu Hf].
  split; [|split; [|split]].
  - unfold update_medication_log. rewrite bool_decide_eq_false_2
      by (by rewrite log_update_empty).
    unfold mbind, M_mbind, read, write, call, raise, lift. cbn beta iota zeta.
    rewrite update_one_run, log_update_encodable.
    run_update_route Hu Hf. fold d'. rewrite conforms_construct; [done|].
    apply conforms_union;
      [apply model_ok_NoDup, models_ok|apply stored_fits, log_update_fits|].
    by eapply forallb_lookup.
  - unfold d'. destruct (MedicationLogUpdate.status x) as [s|] eqn:Es; simpl.
    + apply lookup_union_Some_l. by rewrite log_update_dict_status, Es.
    + apply lookup_union_r. by rewrite log_update_dict_status, Es.
  - unfold d'. destruct (MedicationLogUpdate.taken_at x) as [ta|] eqn:Et; simpl.
    + apply lookup_union_Some_l. by rewrite log_update_dict_taken_at, Et.
    + apply lookup_union_r. by rewrite log_update_dict_taken_at, Et.
  - apply lookup_union_r. by rewrite stored_lookup, drop_None_lookup.
Qed.

Lemma update_medication_log_sets_fields_witness :
  (stored (drop_None (MedicationLogUpdate.dict (set_status "missed")))
   ∪ default ∅ (medication_logs db_one_dose !! 0%nat)) !! "status" = Some (VStr "missed").
Proof.
  apply (update_medication_log_sets_fields "x" 9 "log-0" (set_status "missed") db_one_dose 0
           (default ∅ (medication_logs db_one_dose !! 0%nat))).
  - vm_compute. reflexivity.
  - reflexivity.
  - reflexivity.
  - reflexivity.
  - discriminate.
Defined.

(** ** Profiles *)










(** ** Reading *)

Lemma filter_sublist {A} (f : A → bool) (l : list A) : List.filter f l `sublist_of` l.
Proof.
  induction l as [|x l IH]; simpl; [constructor|].
  destruct (f x); [by apply sublist_skip|by apply sublist_cons].
Qed.

Lemma forallb_sublist {A} (P : A → bool) (l1 l2 : list A) :
  l1 `sublist_of` l2 → forallb P l2 = true → forallb P l1 = true.
Proof.
  intros Hsub H. rewrite forallb_forall in H |- *. intros x Hx%list_elem_of_In.
  apply H, list_elem_of_In. by eapply sublist_subseteq.
Qed.

Lemma active_medications_sublist user_id db :
  active_medications user_id db `sublist_of` medications db.
Proof.
  unfold active_medications, to_list, find.
  etrans; [apply sublist_take|apply filter_sublist].
Qed.

(** X10: on a database whose documents fit their models,
    [get_user_medications] never fails: it returns, in stored order and
    as stored, the first 1000 medications of the user that are active,
    and only those. *)
Theorem get_user_medications_lists_active uuid4 utcnow user_id db :
  well_formed db = true →
  get_user_medications uuid4 utcnow user_id db = (Ok (active_medications user_id db), db)
  ∧ active_medications user_id db `sublist_of` medications db
  ∧ (length (active_medications user_id db) ≤ 1000)%nat
  ∧ Forall (λ d, d !! "user_id" = Some (VStr user_id) ∧ match_true "is_active" d = true)
      (active_medications user_id db).
Proof.
  intros (_ & Hm & _)%well_formed_iff. split; [|split; [|split]].
  - unfold get_user_medications, mbind, M_mbind, read, lift. cbn beta iota zeta.
    fold (active_medications user_id db). rewrite mapM_conforms; [done|].
    by eapply forallb_sublist; [apply active_medications_sublist|].
  - apply active_medications_sublist.
  - unfold active_medications, to_list. rewrite length_take. lia.
  - apply Forall_forall. intros d Hd. unfold active_medications, to_list, find in Hd.
    apply subseteq_take, list_elem_of_In, filter_In in Hd as [_ Hd].
    apply andb_true_iff in Hd as [Hu Ha]. by apply match_str_lookup in Hu.
Qed.

Lemma get_user_medications_lists_active_witness :
  get_user_medications "x" 0 "u1" db_A_and_B = (Ok (active_medications "u1" db_A_and_B), db_A_and_B).
Proof.
  apply (get_user_medications_lists_active "x" 0 "u1" db_A_and_B).
  exact well_formed_A_and_B.
Defined.

(** X11: a medication just created is stored when the encoder accepts
    it, with [created_at] cut to the millisecond: it is then active and
    listed last for its user, unless the user already has 1000 active
    medications listed, in which case the listing does not change.  When
    the encoder refuses it nothing is stored and the listing does not
    change either; the listings of other users never change. *)
Theorem created_medication_is_listed uuid4 utcnow x db :
  let m := new_medication uuid4 utcnow x in
  let db' := handle (CreateMedication uuid4 utcnow x) db in
  let user_id := MedicationCreateWithUser.user_id x in
  active_medications user_id db'
  = (if encodable m
     then if decide (length (active_medications user_id db) < 1000)%nat
          then active_medications user_id db ++ [stored m]
          else active_medications user_id db
     else active_medications user_id db)
  ∧ stored m !! "created_at" = Some (VDatetime (truncate_ms utcnow))
  ∧ match_true "is_active" (stored m) = true
  ∧ ∀ other, other ≠ user_id → active_medications other db' = active_medications other db.
Proof.
  intros m db' uid.
  assert (stored m !! "user_id" = Some (VStr uid)) as Huid
    by (by apply stored_lookup_VStr).
  assert (match_true "is_active" (stored m) = true) as Hact
    by (unfold match_true; by rewrite (stored_lookup_VBool m "is_active" true)).
  assert (match_str "user_id" uid (stored m) && match_true "is_active" (stored m) = true)
    as Hm by (apply andb_true_iff; split; [by apply match_str_lookup|done]).
  assert (∀ other, other ≠ uid → match_str "user_id" other (stored m) = false) as Hother.
  { intros other Hne. apply not_true_iff_false. rewrite match_str_lookup, Huid.
    congruence. }
  assert (medications db'
          = if encodable m then medications db ++ [stored m] else medications db) as Hdb.
  { unfold db'. cbn [handle]. rewrite create_medication_run. fold m.
    by destruct (encodable m). }
  split; [|split; [by apply (stored_lookup_Some m "created_at" (VDatetime utcnow))|]];
    [|split; [done|]]; unfold active_medications, to_list, find; rewrite Hdb;
    destruct (encodable m); try done.
  - rewrite List.filter_app. cbn [List.filter]. rewrite Hm.
    set (l := List.filter _ (medications db)).
    rewrite length_take. case_decide as Hlen.
    + rewrite (take_ge l) by lia. apply take_ge. rewrite length_app. simpl. lia.
    + apply take_app_le. lia.
  - intros other Hne. rewrite List.filter_app. cbn [List.filter].
    rewrite (Hother other Hne). cbn [andb]. by rewrite app_nil_r.
Qed.

#[local] Instance later_first_total : Total later_first.
Proof.
  intros d1 d2. unfold later_first.
  destruct (sort_key "scheduled_time" d1), (sort_key "scheduled_time" d2); simpl; lia || tauto.
Qed.

#[local] Instance later_first_trans : Transitive later_first.
Proof.
  intros d1 d2 d3. unfold later_first.
  destruct (sort_key "scheduled_time" d1), (sort_key "scheduled_time" d2),
    (sort_key "scheduled_time" d3); simpl; lia || tauto.
Qed.

Lemma StronglySorted_take {A} (R : relation A) (n : nat) (l : list A) :
  StronglySorted R l → StronglySorted R (take n l).
Proof.
  intros H. rewrite <- (take_drop n l) in H. by apply StronglySorted_app_1_l in H.
Qed.

Lemma get_user_medication_logs_run fromisoformat uuid4 utcnow user_id
    start_date end_date gte lte db :
  parse_bound fromisoformat start_date = Ok gte →
  parse_bound fromisoformat end_date = Ok lte →
  get_user_medication_logs fromisoformat uuid4 utcnow user_id start_date end_date db
  = (mapM (construct uuid4 utcnow MedicationLog)
       (to_list 1000 (sort_desc "scheduled_time"
          (find (logs_query user_id start_date end_date gte lte) (medication_logs db)))),
     db).
Proof.
  intros Hs He. unfold get_user_medication_logs, logs_query, mbind, M_mbind, read, lift, mret, M_ret.
  destruct (truthy start_date || truthy end_date) eqn:E.
  - rewrite Hs, He. reflexivity.
  - cbn beta iota zeta. do 4 f_equal. unfold find. apply List.filter_ext.
    intros d. by rewrite andb_true_r.
Qed.

(** X12: on a database whose documents fit their models and with bounds
    that parse, [get_user_medication_logs] never fails: it returns at
    most 1000 stored logs, every one of the user and within the bounds,
    the later scheduled before the earlier; when at most 1000 logs match,
    it returns all of them. *)
Theorem get_user_medication_logs_sorted fromisoformat uuid4 utcnow user_id
    start_date end_date gte lte db :
  well_formed db = true →
  parse_bound fromisoformat start_date = Ok gte →
  parse_bound fromisoformat end_date = Ok lte →
  let matching := find (logs_query user_id start_date end_date gte lte) (medication_logs db) in
  ∃ l, get_user_medication_logs fromisoformat uuid4 utcnow user_id start_date end_date db
       = (Ok l, db)
     ∧ (length l ≤ 1000)%nat
     ∧ StronglySorted later_first l
     ∧ l ⊆ matching
     ∧ ((length matching ≤ 1000)%nat → l ≡ₚ matching)
     ∧ Forall (λ d, d !! "user_id" = Some (VStr user_id)
                    ∧ (truthy start_date || truthy end_date = true →
                       match_range "scheduled_time" gte lte d = true)) matching.
Proof.
  intros (_ & _ & Hl)%well_formed_iff Hs He matching.
  set (sorted := sort_desc "scheduled_time" matching).
  assert (sorted ≡ₚ matching) as Hperm by apply merge_sort_Permutation.
  exists (take 1000 sorted). split; [|split; [|split; [|split; [|split]]]].
  - rewrite (get_user_medication_logs_run _ _ _ _ _ _ gte lte) by done.
    fold matching. fold sorted. unfold to_list. rewrite mapM_conforms; [done|].
    rewrite forallb_forall in Hl |- *. intros d Hd%list_elem_of_In. apply Hl.
    apply subseteq_take in Hd. rewrite Hperm in Hd. unfold matching, find in Hd.
    by apply list_elem_of_In, filter_In in Hd as [Hd _].
  - rewrite length_take. lia.
  - apply StronglySorted_take. unfold sorted, sort_desc.
    apply (StronglySorted_merge_sort later_first).
  - intros d Hd%subseteq_take. by rewrite Hperm in Hd.
  - intros Hlen. rewrite take_ge; [done|]. by rewrite Hperm.
  - apply Forall_forall. intros d Hd. unfold matching, find in Hd.
    apply list_elem_of_In, filter_In in Hd as [_ Hd]. unfold logs_query in Hd.
    apply andb_true_iff in Hd as [Hu Hr]. split; [by apply match_str_lookup|].
    intros E. by rewrite E in Hr.
Qed.

Lemma get_user_medication_logs_sorted_witness :
  ∃ l, get_user_medication_logs sample_fromisoformat "x" 0 "u1" (Some "2024-04-25") None
         db_scenario = (Ok l, db_scenario)
     ∧ (length l ≤ 1000)%nat
     ∧ StronglySorted later_first l
     ∧ l ⊆ find (logs_query "u1" (Some "2024-04-25") None (Some (combine sample_today 0)) None)
             (medication_logs db_scenario)
     ∧ ((length (find (logs_query "u1" (Some "2024-04-25") None
                         (Some (combine sample_today 0)) None)
                   (medication_logs db_scenario)) ≤ 1000)%nat →
        l ≡ₚ find (logs_query "u1" (Some "2024-04-25") None (Some (combine sample_today 0)) None)
               (medication_logs db_scenario))
     ∧ Forall (λ d, d !! "user_id" = Some (VStr "u1")
                    ∧ (truthy (Some "2024-04-25") || truthy None = true →
                       match_range "scheduled_time" (Some (combine sample_today 0)) None d
                       = true))
         (find (logs_query "u1" (Some "2024-04-25") None (Some (combine sample_today 0)) None)
            (medication_logs db_scenario)).
Proof.
  apply (get_user_medication_logs_sorted sample_fromisoformat "x" 0 "u1"
           (Some "2024-04-25") None (Some (combine sample_today 0)) None db_scenario).
  - vm_compute. reflexivity.
  - reflexivity.
  - reflexivity.
Defined.

(** ** The dashboard *)

Lemma conforms_Medication_pills (d : doc) :
  conforms Medication d = true → ∃ c, has_pills d c.
Proof.
  intros [_ Hf]%andb_true_iff. rewrite forallb_forall in Hf.
  assert (field_ok d (Field "total_pills" TInt Required) = true) as Ht
    by (apply Hf; simpl; tauto).
  assert (field_ok d (Field "remaining_pills" TInt Required) = true) as Hr
    by (apply Hf; simpl; tauto).
  unfold field_ok in Ht, Hr. simpl in Ht, Hr.
  destruct (d !! "total_pills") as [[| |t| | | |]|] eqn:Et; try discriminate.
  destruct (d !! "remaining_pills") as [[| |r| | | |]|] eqn:Er; try discriminate.
  by exists (t, r).
Qed.

Lemma conforms_pill_counts (l : list doc) :
  forallb (conforms Medication) l = true → ∃ counts, Forall2 has_pills l counts.
Proof.
  induction l as [|d l IH]; [by exists []|]. simpl.
  intros [Hd Hl]%andb_true_iff. destruct (IH Hl) as [counts Hc].
  destruct (conforms_Medication_pills d Hd) as [c Hdc].
  exists (c :: counts). by constructor.
Qed.

Lemma day_logs_of_sublist logs user_id d : day_logs_of logs user_id d `sublist_of` logs.
Proof. unfold day_logs_of, to_list, find. etrans; [apply sublist_take|apply filter_sublist]. Qed.

(** X13: on a database whose documents fit their models, the dashboard of
    a stored profile never fails and writes nothing: it returns the
    profile, the active medications of the user, the logs of the date of
    the first clock reading, the streak of the second clock reading, and
    as [total_pills_taken] the sum of (total − remaining) over exactly the
    medications it lists. *)
Theorem dashboard_of_stored_profile uuid4 utcnow now now' user_id db profile :
  well_formed db = true →
  find_one (match_str "id" user_id) (user_profiles db) = Some profile →
  ∃ counts,
    Forall2 has_pills (active_medications user_id db) counts
    ∧ get_user_dashboard uuid4 utcnow now now' user_id db
      = (Ok (Dashboard.mk profile
               (active_medications user_id db)
               (day_logs_of (medication_logs db) user_id (date_of now))
               (streak_run now' user_id db).1
               (sum_taken counts)
               (date_of now)), db).
Proof.
  intros (Hp & Hm & Hl)%well_formed_iff Hprofile.
  assert (forallb (conforms Medication) (active_medications user_id db) = true) as Hact
    by (by eapply forallb_sublist; [apply active_medications_sublist|]).
  destruct (conforms_pill_counts _ Hact) as [counts Hcounts].
  exists counts. split; [done|].
  unfold get_user_dashboard, mbind, M_mbind, read, raise, lift, mret, M_ret,
    calculate_medication_streak. cbn beta iota zeta.
  rewrite Hprofile. cbn beta iota zeta.
  fold (active_medications user_id db).
  fold (day_logs_of (medication_logs db) user_id (date_of now)).
  rewrite (total_pills_taken_sum _ _ Hcounts).
  rewrite conforms_construct.
  2:{ unfold find_one, find in Hprofile. rewrite forallb_forall in Hp. apply Hp.
      apply head_Some_elem_of, list_elem_of_In, filter_In in Hprofile. tauto. }
  rewrite (mapM_conforms _ _ _ _ Hact).
  rewrite mapM_conforms; [done|].
  by eapply forallb_sublist; [apply day_logs_of_sublist|].
Qed.

Lemma dashboard_of_stored_profile_witness :
  ∃ counts,
    Forall2 has_pills (active_medications "u1" db_with_profile) counts
    ∧ get_user_dashboard "x" 0 (combine sample_today 5) (combine sample_today 6) "u1"
        (serve (CreateUserProfile "u1" 6 sample_profile) db_with_profile)
      = (Ok (Dashboard.mk
               (stored (new_user_profile "u1" 6 sample_profile))
               (active_medications "u1" db_with_profile)
               []
               0
               (sum_taken counts)
               sample_today),
         serve (CreateUserProfile "u1" 6 sample_profile) db_with_profile).
Proof.
  apply (dashboard_of_stored_profile "x" 0 (combine sample_today 5) (combine sample_today 6)
           "u1" (serve (CreateUserProfile "u1" 6 sample_profile) db_with_profile)
           (stored (new_user_profile "u1" 6 sample_profile))).
  - vm_compute. reflexivity.
  - reflexivity.
Defined.

(** X14: the routes that read never write: whether they answer or fail,
    the profile reads, the medication listing, the log listing, the streak
    and the dashboard leave the database as it was. *)
Theorem reads_never_write fromisoformat uuid4 utcnow now now' user_id start_date end_date db :
  (get_user_profile uuid4 utcnow user_id db).2 = db
  ∧ (get_all_profiles uuid4 utcnow db).2 = db
  ∧ (get_user_medications uuid4 utcnow user_id db).2 = db
  ∧ (get_user_medication_logs fromisoformat uuid4 utcnow user_id start_date end_date db).2 = db
  ∧ (calculate_medication_streak now user_id db).2 = db
  ∧ (get_user_dashboard uuid4 utcnow now now' user_id db).2 = db.
Proof.
  split; [|split; [reflexivity|split; [reflexivity|split; [|split; [reflexivity|]]]]].
  - unfold get_user_profile, mbind, M_mbind, read, raise, lift. cbn beta iota zeta.
    by destruct (find_one _ _).
  - unfold get_user_medication_logs, mbind, M_mbind, read, lift, mret, M_ret.
    destruct (truthy start_date || truthy end_date); [|reflexivity].
    destruct (parse_bound fromisoformat start_date); [|reflexivity].
    by destruct (parse_bound fromisoformat end_date).
  - unfold get_user_dashboard, mbind, M_mbind, read, raise, lift, mret, M_ret,
      calculate_medication_streak. cbn beta iota zeta.
    destruct (find_one _ _) as [p|]; [|reflexivity]. cbn beta iota zeta.
    destruct (total_pills_taken _); [|reflexivity].
    destruct (construct uuid4 utcnow UserProfile p); [|reflexivity].
    destruct (mapM (construct uuid4 utcnow Medication) _); [|reflexivity].
    by destruct (mapM (construct uuid4 utcnow MedicationLog) _).
Qed.

(** ** The streak under writes *)

Lemma streak_loop_mono logs1 logs2 user_id current_date range streak q1 q2 :
  (∀ d, day_counts logs1 user_id d = true → day_counts logs2 user_id d = true) →
  (streak_loop logs1 user_id current_date range streak q1).1
  ≤ (streak_loop logs2 user_id current_date range streak q2).1.
Proof.
  intros Hmono. revert streak q1 q2.
  induction range as [|i range IH]; intros streak q1 q2; [simpl; lia|].
  destruct (day_counts logs1 user_id (days_ago current_date i)) eqn:E.
  - rewrite !streak_loop_counts by auto. apply IH.
  - rewrite (streak_loop_stops logs1) by done. simpl.
    apply (streak_loop_bounds logs2 user_id current_date (i :: range) streak q2).
Qed.

Lemma no_worse_on_day (d d' : doc) user_id day :
  no_worse d d' → on_day user_id day d' = on_day user_id day d.
Proof. intros (Hu & Hs & _). unfold on_day, match_str. by rewrite Hu, Hs. Qed.

Lemma no_worse_filter (l l' : list doc) user_id day :
  Forall2 no_worse l l' →
  Forall2 no_worse (List.filter (on_day user_id day) l) (List.filter (on_day user_id day) l').
Proof.
  induction 1 as [|d d' l l' Hd _ IH]; simpl; [constructor|].
  rewrite (no_worse_on_day d d' _ _ Hd).
  destruct (on_day user_id day d); [by constructor|done].
Qed.

Lemma no_worse_missed_count (l l' : list doc) :
  Forall2 no_worse l l' → missed_count l' ≤ missed_count l.
Proof.
  unfold missed_count. induction 1 as [|d d' l l' (_ & _ & Hd) _ IH]; simpl; [lia|].
  fold (is_missed d) (is_missed d').
  destruct (is_missed d') eqn:E'; [rewrite (Hd eq_refl); simpl; lia|].
  destruct (is_missed d); simpl; lia.
Qed.

Lemma no_worse_day_counts (l l' : list doc) user_id day :
  Forall2 no_worse l l' →
  day_counts l user_id day = true → day_counts l' user_id day = true.
Proof.
  intros Hl. unfold day_counts. rewrite !day_logs_of_bucket. unfold day_bucket.
  pose proof (Forall2_take _ _ _ 1000 (no_worse_filter _ _ user_id day Hl)) as Ht.
  intros [Hne Hm]%andb_true_iff. apply andb_true_iff. split.
  - apply negb_true_iff, bool_decide_eq_false. intros E. rewrite E in Ht.
    apply Forall2_nil_inv_r in Ht. apply negb_true_iff, bool_decide_eq_false in Hne. done.
  - apply negb_true_iff, bool_decide_eq_false.
    apply negb_true_iff, bool_decide_eq_false in Hm.
    pose proof (no_worse_missed_count _ _ Ht). lia.
Qed.

Lemma no_worse_refl (l : list doc) : Forall2 no_worse l l.
Proof. apply Forall_Forall2_diag, Forall_forall. intros d _. by repeat split. Qed.

Lemma taken_update_no_worse utcnow photo (d : doc) : no_worse d (taken_update utcnow photo ∪ d).
Proof.
  split; [|split].
  - by apply lookup_union_r, taken_update_absent.
  - by apply lookup_union_r, taken_update_absent.
  - unfold is_missed, get_eq_str. destruct (taken_update_lookup utcnow photo) as [Hs _].
    by rewrite (lookup_union_Some_l _ _ _ _ Hs).
Qed.

(** X15: marking a dose as taken never lowers a streak: for every user
    and reading of the clock, the streak after [mark_medication_taken],
    answered or failed, is at least the streak before. *)
Theorem marking_taken_keeps_streak now user_id utcnow log_id photo db :
  (streak_run now user_id db).1
  ≤ (streak_run now user_id (handle (MarkMedicationTaken utcnow log_id photo) db)).1.
Proof.
  unfold streak_run. apply streak_loop_mono. intros day. apply no_worse_day_counts.
  cbn [handle].
  destruct (mark_medication_taken_db utcnow log_id photo db) as [->|(c & Hc & ->)];
    [apply no_worse_refl|].
  apply set_first_Some in Hc as (j & d & Hj & _ & _ & ->). simpl.
  rewrite <- (list_insert_id _ _ _ Hj) at 1.
  apply Forall2_insert; [apply no_worse_refl|apply taken_update_no_worse].
Qed.

Lemma filter_insert_false {A} (f : A → bool) (l : list A) (j : nat) (x y : A) :
  l !! j = Some x → f x = false → f y = false →
  List.filter f (<[j := y]> l) = List.filter f l.
Proof.
  revert j. induction l as [|z l IH]; intros j Hj Hx Hy; [done|].
  destruct j as [|j]; simpl in *.
  - injection Hj as ->. by rewrite Hx, Hy.
  - by rewrite (IH j Hj Hx Hy).
Qed.

Lemma set_first_other_user (user_id log_id : string) (upd : doc) db c :
  not_of_user user_id log_id db = true → upd !! "user_id" = None →
  set_first (match_str "id" log_id) upd (medication_logs db) = Some c →
  List.filter (match_str "user_id" user_id) c
  = List.filter (match_str "user_id" user_id) (medication_logs db).
Proof.
  intros Hnot Hupd (j & d & Hj & Hd & _ & ->)%set_first_Some.
  assert (match_str "user_id" user_id d = false) as Hu.
  { pose proof (forallb_lookup _ _ _ _ Hnot Hj) as H. simpl in H.
    rewrite Hd in H. simpl in H. by apply negb_true_iff in H. }
  apply (filter_insert_false _ _ _ d); [done|done|].
  unfold match_str in *. by rewrite (lookup_union_r _ _ _ Hupd).
Qed.

Lemma serve_user_logs user_id db r :
  leaves_logs_of user_id db r = true → user_logs user_id (serve r db) = user_logs user_id db.
Proof.
  unfold user_logs. intros Hr.
  destruct r as [[u t x|u t i x|i|u t x uid|u t i x|t i p]|u t x|u t i x|i];
    cbn [serve handle leaves_logs_of] in *.
  - by destruct (create_medication_db u t x db) as [->| ->].
  - by destruct (update_medication_db u t i x db) as [->|(c & Hc & ->)].
  - by destruct (delete_medication_db i db) as [->|(c & Hc & ->)].
  - rewrite create_medication_log_db. cbn [snd medication_logs set_medication_logs].
    rewrite List.filter_app. cbn [List.filter].
    replace (match_str "user_id" user_id (stored (new_medication_log u t x uid))) with false;
      [by rewrite app_nil_r|].
    symmetry. apply not_true_iff_false. rewrite match_str_lookup.
    rewrite (stored_lookup_VStr _ "user_id" uid) by reflexivity.
    apply negb_true_iff, bool_decide_eq_false in Hr. congruence.
  - destruct (update_medication_log_db u t i x db) as [->|(c & Hc & ->)]; [done|].
    cbn [medication_logs set_medication_logs].
    refine (set_first_other_user _ _ _ _ _ Hr _ Hc).
    by rewrite stored_lookup, drop_None_lookup.
  - destruct (mark_medication_taken_db t i p db) as [->|(c & Hc & ->)]; [done|].
    cbn [medication_logs set_medication_logs].
    refine (set_first_other_user _ _ _ _ _ Hr _ Hc). by apply taken_update_absent.
  - by destruct (create_user_profile_db u t x db) as [->| ->].
  - by destruct (update_user_profile_db u t i x db) as [->|(c & Hc & ->)].
  - by destruct (complete_onboarding_db i db) as [->|(c & Hc & ->)].
Qed.

(** X16: the streak of a user depends on no one else's data: a request
    that creates or changes no dose log of the user (a profile or
    medication request, a log created for another user, an update or a
    take of a log of another user) leaves the streak, and the dates the
    walk queries, as they were. *)
Theorem streak_unchanged_by_others now user_id db r :
  leaves_logs_of user_id db r = true →
  streak_run now user_id (serve r db) = streak_run now user_id db.
Proof.
  intros Hr. unfold streak_run. apply streak_loop_ext. intros d.
  rewrite !day_logs_of_user_logs. by rewrite (serve_user_logs _ _ _ Hr).
Qed.

Lemma streak_unchanged_by_others_witness :
  streak_run (combine sample_today 9) "u1"
    (serve (Write (CreateMedicationLog "log-9" 3
                     (MedicationLogCreate.mk "med-5" (combine sample_today 1) "missed") "u2"))
       db_scenario)
  = streak_run (combine sample_today 9) "u1" db_scenario.
Proof.
  apply (streak_unchanged_by_others (combine sample_today 9) "u1" db_scenario
           (Write (CreateMedicationLog "log-9" 3
                     (MedicationLogCreate.mk "med-5" (combine sample_today 1) "missed") "u2"))).
  reflexivity.
Defined.

(** ** Onboarding *)

Lemma complete_onboarding_Ok i db msg db' :
  complete_onboarding i db = (Ok msg, db') →
  msg = "Onboarding completed successfully"
  ∧ ∃ c, set_first (match_str "id" i) {["onboarding_completed" := VBool true]}
           (user_profiles db) = Some c
         ∧ db' = set_user_profiles c db.
Proof.
  rewrite complete_onboarding_run. destruct (set_first _ _ _) as [c|]; [|discriminate].
  intros [= <- <-]. eauto.
Qed.

(** X17: a successful [complete_onboarding] sets [onboarding_completed] on
    the first profile with that id and changes nothing else; repeating it
    changes nothing more; and [update_user_profile] cannot change the
    flag. *)
Theorem onboarding_completed_once i db msg db' :
  complete_onboarding i db = (Ok msg, db') →
  (∃ j d d',
     user_profiles db !! j = Some d ∧ d !! "id" = Some (VStr i)
     ∧ no_id i (take j (user_profiles db)) = true
     ∧ db' = set_user_profiles (<[j := d']> (user_profiles db)) db
     ∧ d' !! "onboarding_completed" = Some (VBool true)
     ∧ ∀ k, k ≠ "onboarding_completed" → d' !! k = d !! k)
  ∧ complete_onboarding i db' = (Ok msg, db')
  ∧ ∀ u t i' x j d, user_profiles db' !! j = Some d →
      ∃ d', user_profiles (update_user_profile u t i' x db').2 !! j = Some d'
            ∧ d' !! "onboarding_completed" = d !! "onboarding_completed".
Proof.
  intros (-> & c & Hc & ->)%complete_onboarding_Ok.
  apply set_first_Some in Hc as (j & d & Hj & Hq & Hfirst & ->).
  set (upd := {["onboarding_completed" := VBool true]} : doc).
  assert (match_str "id" i (upd ∪ d) = true) as Hq'.
  { unfold match_str in *. by rewrite (lookup_union_r upd d "id"). }
  assert (j < length (user_profiles db))%nat as Hlt by (by eapply lookup_lt_Some).
  split; [|split].
  - exists j, d, (upd ∪ d). repeat split; try done.
    + by apply match_str_lookup.
    + by apply lookup_union_Some_l.
    + intros k Hk. apply lookup_union_r. by apply lookup_singleton_ne.
  - assert (<[j := upd ∪ d]> (user_profiles db) !! j = Some (upd ∪ d)) as H1
      by (by apply list_lookup_insert_eq).
    assert (forallb (λ d, negb (match_str "id" i d))
              (take j (<[j := upd ∪ d]> (user_profiles db))) = true) as H2
      by (by rewrite take_insert_ge).
    assert (match_str "id" i (upd ∪ (upd ∪ d)) = true) as H3.
    { unfold match_str in *. by rewrite (lookup_union_r upd (upd ∪ d) "id"). }
    destruct (update_then_find _ upd _ j _ H1 Hq' H2 H3) as [Hu _].
    rewrite complete_onboarding_run.
    cbn [user_profiles set_user_profiles]. fold upd. rewrite Hu.
    cbn beta iota zeta. rewrite list_insert_insert_eq.
    replace (upd ∪ (upd ∪ d)) with (upd ∪ d); [done|].
    apply map_eq. intros k. rewrite !lookup_union. by destruct (upd !! k), (d !! k).
  - intros u t i' x j' d0 Hj'.
    destruct (update_user_profile_db u t i' x (set_user_profiles (<[j:=upd ∪ d]> (user_profiles db)) db))
      as [->|(c & Hc & ->)]; [by exists d0|].
    cbn [user_profiles set_user_profiles] in *.
    destruct (set_first_lookup _ _ _ _ _ _ Hc Hj') as (d1 & Hd1 & [->|[_ ->]]);
      eexists; (split; [exact Hd1|]); [done|].
    apply lookup_union_r. by rewrite stored_lookup, drop_None_lookup.
Qed.

Lemma onboarding_completed_once_witness :
  complete_onboarding "user-9" (complete_onboarding "user-9" db_with_profile).2
  = (Ok "Onboarding completed successfully", (complete_onboarding "user-9" db_with_profile).2).
Proof.
  apply (onboarding_completed_once "user-9" db_with_profile
           "Onboarding completed successfully"
           (complete_onboarding "user-9" db_with_profile).2).
  reflexivity.
Defined.

(** ** Stored documents are read back as they are *)

(** X18: in every state that the routes reach from the empty database,
    every stored profile, medication and dose log fits its model, so that
    reading it back through the model returns it unchanged: no validation
    error, no default drawn, no id or creation time made anew. *)
Theorem served_documents_read_back db :
  served db →
  well_formed db = true
  ∧ ∀ uuid4 utcnow,
      Forall (λ d, construct uuid4 utcnow UserProfile d = Ok d) (user_profiles db)
      ∧ Forall (λ d, construct uuid4 utcnow Medication d = Ok d) (medications db)
      ∧ Forall (λ d, construct uuid4 utcnow MedicationLog d = Ok d) (medication_logs db).
Proof.
  intros Hwf%served_well_formed. split; [done|]. intros u t.
  apply well_formed_iff in Hwf as (Hp & Hm & Hl).
  rewrite forallb_forall in Hp, Hm, Hl.
  repeat split; apply Forall_forall; intros d Hd%list_elem_of_In;
    apply conforms_construct; auto.
Qed.

Lemma served_with_profile : served db_with_profile.
Proof.
  unfold db_with_profile. apply served_step.
  change db_A_and_B with
    (serve (Write (CreateMedication "med-2" 3
                     (MedicationCreateWithUser.mk "u1" "Metformin" "500mg" "twice daily"
                        ["08:00"; "20:00"] 20 None None)))
       (serve (Write (UpdateMedication "x" 2 "med-1" (set_remaining 25)))
          (serve (Write (CreateMedication "med-1" 1 sample_medication)) empty_db))).
  repeat apply served_step. apply served_empty.
Qed.

Lemma served_documents_read_back_witness : well_formed db_with_profile = true.
Proof.
  apply (served_documents_read_back db_with_profile).
  exact served_with_profile.
Defined.

(** ** Calendar days *)

(** X19: the day windows of the streak walk and of the dashboard partition
    time: a log of the user is matched by the query of the date of its
    [scheduled_time] and by the query of no other date, and the window of
    a date ends one microsecond before the next one starts. *)
Theorem day_windows_partition user_id (l : doc) (t : datetime) :
  l !! "user_id" = Some (VStr user_id) →
  l !! "scheduled_time" = Some (VDatetime t) →
  (∀ d, day_query user_id (combine d time_min) (combine d time_max) l = true ↔ d = date_of t)
  ∧ ∀ d, combine (d + 1) time_min = combine d time_max + 1.
Proof.
  intros Hu Ht. split.
  - intros d. rewrite day_query_on_day. unfold on_day.
    rewrite (proj2 (match_str_lookup _ _ _) Hu), Ht. simpl.
    rewrite bool_decide_eq_true. split; congruence.
  - intros d. unfold combine, time_min, time_max, MICROSECONDS_PER_DAY. lia.
Qed.

Lemma day_windows_partition_witness :
  (∀ d, day_query "u1" (combine d time_min) (combine d time_max)
          (new_medication_log "log-0" 1
             (MedicationLogCreate.mk "med-1" (combine sample_today 86399999999) "pending") "u1")
        = true ↔ d = date_of (combine sample_today 86399999999))
  ∧ ∀ d, combine (d + 1) time_min = combine d time_max + 1.
Proof.
  apply (day_windows_partition "u1"
           (new_medication_log "log-0" 1
              (MedicationLogCreate.mk "med-1" (combine sample_today 86399999999) "pending") "u1")
           (combine sample_today 86399999999)).
  - reflexivity.
  - reflexivity.
Defined.

(** ** A dose logged *)

Lemma new_log_on_day uuid4 utcnow x user_id other day :
  on_day other day (stored (new_medication_log uuid4 utcnow x user_id))
  = bool_decide (user_id = other)
    && bool_decide (date_of (MedicationLogCreate.scheduled_time x) = day).
Proof.
  unfold on_day, match_str.
  rewrite (stored_lookup_VStr _ "user_id" user_id) by reflexivity.
  rewrite (stored_lookup_Some _ "scheduled_time"
             (VDatetime (MedicationLogCreate.scheduled_time x))) by reflexivity.
  change (stored_value (VDatetime ?t)) with (VDatetime (truncate_ms t)).
  cbn beta iota. by rewrite date_of_truncate_ms.
Qed.

Lemma day_logs_of_created uuid4 utcnow x user_id db other day :
  let l := stored (new_medication_log uuid4 utcnow x user_id) in
  let db' := handle (CreateMedicationLog uuid4 utcnow x user_id) db in
  day_logs_of (medication_logs db') other day
  = if decide (other = user_id ∧ day = date_of (MedicationLogCreate.scheduled_time x)
               ∧ (length (day_logs_of (medication_logs db) other day) < 1000)%nat)
    then day_logs_of (medication_logs db) other day ++ [l]
    else day_logs_of (medication_logs db) other day.
Proof.
  intros l db'.
  assert (medication_logs db' = medication_logs db ++ [l]) as ->
    by (unfold db'; cbn [handle]; by rewrite create_medication_log_db).
  rewrite !day_logs_of_bucket. unfold day_bucket. rewrite List.filter_app. cbn [List.filter].
  unfold l at 1. rewrite new_log_on_day.
  set (b := List.filter _ (medication_logs db)).
  destruct (decide _) as [(-> & -> & Hlen)|Hn].
  - rewrite !bool_decide_eq_true_2 by done. cbn [andb]. rewrite length_take in Hlen.
    rewrite (take_ge b) by lia. apply take_ge. rewrite length_app. simpl. lia.
  - destruct (bool_decide (user_id = other)
              && bool_decide (date_of (MedicationLogCreate.scheduled_time x) = day)) eqn:E.
    + apply andb_true_iff in E as [E1%bool_decide_eq_true E2%bool_decide_eq_true].
      apply take_app_le. rewrite length_take in Hn.
      destruct (decide (length b < 1000)%nat) as [Hlt|]; [|lia].
      exfalso. apply Hn. repeat split; [done|done|lia].
    + by rewrite app_nil_r.
Qed.

(** X20: a dose log just created is stored with its [scheduled_time] and
    [created_at] cut to the millisecond, which leaves the date of its
    [scheduled_time] as it is: the stored log joins the bucket of its
    user and of that date, last, unless the day query already returns
    1000 logs; the day queries of every other user or date return what
    they returned before. *)
Theorem created_log_in_its_day uuid4 utcnow x user_id db other day :
  let l := stored (new_medication_log uuid4 utcnow x user_id) in
  let db' := handle (CreateMedicationLog uuid4 utcnow x user_id) db in
  l !! "scheduled_time"
  = Some (VDatetime (truncate_ms (MedicationLogCreate.scheduled_time x)))
  ∧ l !! "created_at" = Some (VDatetime (truncate_ms utcnow))
  ∧ date_of (truncate_ms (MedicationLogCreate.scheduled_time x))
    = date_of (MedicationLogCreate.scheduled_time x)
  ∧ medication_logs db' = medication_logs db ++ [l]
  ∧ day_logs_of (medication_logs db') other day
    = if decide (other = user_id ∧ day = date_of (MedicationLogCreate.scheduled_time x)
                 ∧ (length (day_logs_of (medication_logs db) other day) < 1000)%nat)
      then day_logs_of (medication_logs db) other day ++ [l]
      else day_logs_of (medication_logs db) other day.
Proof.
  intros l db'.
  split; [by apply (stored_lookup_Some _ "scheduled_time"
                      (VDatetime (MedicationLogCreate.scheduled_time x)))|].
  split; [by apply (stored_lookup_Some _ "created_at" (VDatetime utcnow))|].
  split; [apply date_of_truncate_ms|].
  split; [unfold db'; cbn [handle]; by rewrite create_medication_log_db|].
  apply day_logs_of_created.
Qed.


(** X21: recording a missed dose scheduled today takes the streak of its
    user to 0, unless today's query already returns 1000 logs. *)
Theorem missed_today_resets_streak now uuid4 utcnow x user_id db :
  MedicationLogCreate.status x = "missed" →
  date_of (MedicationLogCreate.scheduled_time x) = date_of now →
  (length (day_logs_of (medication_logs db) user_id (date_of now)) < 1000)%nat →
  calculate_medication_streak now user_id
    (handle (CreateMedicationLog uuid4 utcnow x user_id) db)
  = (Ok 0, handle (CreateMedicationLog uuid4 utcnow x user_id) db).
Proof.
  intros Hs Hd Hlen. unfold calculate_medication_streak, read. do 2 f_equal.
  unfold streak_run. change (seq 0 365) with (0%nat :: seq 1 364).
  rewrite streak_loop_stops; [done|].
  replace (days_ago (date_of now) 0) with (date_of now) by (unfold days_ago; lia).
  unfold day_counts. rewrite day_logs_of_created.
  rewrite decide_True by done. apply andb_false_iff. right.
  apply negb_false_iff, bool_decide_eq_true, missed_count_pos.
  rewrite existsb_app. apply orb_true_iff. right. simpl.
  unfold is_missed, get_eq_str.
  rewrite (stored_lookup_VStr _ "status" (MedicationLogCreate.status x)) by reflexivity.
  cbn beta iota. by rewrite Hs.
Qed.

Lemma missed_today_resets_streak_witness :
  calculate_medication_streak (combine sample_today 9) "u1"
    (handle (CreateMedicationLog "log-9" 3
               (MedicationLogCreate.mk "med-1" (combine sample_today 7) "missed") "u1")
       db_open_days)
  = (Ok 0, handle (CreateMedicationLog "log-9" 3
                     (MedicationLogCreate.mk "med-1" (combine sample_today 7) "missed") "u1")
             db_open_days).
Proof.
  apply (missed_today_resets_streak (combine sample_today 9) "log-9" 3
           (MedicationLogCreate.mk "med-1" (combine sample_today 7) "missed") "u1"
           db_open_days).
  - reflexivity.
  - vm_compute. reflexivity.
  - vm_compute. lia.
Defined.
